(** * Framebuffer layout and NV12 conversion helpers of lib/igt_fb.c

    A shallow embedding of the layout arithmetic of [lib/igt_fb.c]
    (tile geometry, stride/size calculation, modifier/tiling maps, plane
    dimensions) and of the index arithmetic of the NV12 <-> RGB24
    converters, with the properties the specification states about them.

    Conventions.
    - C [int] and [unsigned] values are integers of [Z]; every operation
      that can wrap in C is followed by [u32] (reduction modulo 2^32) or
      [s32] where the C code computes in that type.
    - [igt_assert] failing is the outcome [Abort], [igt_require] failing
      is the outcome [Skip]; a loop that is still running when its fuel is
      used up is the outcome [Timeout]; an access outside a buffer is the
      outcome [Fault].
    - A file descriptor is represented by what the code observes through
      it: whether the device is an Intel one, its generation, and whether
      the chipset is a 915. *)

From Stdlib Require Import ZArith List Lia Bool String SpecFloat.
From stdpp Require Import base numbers list.
Import ListNotations.
Local Open Scope Z_scope.

(** ** Outcomes of a library call *)

Inductive outcome (A : Type) : Type :=
| Ok (a : A)
| Abort
| Skip
| Timeout
| Fault.
Arguments Ok {A} a.
Arguments Abort {A}.
Arguments Skip {A}.
Arguments Timeout {A}.
Arguments Fault {A}.

Definition obind {A B : Type} (m : outcome A) (k : A -> outcome B) : outcome B :=
  match m with
  | Ok a => k a
  | Abort => Abort
  | Skip => Skip
  | Timeout => Timeout
  | Fault => Fault
  end.

Declare Scope outcome_scope.
Delimit Scope outcome_scope with outcome.
Notation "'do' x <- m ; k" := (obind m (fun x => k))
  (at level 10, x name, m at level 100, k at level 200) : outcome_scope.
Notation "'do' ( x , y ) <- m ; k" := (obind m (fun '(x, y) => k))
  (at level 10, x name, y name, m at level 100, k at level 200)
  : outcome_scope.
Notation "'do' ( x , y , z ) <- m ; k" := (obind m (fun '(x, y, z) => k))
  (at level 10, x name, y name, z name, m at level 100, k at level 200)
  : outcome_scope.
Local Open Scope outcome_scope.

(** [igt_assert(c)] and [igt_require(c)] as statements. *)
Definition igt_assert (c : bool) : outcome unit := if c then Ok tt else Abort.
Definition igt_require (c : bool) : outcome unit := if c then Ok tt else Skip.

Definition returns {A : Type} (m : outcome A) : Prop := exists a, m = Ok a.

(** ** Machine integers *)

Definition u32 (z : Z) : Z := z mod 2 ^ 32.
Definition s32 (z : Z) : Z := (z + 2 ^ 31) mod 2 ^ 32 - 2 ^ 31.

(** Modelled from the spec: the [ALIGN] macro is defined in a header that is
    not part of the sources ("rounded up to tile width"); this is the usual
    definition [(((v) + (a)-1) & ~((a)-1))], evaluated in [unsigned]. *)
Definition ALIGN (v a : Z) : Z :=
  Z.land (u32 (v + a - 1)) (u32 (Z.lnot (a - 1))).

(** Rounding up to a multiple, as an arithmetic function. *)
Definition round_up (v a : Z) : Z := a * ((v + a - 1) / a).

(** ** Constants of the DRM interface *)

(** Modelled from the spec: the modifier and tiling constants come from
    headers that are not part of the sources; the values are those of the
    DRM interface ([fourcc_mod_code(INTEL, n)] and [I915_TILING_*]). *)
Definition local_fourcc_mod_code (vendor val : Z) : Z :=
  Z.lor (Z.shiftl vendor 56) (Z.land val 72057594037927935).
Definition LOCAL_DRM_FORMAT_MOD_VENDOR_INTEL : Z := 1.
Definition LOCAL_DRM_FORMAT_MOD_NONE : Z := 0.
Definition LOCAL_I915_FORMAT_MOD_X_TILED : Z :=
  Eval cbv in local_fourcc_mod_code LOCAL_DRM_FORMAT_MOD_VENDOR_INTEL 1.
Definition LOCAL_I915_FORMAT_MOD_Y_TILED : Z :=
  Eval cbv in local_fourcc_mod_code LOCAL_DRM_FORMAT_MOD_VENDOR_INTEL 2.
Definition LOCAL_I915_FORMAT_MOD_Yf_TILED : Z :=
  Eval cbv in local_fourcc_mod_code LOCAL_DRM_FORMAT_MOD_VENDOR_INTEL 3.

Definition I915_TILING_NONE : Z := 0.
Definition I915_TILING_X : Z := 1.
Definition I915_TILING_Y : Z := 2.
Definition I915_TILING_Yf : Z := 3.

(** Modelled from the spec: the four-character codes of the pixel formats
    ("looked up from a fixed registry by a four-character code"), as
    [fourcc_code(a, b, c, d)] of the DRM interface. *)
Definition fourcc_code (a b c d : Z) : Z :=
  Z.lor (Z.lor a (Z.shiftl b 8)) (Z.lor (Z.shiftl c 16) (Z.shiftl d 24)).
Definition DRM_FORMAT_RGB565 : Z := Eval cbv in fourcc_code 82 71 49 54.
Definition DRM_FORMAT_XRGB8888 : Z := Eval cbv in fourcc_code 88 82 50 52.
Definition DRM_FORMAT_XRGB2101010 : Z := Eval cbv in fourcc_code 88 82 51 48.
Definition DRM_FORMAT_ARGB8888 : Z := Eval cbv in fourcc_code 65 82 50 52.
Definition DRM_FORMAT_NV12 : Z := Eval cbv in fourcc_code 78 86 49 50.

(** ** The device behind a file descriptor *)

(** Modelled from the spec: [igt_require_intel], [intel_gen] and [IS_915]
    are defined outside the sources; a descriptor is the triple of what
    they answer ("hardware-generation parameter"). *)
Record device : Type := mk_device {
  is_intel : bool;
  gen : Z;
  is_915 : bool
}.

Definition igt_require_intel (fd : device) : outcome unit :=
  igt_require (is_intel fd).
Definition intel_gen (fd : device) : Z := gen fd.
Definition IS_915 (fd : device) : bool := is_915 fd.

(** ** The format registry *)

Inductive cairo_format_t : Type :=
| CAIRO_FORMAT_RGB16_565
| CAIRO_FORMAT_RGB24
| CAIRO_FORMAT_RGB30
| CAIRO_FORMAT_ARGB32.

Record format_desc_struct : Type := mk_format {
  drm_id : Z;
  cairo_id : cairo_format_t;
  name : string;
  bpp : Z;
  depth : Z;
  planes : Z;
  plane_bpp : list Z
}.

Definition format_desc : list format_desc_struct :=
  [ mk_format DRM_FORMAT_RGB565 CAIRO_FORMAT_RGB16_565 "RGB565" 16 16 0 [0; 0; 0; 0];
    mk_format DRM_FORMAT_XRGB8888 CAIRO_FORMAT_RGB24 "XRGB8888" 32 24 0 [0; 0; 0; 0];
    mk_format DRM_FORMAT_XRGB2101010 CAIRO_FORMAT_RGB30 "XRGB2101010" 32 30 0 [0; 0; 0; 0];
    mk_format DRM_FORMAT_ARGB8888 CAIRO_FORMAT_ARGB32 "ARGB8888" 32 32 0 [0; 0; 0; 0];
    mk_format DRM_FORMAT_NV12 CAIRO_FORMAT_RGB24 "NV12" 32 (-1) 2 [8; 16; 0; 0] ].

Fixpoint lookup_in (table : list format_desc_struct) (drm_format : Z)
  : option format_desc_struct :=
  match table with
  | [] => None
  | format :: rest =>
      if negb (drm_id format =? drm_format) then lookup_in rest drm_format
      else Some format
  end.

Definition lookup_drm_format (drm_format : Z) : option format_desc_struct :=
  lookup_in format_desc drm_format.

(** [format->plane_bpp[plane]]. *)
Definition plane_bpp_at (format : format_desc_struct) (plane : Z) : Z :=
  nth (Z.to_nat plane) (plane_bpp format) 0.

(** ** Tile geometry: [igt_get_fb_tile_size] *)

Definition igt_get_fb_tile_size (fd : device) (tiling : Z) (fb_bpp : Z)
  : outcome (Z * Z) :=
  if tiling =? LOCAL_DRM_FORMAT_MOD_NONE then Ok (64, 1)
  else if tiling =? LOCAL_I915_FORMAT_MOD_X_TILED then
    do _ <- igt_require_intel fd;
    if intel_gen fd =? 2 then Ok (128, 16) else Ok (512, 8)
  else if tiling =? LOCAL_I915_FORMAT_MOD_Y_TILED then
    do _ <- igt_require_intel fd;
    if intel_gen fd =? 2 then Ok (128, 16)
    else if IS_915 fd then Ok (512, 8)
    else Ok (128, 32)
  else if tiling =? LOCAL_I915_FORMAT_MOD_Yf_TILED then
    do _ <- igt_require_intel fd;
    if fb_bpp =? 8 then Ok (64, 64)
    else if (fb_bpp =? 16) || (fb_bpp =? 32) then Ok (128, 32)
    else if (fb_bpp =? 64) || (fb_bpp =? 128) then Ok (256, 16)
    else do _ <- igt_assert false; Ok (0, 0)
  else do _ <- igt_assert false; Ok (0, 0).

(** ** Modifier and tiling constants: [igt_fb_mod_to_tiling],
    [igt_fb_tiling_to_mod] *)

Definition igt_fb_mod_to_tiling (modifier : Z) : outcome Z :=
  if modifier =? LOCAL_DRM_FORMAT_MOD_NONE then Ok I915_TILING_NONE
  else if modifier =? LOCAL_I915_FORMAT_MOD_X_TILED then Ok I915_TILING_X
  else if modifier =? LOCAL_I915_FORMAT_MOD_Y_TILED then Ok I915_TILING_Y
  else if modifier =? LOCAL_I915_FORMAT_MOD_Yf_TILED then Ok I915_TILING_Yf
  else do _ <- igt_assert false; Ok 0.

Definition igt_fb_tiling_to_mod (tiling : Z) : outcome Z :=
  if tiling =? I915_TILING_NONE then Ok LOCAL_DRM_FORMAT_MOD_NONE
  else if tiling =? I915_TILING_X then Ok LOCAL_I915_FORMAT_MOD_X_TILED
  else if tiling =? I915_TILING_Y then Ok LOCAL_I915_FORMAT_MOD_Y_TILED
  else if tiling =? I915_TILING_Yf then Ok LOCAL_I915_FORMAT_MOD_Yf_TILED
  else do _ <- igt_assert false; Ok 0.

(** ** Plane dimensions: [planar_width], [planar_stride], [planar_height]

    The parameters [width] and [height] are [unsigned] in the C code; the
    callers pass an [int], converted by [u32] at the call. *)

Definition planar_width (format : format_desc_struct) (width plane : Z) : Z :=
  if (drm_id format =? DRM_FORMAT_NV12) && (plane =? 1)
  then u32 (width + 1) / 2
  else width.

Definition planar_stride (format : format_desc_struct) (width plane : Z) : Z :=
  let cpp := u32 (Z.quot (plane_bpp_at format plane) 8) in
  u32 (planar_width format width plane * cpp).

Definition planar_height (format : format_desc_struct) (height plane : Z) : Z :=
  if (drm_id format =? DRM_FORMAT_NV12) && (plane =? 1)
  then u32 (height + 1) / 2
  else height.

(** ** The planar calculator: [calc_fb_size_planar]

    The three loops of the function, each over [plane]; the count [n] is
    the number of iterations left, [Z.to_nat (bound - plane)] at entry. *)

Fixpoint planar_stride_loop (fd : device) (width : Z)
    (format : format_desc_struct) (tiling : Z)
    (n : nat) (plane stride : Z) : outcome Z :=
  match n with
  | O => Ok stride
  | S n' =>
      do (tile_width, _) <-
        igt_get_fb_tile_size fd tiling (plane_bpp_at format plane);
      let plane_stride :=
        ALIGN (planar_stride format (u32 width) plane) tile_width in
      planar_stride_loop fd width format tiling n' (plane + 1)
        (if stride <? plane_stride then plane_stride else stride)
  end.

Fixpoint planar_size_loop (fd : device) (height : Z)
    (format : format_desc_struct) (tiling stride : Z)
    (n : nat) (plane size_ret : Z) (offsets : option (list Z))
  : outcome (Z * option (list Z)) :=
  match n with
  | O => Ok (size_ret, offsets)
  | S n' =>
      let offsets' :=
        option_map (fun o => <[Z.to_nat plane := size_ret]> o) offsets in
      do (_, tile_height) <-
        igt_get_fb_tile_size fd tiling (plane_bpp_at format plane);
      let size_ret' :=
        u32 (size_ret +
             u32 (stride * ALIGN (planar_height format (u32 height) plane)
                             tile_height)) in
      planar_size_loop fd height format tiling stride n' (plane + 1)
        size_ret' offsets'
  end.

Fixpoint clear_offsets_loop (n : nat) (plane : Z) (offsets : list Z) : list Z :=
  match n with
  | O => offsets
  | S n' => clear_offsets_loop n' (plane + 1) (<[Z.to_nat plane := 0]> offsets)
  end.

(** Result: [( *size_ret, *stride_ret, offsets)]; [offsets = None] is the
    [NULL] pointer. *)
Definition calc_fb_size_planar (fd : device) (width height : Z)
    (format : format_desc_struct) (tiling : Z) (offsets : option (list Z))
  : outcome (Z * Z * option (list Z)) :=
  let nplanes := Z.to_nat (planes format) in
  do stride <- planar_stride_loop fd width format tiling nplanes 0 0;
  do (size_ret, offsets1) <-
    planar_size_loop fd height format tiling stride nplanes 0 0 offsets;
  let plane := Z.max 0 (planes format) in
  let offsets2 :=
    option_map (clear_offsets_loop (Z.to_nat (4 - plane)) plane) offsets1 in
  Ok (size_ret, stride, offsets2).

(** ** The packed calculator: [calc_fb_size_packed] *)

(** [for (x = x0; x < v; x *= 2) ;] with [x] unsigned and [v] an [int]
    (converted to unsigned by the comparison). *)
Fixpoint double_until (fuel : nat) (x v : Z) : outcome Z :=
  match fuel with
  | O => Timeout
  | S fuel' =>
      if x <? u32 v then double_until fuel' (u32 (x * 2)) v else Ok x
  end.

(** Result: [( *size_ret, *stride_ret)]. *)
Definition calc_fb_size_packed (fuel : nat) (fd : device) (width height : Z)
    (format : format_desc_struct) (tiling : Z) : outcome (Z * Z) :=
  let byte_width := s32 (width * Z.quot (bpp format) 8) in
  do (tile_width, tile_height) <-
    igt_get_fb_tile_size fd tiling (bpp format);
  if negb (tiling =? LOCAL_DRM_FORMAT_MOD_NONE) && (intel_gen fd <=? 3) then
    let v := byte_width in
    do stride <- double_until fuel 512 v;
    let v := s32 (u32 (stride * height)) in
    do size <- double_until fuel (1024 * 1024) v;
    Ok (size, stride)
  else
    let stride := ALIGN byte_width tile_width in
    let size := u32 (stride * ALIGN height tile_height) in
    Ok (size, stride).

(** ** The entry point: [igt_calc_fb_size] *)

Definition igt_calc_fb_size (fuel : nat) (fd : device) (width height : Z)
    (drm_format tiling : Z) : outcome (Z * Z) :=
  match lookup_drm_format drm_format with
  | None => Abort
  | Some format =>
      if planes format >? 1 then
        do (size, stride, _) <-
          calc_fb_size_planar fd width height format tiling None;
        Ok (size, stride)
      else calc_fb_size_packed fuel fd width height format tiling
  end.

(** ** Buffer allocation: [create_bo_for_fb] *)

(** Modelled from the spec: the collaborators consumed through the file
    descriptor ("Buffer allocator", "CPU mapping", registration of the
    buffer as a displayable surface) are not part of the sources; they are
    taken as they answer.  [gem_first_word] is the first 32-bit word read
    through the fresh mapping, [gem_mmap] the bytes seen through a mapping
    of a handle, [kms_addfb] the framebuffer id or [None] when the ioctl
    fails. *)
Record kernel : Type := mk_kernel {
  gem_create : Z -> Z;
  gem_first_word : Z -> Z;
  gem_mmap : Z -> Z -> list Z;
  kmstest_dumb_create : Z -> Z -> Z -> Z * Z * Z;
  kms_addfb : Z -> Z -> Z -> Z -> Z -> Z -> list Z -> option Z
}.

Definition is_i915_device (fd : device) : bool := is_intel fd.

(** [memset(ptr + off, c, n)] through the mapping [map]: the mapping with
    the [n] bytes from [off] on set to [c]; a byte written outside the
    mapping is a [Fault]. *)
Definition memset (map : list Z) (off c n : Z) : outcome (list Z) :=
  if n =? 0 then Ok map
  else if off + n <=? Z.of_nat (length map) then
    Ok (take (Z.to_nat off) map ++ replicate (Z.to_nat n) c
        ++ drop (Z.to_nat (off + n)) map)
  else Fault.

(** Result: [(bo, *size_ret, *stride_ret, offsets, *is_dumb)].  The two
    [memset] calls paint the NV12 planes through the fresh mapping of
    [size] bytes: they dereference [offsets] and write [offsets[1]] bytes
    of 16 from the start of the mapping and [(height + 1) / 2 * stride]
    bytes of 0x80 from [offsets[1]] on.  The mapping is unmapped afterwards;
    what a later mapping of the buffer shows is what the kernel answers
    through [gem_mmap]. *)
Definition create_bo_for_fb (fuel : nat) (k : kernel) (fd : device)
    (width height : Z) (format : option format_desc_struct)
    (tiling size stride : Z) (size_ret stride_ret : Z)
    (offsets : option (list Z)) (is_dumb : bool)
  : outcome (Z * Z * Z * option (list Z) * bool) :=
  match format with
  | None => Abort
  | Some format =>
      if negb (tiling =? 0) || negb (size =? 0) || negb (stride =? 0)
         || (planes format >? 1) then
        do (calculated, offsets') <-
          (if planes format >? 1 then
             do (calculated_size, calculated_stride, offsets') <-
               calc_fb_size_planar fd width height format tiling offsets;
             Ok ((calculated_size, calculated_stride), offsets')
           else
             do offsets' <-
               match offsets with
               | None => Fault
               | Some _ => Ok (Some [0; 0; 0; 0])
               end;
             do calculated <-
               calc_fb_size_packed fuel fd width height format tiling;
             Ok (calculated, offsets'));
        let '(calculated_size, calculated_stride) := calculated in
        let stride := if stride =? 0 then calculated_stride else stride in
        let size := if size =? 0 then calculated_size else size in
        if is_i915_device fd then
          let bo := gem_create k size in
          do _ <- igt_fb_mod_to_tiling tiling;
          do _ <- igt_assert (gem_first_word k bo =? 0);
          do _ <-
            (if drm_id format =? DRM_FORMAT_NV12 then
               match offsets' with
               | None => Fault
               | Some o =>
                   let ptr := gem_mmap k (u32 bo) size in
                   do ptr <- memset ptr 0 16 (nth 1 o 0);
                   do _ <-
                     memset ptr (nth 1 o 0) 128
                       (u32 (Z.quot (s32 (height + 1)) 2 * stride));
                   Ok tt
               end
             else Ok tt);
          Ok (bo, size, stride, offsets', false)
        else
          do _ <- igt_require false;
          Ok (-22, size_ret, stride_ret, offsets', false)
      else
        let '(bo, dumb_stride, dumb_size) :=
          kmstest_dumb_create k width height (bpp format) in
        Ok (bo, dumb_size, dumb_stride, offsets, true)
  end.

(** ** Framebuffer creation: [igt_create_fb_with_bo_size] *)

(** Modelled from the spec: [struct igt_fb] ("FramebufferHandle") is declared
    in a header that is not part of the sources; these are the fields the
    sources assign and read. *)
Record igt_fb : Type := mk_igt_fb {
  fb_id : Z;
  fb_gem_handle : Z;
  fb_is_dumb : bool;
  fb_drm_format : Z;
  fb_width : Z;
  fb_height : Z;
  fb_stride : Z;
  fb_tiling : Z;
  fb_size : Z;
  fb_num_planes : Z;
  fb_offsets : list Z;
  fb_plane_bpp : list Z;
  fb_plane_width : list Z;
  fb_plane_height : list Z
}.

(** The last loop of [igt_create_fb_with_bo_size], over [i]; the state is
    [(plane_bpp, plane_height, plane_width)] of the framebuffer. *)
Fixpoint plane_fields_loop (f : format_desc_struct) (width height : Z)
    (n : nat) (i : Z) (st : list Z * list Z * list Z)
  : list Z * list Z * list Z :=
  match n with
  | O => st
  | S n' =>
      let '(pbpp, pheight, pwidth) := st in
      plane_fields_loop f width height n' (i + 1)
        (<[Z.to_nat i := u32 (plane_bpp_at f i)]> pbpp,
         <[Z.to_nat i := planar_height f (u32 height) i]> pheight,
         <[Z.to_nat i := planar_width f (u32 width) i]> pwidth)
  end.

Definition igt_create_fb_with_bo_size (fuel : nat) (k : kernel) (fd : device)
    (width height : Z) (format tiling : Z) (bo_size bo_stride : Z)
  : outcome igt_fb :=
  match lookup_drm_format format with
  | None => Abort
  | Some f =>
      do r <- create_bo_for_fb fuel k fd width height (Some f) tiling
                bo_size bo_stride 0 0 (Some [0; 0; 0; 0]) false;
      let '(gem_handle, size, stride, offsets, is_dumb) := r in
      let offsets := default [0; 0; 0; 0] offsets in
      do _ <- igt_assert (u32 gem_handle >? 0);
      do id <-
        match kms_addfb k (u32 gem_handle) width height stride format tiling
                offsets with
        | Some id => Ok id
        | None => Abort
        end;
      let '(pbpp, pheight, pwidth) :=
        plane_fields_loop f width height (Z.to_nat (planes f)) 0
          (<[0%nat := u32 (bpp f)]> [0; 0; 0; 0],
           <[0%nat := u32 height]> [0; 0; 0; 0],
           <[0%nat := u32 width]> [0; 0; 0; 0]) in
      Ok {| fb_id := id;
            fb_gem_handle := u32 gem_handle;
            fb_is_dumb := is_dumb;
            fb_drm_format := format;
            fb_width := width;
            fb_height := height;
            fb_stride := stride;
            fb_tiling := tiling;
            fb_size := size;
            fb_num_planes := u32 (if planes f =? 0 then 1 else planes f);
            fb_offsets := offsets;
            fb_plane_bpp := pbpp;
            fb_plane_width := pwidth;
            fb_plane_height := pheight |}
  end.

Definition igt_create_fb (fuel : nat) (k : kernel) (fd : device)
    (width height : Z) (format tiling : Z) : outcome igt_fb :=
  igt_create_fb_with_bo_size fuel k fd width height format tiling 0 0.

(** ** Single-precision arithmetic

    The converters compute in [float].  Its operations are those of the
    IEEE 754 binary32 format (24 bits of precision), every one rounding to
    nearest even, as given by the reference semantics of [SpecFloat]. *)

Module f32.
Definition prec : Z := 24.
Definition emax : Z := 128.

Definition of_Z (z : Z) : spec_float := binary_normalize prec emax z 0 false.
Definition add : spec_float -> spec_float -> spec_float := SFadd prec emax.
Definition sub : spec_float -> spec_float -> spec_float := SFsub prec emax.
Definition mul : spec_float -> spec_float -> spec_float := SFmul prec emax.
Definition div : spec_float -> spec_float -> spec_float := SFdiv prec emax.
Definition opp : spec_float -> spec_float := SFopp.
Definition ltb : spec_float -> spec_float -> bool := SFltb.

(** The constant written [n/1000] in decimal with suffix [f]: the
    binary32 number nearest to it. *)
Definition milli (n : Z) : spec_float := div (of_Z n) (of_Z 1000).

(** Conversion to an integer type truncates towards zero. *)
Definition trunc (x : spec_float) : Z :=
  match x with
  | S754_finite s m e =>
      let v := if 0 <=? e then Z.pos m * 2 ^ e else Z.pos m / 2 ^ (- e) in
      if s then - v else v
  | _ => 0
  end.

(** [(uint8_t)x]: defined by C when the truncated value is in [0, 255];
    outside that range the low eight bits are kept here. *)
Definition to_u8 (x : spec_float) : Z := trunc x mod 256.
End f32.

Definition clamprgb (val : spec_float) : Z :=
  if f32.ltb val (f32.of_Z 0) then 0
  else if f32.ltb (f32.of_Z 255) val then 255
  else f32.to_u8 val.

(** ** Buffers *)

(** A mapped buffer is the list of its bytes; a pointer into it is an
    index.  An access outside the buffer is a [Fault]. *)
Definition load (buf : list Z) (addr : Z) : outcome Z :=
  if 0 <=? addr then
    match buf !! Z.to_nat addr with
    | Some v => Ok v
    | None => Fault
    end
  else Fault.

Definition store (buf : list Z) (addr v : Z) : outcome (list Z) :=
  if (0 <=? addr) && (addr <? Z.of_nat (length buf))
  then Ok (<[Z.to_nat addr := v]> buf)
  else Fault.

(** [for (i = first; i < first + n; i++) body], on a state. *)
Fixpoint for_loop {St : Type} (n : nat) (i : Z)
    (body : Z -> St -> outcome St) (s : St) : outcome St :=
  match n with
  | O => Ok s
  | S n' => do s' <- body i s; for_loop n' (i + 1) body s'
  end.

Record fb_blit_linear : Type := mk_linear {
  lin_handle : Z;
  lin_size : Z;
  lin_stride : Z;
  lin_map : list Z;
  lin_is_dumb : bool;
  lin_offsets : list Z
}.

Record fb_convert_blit_upload : Type := mk_blit {
  rgb24_map : list Z;
  rgb24_stride : Z;
  rgb24_size : Z;
  linear : fb_blit_linear
}.

(** ** Decoding: [convert_nv12_to_rgb24] *)

(** The three colour terms [(r_, g_, b_)] of a chroma pair. *)
Definition chroma_terms (cb cr : spec_float)
  : spec_float * spec_float * spec_float :=
  (f32.add (f32.mul (f32.milli 0) cb) (f32.mul (f32.milli 1793) cr),
   f32.add (f32.mul (f32.opp (f32.milli 213)) cb)
           (f32.mul (f32.opp (f32.milli 533)) cr),
   f32.add (f32.mul (f32.milli 2112) cb) (f32.mul (f32.milli 0) cr)).

Definition luma_term (y : Z) : spec_float :=
  f32.mul (f32.milli 1164) (f32.sub (f32.of_Z y) (f32.of_Z 16)).

Definition chroma_centred (c : Z) : spec_float :=
  f32.sub (f32.of_Z c) (f32.of_Z 128).

(** One iteration of the inner loop over 1x2 pixel blocks.  [rgb24], [y]
    and [uv] are the row pointers of the outer loop. *)
Definition nv12_block_body (buf : list Z)
    (rgb24 y uv rgb24_stride planar_stride : Z)
    (j : Z) (out : list Z) : outcome (list Z) :=
  do yj <- load buf (y + j);
  let y0 := luma_term yj in
  do yj' <- load buf (y + u32 (j + planar_stride));
  let y1 := luma_term yj' in
  do cbj <- load buf (uv + Z.land j (Z.lnot 1));
  let cb := chroma_centred cbj in
  do crj <- load buf (uv + Z.lor j 1);
  let cr := chroma_centred crj in
  let '(r_, g_, b_) := chroma_terms cb cr in
  do out <- store out (rgb24 + (j * 4 + 2)) (clamprgb (f32.add y0 r_));
  do out <- store out (rgb24 + u32 (j * 4 + 2 + rgb24_stride))
              (clamprgb (f32.add y1 r_));
  do out <- store out (rgb24 + (j * 4 + 1)) (clamprgb (f32.add y0 g_));
  do out <- store out (rgb24 + u32 (j * 4 + 1 + rgb24_stride))
              (clamprgb (f32.add y1 g_));
  do out <- store out (rgb24 + j * 4) (clamprgb (f32.add y0 b_));
  store out (rgb24 + u32 (j * 4 + rgb24_stride)) (clamprgb (f32.add y1 b_)).

(** One iteration of the loop over the last row of an odd height. *)
Definition nv12_last_row_body (buf : list Z) (rgb24 y uv : Z)
    (j : Z) (out : list Z) : outcome (list Z) :=
  do cbj <- load buf (uv + Z.land j (Z.lnot 1));
  let cb := chroma_centred cbj in
  do crj <- load buf (uv + Z.lor j 1);
  let cr := chroma_centred crj in
  do yj <- load buf (y + j);
  let y0 := luma_term yj in
  let '(r_, g_, b_) := chroma_terms cb cr in
  do out <- store out (rgb24 + (j * 4 + 2)) (clamprgb (f32.add y0 r_));
  do out <- store out (rgb24 + (j * 4 + 1)) (clamprgb (f32.add y0 g_));
  store out (rgb24 + j * 4) (clamprgb (f32.add y0 b_)).

(** The state of the outer loop: the output map and the three pointers. *)
Definition nv12_rows_body (buf : list Z) (width rgb24_stride planar_stride : Z)
    (i : Z) (st : list Z * Z * Z * Z) : outcome (list Z * Z * Z * Z) :=
  let '(out, rgb24, y, uv) := st in
  do out <- for_loop (Z.to_nat width) 0
              (nv12_block_body buf rgb24 y uv rgb24_stride planar_stride) out;
  Ok (out, rgb24 + u32 (2 * rgb24_stride), y + u32 (2 * planar_stride),
      uv + planar_stride).

(** Result: the contents of [blit->rgb24.map] after the call.  [buf] is the
    copy of the first [linear.size] bytes of the linear mapping. *)
Definition convert_nv12_to_rgb24 (fb : igt_fb) (blit : fb_convert_blit_upload)
  : outcome (list Z) :=
  let rgb24_stride := rgb24_stride blit in
  let planar_stride := lin_stride (linear blit) in
  let size := lin_size (linear blit) in
  do _ <- (if Z.of_nat (length (lin_map (linear blit))) <? size
           then Fault else Ok tt);
  let buf := take (Z.to_nat size) (lin_map (linear blit)) in
  let y := nth 0 (lin_offsets (linear blit)) 0 in
  let uv := nth 1 (lin_offsets (linear blit)) 0 in
  do st <- for_loop (Z.to_nat (Z.quot (fb_height fb) 2)) 0
             (nv12_rows_body buf (fb_width fb) rgb24_stride planar_stride)
             (rgb24_map blit, 0, y, uv);
  let '(out, rgb24, y, uv) := st in
  if negb (Z.land (fb_height fb) 1 =? 0) then
    for_loop (Z.to_nat (fb_width fb)) 0
      (nv12_last_row_body buf rgb24 y uv) out
  else Ok out.

(** ** Encoding: [convert_rgb24_to_nv12] *)

Definition weighted (c : spec_float) (v : Z) : spec_float :=
  f32.mul c (f32.of_Z v).

Definition half (c : spec_float) : spec_float := f32.div c (f32.of_Z 2).

(** The luma of one pixel, before the conversion to [uint8_t]. *)
Definition luma_of_rgb (r g b : Z) : spec_float :=
  f32.add
    (f32.add
       (f32.add (weighted (f32.milli 183) r) (weighted (f32.milli 614) g))
       (weighted (f32.milli 62) b))
    (f32.of_Z 16).

(** The chroma of a 2x2 block from its left column, rows [0] and [1]. *)
Definition chroma_of_pair (cr cg cb : spec_float) (r0 r1 g0 g1 b0 b1 : Z)
  : spec_float :=
  f32.add
    (f32.add
       (f32.add
          (f32.add
             (f32.add
                (f32.add (weighted (half cr) r0) (weighted (half cr) r1))
                (weighted (half cg) g0))
             (weighted (half cg) g1))
          (weighted (half cb) b0))
       (weighted (half cb) b1))
    (f32.of_Z 128).

(** The chroma of the last row of an odd height. *)
Definition chroma_of_single (cr cg cb : spec_float) (r g b : Z)
  : spec_float :=
  f32.add
    (f32.add (f32.add (weighted cr r) (weighted cg g)) (weighted cb b))
    (f32.of_Z 128).

Definition u_coeffs : spec_float * spec_float * spec_float :=
  (f32.opp (f32.milli 101), f32.opp (f32.milli 339), f32.milli 439).
Definition v_coeffs : spec_float * spec_float * spec_float :=
  (f32.milli 439, f32.opp (f32.milli 339), f32.opp (f32.milli 40)).

Definition luma_body (rgb : list Z) (rgb24 y : Z) (j : Z) (map : list Z)
  : outcome (list Z) :=
  do r <- load rgb (rgb24 + (j * 4 + 2));
  do g <- load rgb (rgb24 + (j * 4 + 1));
  do b <- load rgb (rgb24 + j * 4);
  store map (y + j) (f32.to_u8 (luma_of_rgb r g b)).

Definition luma_rows_body (rgb : list Z) (width0 rgb24_stride planar_stride : Z)
    (i : Z) (st : list Z * Z * Z) : outcome (list Z * Z * Z) :=
  let '(map, rgb24, y) := st in
  do map <- for_loop (Z.to_nat width0) 0 (luma_body rgb rgb24 y) map;
  Ok (map, rgb24 + rgb24_stride, y + planar_stride).

Definition chroma_pair_body (rgb : list Z) (rgb24 uv rgb24_stride : Z)
    (j : Z) (map : list Z) : outcome (list Z) :=
  do r0 <- load rgb (rgb24 + (j * 8 + 2));
  do r1 <- load rgb (rgb24 + u32 (j * 8 + 2 + rgb24_stride));
  do g0 <- load rgb (rgb24 + (j * 8 + 1));
  do g1 <- load rgb (rgb24 + u32 (j * 8 + 1 + rgb24_stride));
  do b0 <- load rgb (rgb24 + j * 8);
  do b1 <- load rgb (rgb24 + u32 (j * 8 + rgb24_stride));
  let '(ur, ug, ub) := u_coeffs in
  let '(vr, vg, vb) := v_coeffs in
  let uf := chroma_of_pair ur ug ub r0 r1 g0 g1 b0 b1 in
  let vf := chroma_of_pair vr vg vb r0 r1 g0 g1 b0 b1 in
  do map <- store map (uv + j * 2) (f32.to_u8 uf);
  store map (uv + (j * 2 + 1)) (f32.to_u8 vf).

Definition chroma_rows_body (rgb : list Z) (width1 rgb24_stride planar_stride : Z)
    (i : Z) (st : list Z * Z * Z) : outcome (list Z * Z * Z) :=
  let '(map, rgb24, uv) := st in
  do map <- for_loop (Z.to_nat width1) 0
              (chroma_pair_body rgb rgb24 uv rgb24_stride) map;
  Ok (map, rgb24 + u32 (2 * rgb24_stride), uv + planar_stride).

Definition chroma_single_body (rgb : list Z) (rgb24 uv : Z)
    (j : Z) (map : list Z) : outcome (list Z) :=
  do r <- load rgb (rgb24 + (j * 8 + 2));
  do g <- load rgb (rgb24 + (j * 8 + 1));
  do b <- load rgb (rgb24 + j * 8);
  let '(ur, ug, ub) := u_coeffs in
  let '(vr, vg, vb) := v_coeffs in
  let uf := chroma_of_single ur ug ub r g b in
  let vf := chroma_of_single vr vg vb r g b in
  do map <- store map (uv + j * 2) (f32.to_u8 uf);
  store map (uv + (j * 2 + 1)) (f32.to_u8 vf).

(** Result: the contents of [blit->linear.map] after the call. *)
Definition convert_rgb24_to_nv12 (fb : igt_fb) (blit : fb_convert_blit_upload)
  : outcome (list Z) :=
  let y := nth 0 (lin_offsets (linear blit)) 0 in
  let uv := nth 1 (lin_offsets (linear blit)) 0 in
  let rgb := rgb24_map blit in
  let rgb24_stride := rgb24_stride blit in
  let planar_stride := lin_stride (linear blit) in
  do _ <- igt_assert (fb_drm_format fb =? DRM_FORMAT_NV12);
  do st <- for_loop (Z.to_nat (nth 0 (fb_plane_height fb) 0)) 0
             (luma_rows_body rgb (nth 0 (fb_plane_width fb) 0)
                rgb24_stride planar_stride)
             (lin_map (linear blit), 0, y);
  let '(map, _, _) := st in
  let rows := Z.to_nat (Z.quot (fb_height fb) 2) in
  do st <- for_loop rows 0
             (chroma_rows_body rgb (nth 1 (fb_plane_width fb) 0)
                rgb24_stride planar_stride)
             (map, 0, uv);
  let '(map, rgb24, uv) := st in
  let i := Z.of_nat rows in
  if i <? nth 1 (fb_plane_height fb) 0 then
    for_loop (Z.to_nat (nth 1 (fb_plane_width fb) 0)) 0
      (chroma_single_body rgb rgb24 uv) map
  else Ok map.

(** ** The temporary packed view: [setup_linear_mapping],
    [create_cairo_surface__convert] *)

(** [ALIGN] where the alignment is a [long]: evaluated in 64 bits, which
    neither operand comes near. *)
Definition ALIGN64 (v a : Z) : Z := Z.land (v + a - 1) (Z.lnot (a - 1)).

(** The copies done by the blitter change buffer contents only; the linear
    buffer is read back through [gem_mmap].  [uninit] is what the freshly
    allocated [linear->offsets] holds before the call. *)
Definition setup_linear_mapping (fuel : nat) (k : kernel) (fd : device)
    (uninit : list Z) (fb : igt_fb) : outcome fb_blit_linear :=
  do _ <- igt_fb_mod_to_tiling (fb_tiling fb);
  do r <- create_bo_for_fb fuel k fd (fb_width fb) (fb_height fb)
            (lookup_drm_format (fb_drm_format fb))
            LOCAL_DRM_FORMAT_MOD_NONE 0 0 0 0 (Some uninit) false;
  let '(handle, size, stride, offsets, is_dumb) := r in
  do _ <- igt_assert (u32 handle >? 0);
  Ok {| lin_handle := u32 handle;
        lin_size := size;
        lin_stride := stride;
        lin_map := gem_mmap k (u32 handle) size;
        lin_is_dumb := is_dumb;
        lin_offsets := default uninit offsets |}.

(** Result: the upload record, with the decoded picture in [rgb24.map].
    [pagesize] is [sysconf(_SC_PAGESIZE)]; the anonymous mapping is
    zero-filled, and [mmap] fails on a zero length. *)
Definition create_cairo_surface__convert (fuel : nat) (k : kernel)
    (fd : device) (pagesize : Z) (uninit : list Z) (fb : igt_fb)
  : outcome fb_convert_blit_upload :=
  let stride := ALIGN (fb_width fb * 4) 16 in
  let size := u32 (ALIGN64 (u32 (stride * fb_height fb)) pagesize) in
  do _ <- igt_assert (negb (size =? 0));
  let map := replicate (Z.to_nat size) 0 in
  do lin <-
    (if (fb_tiling fb =? LOCAL_I915_FORMAT_MOD_Y_TILED)
        || (fb_tiling fb =? LOCAL_I915_FORMAT_MOD_Yf_TILED)
     then setup_linear_mapping fuel k fd uninit fb
     else
       Ok {| lin_handle := 0;
             lin_size := fb_size fb;
             lin_stride := fb_stride fb;
             lin_map := gem_mmap k (fb_gem_handle fb) (fb_size fb);
             lin_is_dumb := false;
             lin_offsets := fb_offsets fb |});
  do _ <- igt_assert (fb_drm_format fb =? DRM_FORMAT_NV12);
  do out <- convert_nv12_to_rgb24 fb (mk_blit map stride size lin);
  Ok (mk_blit out stride size lin).

(** ** Registry queries: [drm_format_to_cairo], [igt_bpp_depth_to_drm_format],
    [igt_drm_format_to_bpp], [igt_format_str] *)

(** The loop of [drm_format_to_cairo] over the registry. *)
Fixpoint cairo_in (table : list format_desc_struct) (drm_format : Z)
  : option cairo_format_t :=
  match table with
  | [] => None
  | f :: rest =>
      if drm_id f =? drm_format then Some (cairo_id f)
      else cairo_in rest drm_format
  end.

Definition drm_format_to_cairo (drm_format : Z) : outcome cairo_format_t :=
  match cairo_in format_desc drm_format with
  | Some c => Ok c
  | None => Abort
  end.

(** The loop of [igt_bpp_depth_to_drm_format] over the registry. *)
Fixpoint bpp_depth_in (table : list format_desc_struct) (bpp_ depth_ : Z)
  : option Z :=
  match table with
  | [] => None
  | f :: rest =>
      if (bpp f =? bpp_) && (depth f =? depth_) then Some (drm_id f)
      else bpp_depth_in rest bpp_ depth_
  end.

Definition igt_bpp_depth_to_drm_format (bpp_ depth_ : Z) : outcome Z :=
  match bpp_depth_in format_desc bpp_ depth_ with
  | Some d => Ok d
  | None => Abort
  end.

Definition igt_drm_format_to_bpp (drm_format : Z) : outcome Z :=
  match lookup_drm_format drm_format with
  | None => Abort
  | Some f => Ok (u32 (bpp f))
  end.

Definition igt_format_str (drm_format : Z) : string :=
  match lookup_drm_format drm_format with
  | Some f => name f
  | None => "invalid"
  end.

(** ** Stereo layouts: [box_init], [stereo_fb_layout_from_mode] *)

(** Modelled from the spec: [drmModeModeInfo] and the [DRM_MODE_FLAG_3D_*]
    constants are declared in headers that are not part of the sources.
    These are the fields the function reads ([hdisplay], [vdisplay] and
    [vtotal] are [uint16_t], [flags] is [uint32_t]) and the values of the
    DRM interface. *)
Record drmModeModeInfo : Type := mk_mode {
  hdisplay : Z;
  vdisplay : Z;
  vtotal : Z;
  flags : Z
}.

Definition DRM_MODE_FLAG_3D_MASK : Z := Eval cbv in Z.shiftl 31 14.
Definition DRM_MODE_FLAG_3D_FRAME_PACKING : Z := Eval cbv in Z.shiftl 1 14.
Definition DRM_MODE_FLAG_3D_TOP_AND_BOTTOM : Z := Eval cbv in Z.shiftl 7 14.
Definition DRM_MODE_FLAG_3D_SIDE_BY_SIDE_HALF : Z :=
  Eval cbv in Z.shiftl 8 14.

Record box : Type := mk_box {
  box_x : Z;
  box_y : Z;
  box_width : Z;
  box_height : Z
}.

Record stereo_fb_layout : Type := mk_layout {
  layout_fb_width : Z;
  layout_fb_height : Z;
  layout_left : box;
  layout_right : box
}.

Definition box_init (x y bwidth bheight : Z) : box :=
  {| box_x := x; box_y := y; box_width := bwidth; box_height := bheight |}.

Definition stereo_fb_layout_from_mode (mode : drmModeModeInfo)
  : outcome stereo_fb_layout :=
  let format := Z.land (flags mode) DRM_MODE_FLAG_3D_MASK in
  let hdisplay := hdisplay mode in
  let vdisplay := vdisplay mode in
  if format =? DRM_MODE_FLAG_3D_TOP_AND_BOTTOM then
    let middle := Z.quot vdisplay 2 in
    Ok {| layout_fb_width := hdisplay;
          layout_fb_height := vdisplay;
          layout_left := box_init 0 0 hdisplay middle;
          layout_right := box_init 0 middle hdisplay (vdisplay - middle) |}
  else if format =? DRM_MODE_FLAG_3D_SIDE_BY_SIDE_HALF then
    let middle := Z.quot hdisplay 2 in
    Ok {| layout_fb_width := hdisplay;
          layout_fb_height := vdisplay;
          layout_left := box_init 0 0 middle vdisplay;
          layout_right := box_init middle 0 (hdisplay - middle) vdisplay |}
  else if format =? DRM_MODE_FLAG_3D_FRAME_PACKING then
    let vactive_space := vtotal mode - vdisplay in
    Ok {| layout_fb_width := hdisplay;
          layout_fb_height := 2 * vdisplay + vactive_space;
          layout_left := box_init 0 0 hdisplay vdisplay;
          layout_right :=
            box_init 0 (vdisplay + vactive_space) hdisplay vdisplay |}
  else
    do _ <- igt_assert false;
    Ok (mk_layout 0 0 (box_init 0 0 0 0) (box_init 0 0 0 0)).

(** ** Buffer objects by dimensions: [igt_create_bo_with_dimensions] *)

(** Result: [(bo, *size_ret, *stride_ret, *is_dumb)].  The call passes
    [size = 0] and [offsets = NULL]. *)
Definition igt_create_bo_with_dimensions (fuel : nat) (k : kernel)
    (fd : device) (width height format modifier stride : Z)
    (size_ret stride_ret : Z) (is_dumb : bool)
  : outcome (Z * Z * Z * bool) :=
  do r <- create_bo_for_fb fuel k fd width height (lookup_drm_format format)
            modifier 0 stride size_ret stride_ret None is_dumb;
  let '(bo, size, stride', _, dumb) := r in
  Ok (bo, size, stride', dumb).

(** ** Writing the packed view back: [destroy_cairo_surface__convert] *)

(** Result: the contents of the linear buffer when it is unmapped.  What
    follows the conversion ([munmap], the copy of the linear buffer back
    to the framebuffer by the blitter in [free_linear_mapping]) changes no
    mapped byte. *)
Definition destroy_cairo_surface__convert (fb : igt_fb)
    (blit : fb_convert_blit_upload) : outcome (list Z) :=
  do _ <- igt_assert (fb_drm_format fb =? DRM_FORMAT_NV12);
  do map' <- convert_rgb24_to_nv12 fb blit;
  Ok map'.

(** * Vocabulary of the properties *)

(** ** Layout *)

(** The modifiers of the three tiled modes, and of all four modes. *)
Definition tiled_modes : list Z :=
  [ LOCAL_I915_FORMAT_MOD_X_TILED;
    LOCAL_I915_FORMAT_MOD_Y_TILED;
    LOCAL_I915_FORMAT_MOD_Yf_TILED ].

Definition tiling_modes : list Z := LOCAL_DRM_FORMAT_MOD_NONE :: tiled_modes.

(** A tiling mode depends on the sub-generation when two Intel chipsets of
    one generation number get different tile geometries. *)
Definition sub_generation_dependent (tiling : Z) : Prop :=
  exists (fb_bpp : Z) (fd fd' : device),
    is_intel fd = true /\ is_intel fd' = true /\
    intel_gen fd = intel_gen fd' /\
    igt_get_fb_tile_size fd tiling fb_bpp
      <> igt_get_fb_tile_size fd' tiling fb_bpp.

(** The four tiling constants of the kernel interface. *)
Definition tiling_constants : list Z :=
  [I915_TILING_NONE; I915_TILING_X; I915_TILING_Y; I915_TILING_Yf].

(** [x] is a power of two. *)
Definition is_pow2 (x : Z) : Prop := exists k : Z, 0 <= k /\ x = 2 ^ k.

(** [s] is the smallest power of two that is at least [floor] and at least
    [v]. *)
Definition smallest_pow2_above (floor v s : Z) : Prop :=
  is_pow2 s /\ floor <= s /\ v <= s
  /\ forall s' : Z, is_pow2 s' -> floor <= s' -> v <= s' -> s <= s'.

(** The bits per pixel Yf tiling has a geometry for. *)
Definition yf_bpp (fb_bpp : Z) : Prop := In fb_bpp [8; 16; 32; 64; 128].







(** The entry of NV12 in the registry. *)
Definition NV12_desc : format_desc_struct :=
  mk_format DRM_FORMAT_NV12 CAIRO_FORMAT_RGB24 "NV12" 32 (-1) 2 [8; 16; 0; 0].

(** [c] is the ceiling of [w / 2]. *)
Definition is_ceil_half (w c : Z) : Prop := w <= 2 * c < w + 2.

(** A kernel that allocates handle 1, zero-filled, maps every buffer as
    mid-grey bytes, and registers every buffer as framebuffer 1. *)
Definition test_kernel : kernel :=
  mk_kernel (fun _ => 1) (fun _ => 0)
    (fun _ size => replicate (Z.to_nat size) 128)
    (fun _ _ _ => (1, 0, 0))
    (fun _ _ _ _ _ _ _ => Some 1).

(** ** Conversion *)

(** The byte the decoder is to store for channel [ch] (2 red, 1 green,
    0 blue) of the pixel at [(row, col)], from the samples of a planar
    buffer of luma offset [offy], chroma offset [offuv] and stride [ps]. *)
Definition decoded_sample (buf : list Z) (ps offy offuv : Z)
    (row col ch : Z) : Z :=
  let yv := nth (Z.to_nat (offy + row * ps + col)) buf 0 in
  let cbv :=
    nth (Z.to_nat (offuv + row / 2 * ps + Z.land col (Z.lnot 1))) buf 0 in
  let crv := nth (Z.to_nat (offuv + row / 2 * ps + Z.lor col 1)) buf 0 in
  let '(r_, g_, b_) :=
    chroma_terms (chroma_centred cbv) (chroma_centred crv) in
  if ch =? 2 then clamprgb (f32.add (luma_term yv) r_)
  else if ch =? 1 then clamprgb (f32.add (luma_term yv) g_)
  else clamprgb (f32.add (luma_term yv) b_).

(** The inputs [igt_get_fb_tile_size] does not support: a tiling that is
    none of the four modes, or Yf tiling with bits per pixel outside
    8, 16, 32, 64, 128. *)
Definition unsupported_tile_query (tiling fb_bpp : Z) : Prop :=
  ~ In tiling tiling_modes
  \/ (tiling = LOCAL_I915_FORMAT_MOD_Yf_TILED /\ ~ yf_bpp fb_bpp).

(** ** Single precision *)

(** [fval x] is [x * 2^149], an integer for every binary32 number: the
    smallest exponent of the format is [-149]. *)
Definition fval (x : spec_float) : Z :=
  match x with
  | S754_finite s m e => cond_Zopp s (Z.pos m * 2 ^ (e + 149))
  | _ => 0
  end.

(** A zero, or a finite number in canonical form. *)
Definition fcan (x : spec_float) : bool :=
  match x with
  | S754_zero _ => true
  | S754_finite _ m e => bounded f32.prec f32.emax m e
  | _ => false
  end.

(** What rounding returns for the mantissa [m] and the exponent [e]. *)
Definition rounded (s : bool) (m e : Z) : spec_float :=
  match m with
  | Z0 => S754_zero s
  | Z.pos q => S754_finite s q e
  | Z.neg _ => S754_nan
  end.

(** [near k x num den]: [x] is canonical and within [k * 2^-14] of the
    fraction [num/den]. *)
Definition near (k : Z) (x : spec_float) (num den : Z) : Prop :=
  fcan x = true
  /\ Z.abs (den * fval x - num * 2 ^ 149) <= k * den * 2 ^ 135.

(** The same for [k = 1], as a test. *)
Definition approx (x : spec_float) (num den : Z) : bool :=
  fcan x
  && (Z.abs (den * fval x - num * 2 ^ 149) <=? den * 2 ^ 135).

(** The values of a [uint8_t]. *)
Definition bytes : list Z := map Z.of_nat (seq 0 256).

(** The value of channel [ch] of a pixel before [clamprgb], from its luma
    and chroma samples. *)
Definition channel_value (yv cbv crv ch : Z) : spec_float :=
  let '(r_, g_, b_) :=
    chroma_terms (chroma_centred cbv) (chroma_centred crv) in
  if ch =? 2 then f32.add (luma_term yv) r_
  else if ch =? 1 then f32.add (luma_term yv) g_
  else f32.add (luma_term yv) b_.

(** The same in exact arithmetic, in thousandths. *)
Definition channel_exact (yv cbv crv ch : Z) : Z :=
  1164 * (yv - 16)
  + (if ch =? 2 then 1793 * (crv - 128)
     else if ch =? 1 then -213 * (cbv - 128) + -533 * (crv - 128)
     else 2112 * (cbv - 128)).

(** Clamping a value to [[0, 255]], then truncating it to an integer. *)
Definition clamp_trunc (x : spec_float) : Z :=
  Z.min (255 * 2 ^ 149) (Z.max 0 (fval x)) / 2 ^ 149.

(** Neither test of [clamprgb] fires. *)
Definition unclamped (x : spec_float) : Prop :=
  f32.ltb x (f32.of_Z 0) = false /\ f32.ltb (f32.of_Z 255) x = false.

(** The three bytes [(r, g, b)] the decoder stores for a pixel. *)
Definition decoded_pixel (yv cbv crv : Z) : Z * Z * Z :=
  (clamprgb (channel_value yv cbv crv 2),
   clamprgb (channel_value yv cbv crv 1),
   clamprgb (channel_value yv cbv crv 0)).

(** The decoder clamps none of the three channels of a pixel. *)
Definition pixel_unclamped (yv cbv crv : Z) : Prop :=
  unclamped (channel_value yv cbv crv 2)
  /\ unclamped (channel_value yv cbv crv 1)
  /\ unclamped (channel_value yv cbv crv 0).

(** A 2 by 2 NV12 framebuffer in a linear buffer of stride 64. *)
Definition fb_2x2 : igt_fb :=
  {| fb_id := 1; fb_gem_handle := 1; fb_is_dumb := false;
     fb_drm_format := DRM_FORMAT_NV12; fb_width := 2; fb_height := 2;
     fb_stride := 64; fb_tiling := LOCAL_DRM_FORMAT_MOD_NONE;
     fb_size := 192; fb_num_planes := 2; fb_offsets := [0; 128; 0; 0];
     fb_plane_bpp := [8; 16; 0; 0]; fb_plane_width := [2; 1; 0; 0];
     fb_plane_height := [2; 1; 0; 0] |}.

(** Its linear buffer, every sample 16, and a packed view of stride 16. *)
Definition blit_2x2 (rgb : list Z) : fb_convert_blit_upload :=
  {| rgb24_map := rgb; rgb24_stride := 16; rgb24_size := 32;
     linear := {| lin_handle := 0; lin_size := 192; lin_stride := 64;
                  lin_map := replicate 192 16; lin_is_dumb := false;
                  lin_offsets := [0; 128; 0; 0] |} |}.


(** ** Stereo layouts *)

(** The fields of a mode hold values of their C types. *)
Definition mode_fields_in_range (mode : drmModeModeInfo) : Prop :=
  0 <= hdisplay mode < 2 ^ 16 /\ 0 <= vdisplay mode < 2 ^ 16
  /\ 0 <= vtotal mode < 2 ^ 16 /\ 0 <= flags mode < 2 ^ 32.

(** The pixel [(x, y)] lies in the box. *)
Definition in_box (b : box) (x y : Z) : Prop :=
  box_x b <= x < box_x b + box_width b
  /\ box_y b <= y < box_y b + box_height b.

Definition stereo_format (mode : drmModeModeInfo) : Z :=
  Z.land (flags mode) DRM_MODE_FLAG_3D_MASK.

(** ** Allocation *)

(** The result of an outcome, keeping what it is when it is no result. *)
Definition omap {A B : Type} (f : A -> B) (m : outcome A) : outcome B :=
  obind m (fun a => Ok (f a)).

(** ** Encoding *)

(** The luma byte the encoder is to store for the pixel at [(r, c)] of a
    packed picture of stride [rs]. *)
Definition encoded_luma (rgb : list Z) (rs r c : Z) : Z :=
  f32.to_u8
    (luma_of_rgb (nth (Z.to_nat (r * rs + (c * 4 + 2))) rgb 0)
                 (nth (Z.to_nat (r * rs + (c * 4 + 1))) rgb 0)
                 (nth (Z.to_nat (r * rs + c * 4)) rgb 0)).

(** The chroma byte of the block at [(i, j)]: Cb for [k = 0], Cr for
    [k = 1]; from the left column of the block, both rows of it, or the
    one row there is on the last row of an odd height [h]. *)
Definition encoded_chroma (rgb : list Z) (rs h i j k : Z) : Z :=
  let '(cr, cg, cb) := if k =? 0 then u_coeffs else v_coeffs in
  if 2 * i + 1 <? h then
    f32.to_u8
      (chroma_of_pair cr cg cb
         (nth (Z.to_nat (2 * i * rs + (j * 8 + 2))) rgb 0)
         (nth (Z.to_nat (2 * i * rs + (j * 8 + 2 + rs))) rgb 0)
         (nth (Z.to_nat (2 * i * rs + (j * 8 + 1))) rgb 0)
         (nth (Z.to_nat (2 * i * rs + (j * 8 + 1 + rs))) rgb 0)
         (nth (Z.to_nat (2 * i * rs + j * 8)) rgb 0)
         (nth (Z.to_nat (2 * i * rs + (j * 8 + rs))) rgb 0))
  else
    f32.to_u8
      (chroma_of_single cr cg cb
         (nth (Z.to_nat (2 * i * rs + (j * 8 + 2))) rgb 0)
         (nth (Z.to_nat (2 * i * rs + (j * 8 + 1))) rgb 0)
         (nth (Z.to_nat (2 * i * rs + j * 8)) rgb 0)).

(** The addresses of the luma samples and of the chroma samples of a
    [w] by [h] picture in a planar buffer of stride [ps]. *)
Definition luma_address (w h ps offy a : Z) : Prop :=
  exists r c : Z, 0 <= r < h /\ 0 <= c < w /\ a = offy + r * ps + c.

Definition chroma_address (w h ps offuv a : Z) : Prop :=
  exists i j k : Z,
    0 <= i < (h + 1) / 2 /\ 0 <= j < (w + 1) / 2 /\ 0 <= k < 2
    /\ a = offuv + i * ps + (j * 2 + k).

(** [map] is the planar buffer [map0] after the picture [rgb] was encoded
    into it: of the same size, every luma and chroma sample holding its
    encoded byte, every other byte as it was. *)
Definition encoded (rgb map0 : list Z) (w h rs ps offy offuv : Z)
    (map : list Z) : Prop :=
  length map = length map0
  /\ (forall r c : Z,
         0 <= r < h -> 0 <= c < w ->
         map !! Z.to_nat (offy + r * ps + c)
         = Some (encoded_luma rgb rs r c))
  /\ (forall i j k : Z,
         0 <= i < (h + 1) / 2 -> 0 <= j < (w + 1) / 2 -> 0 <= k < 2 ->
         map !! Z.to_nat (offuv + i * ps + (j * 2 + k))
         = Some (encoded_chroma rgb rs h i j k))
  /\ (forall a : Z,
         0 <= a -> ~ luma_address w h ps offy a ->
         ~ chroma_address w h ps offuv a ->
         map !! Z.to_nat a = map0 !! Z.to_nat a).


(** ** Packed views *)

(** The kernel answers every request: buffers are allocated under a
    positive handle, read as zero when fresh, and are mapped in the size
    asked for. *)
Definition kernel_serves (k : kernel) : Prop :=
  (forall size : Z, 0 < u32 (gem_create k size))
  /\ (forall bo : Z, gem_first_word k bo = 0)
  /\ (forall bo size : Z, length (gem_mmap k bo size) = Z.to_nat size).

(** The two buffers of the upload record [blit] hold a [w] by [h] picture:
    rows of four bytes a pixel fit in the packed stride, rows of luma
    samples and of chroma pairs in the planar stride, the luma plane ends
    before the chroma plane starts, and both planes lie in the mapping. *)
Definition view_holds (w h : Z) (blit : fb_convert_blit_upload) : Prop :=
  let lin := linear blit in
  let ps := lin_stride lin in
  let offy := nth 0 (lin_offsets lin) 0 in
  let offuv := nth 1 (lin_offsets lin) 0 in
  4 * w <= rgb24_stride blit < 2 ^ 30
  /\ h * rgb24_stride blit <= Z.of_nat (length (rgb24_map blit))
  /\ w + w mod 2 <= ps < 2 ^ 30
  /\ 0 <= offy /\ offy + h * ps <= offuv
  /\ offuv + (h + 1) / 2 * ps <= Z.of_nat (length (lin_map lin))
  /\ lin_size lin = Z.of_nat (length (lin_map lin)).

(** ** The planar layout *)

(** Half of [d], rounded up. *)
Definition ceil_half (d : Z) : Z := d - d / 2.





(** ** The intermediates of the converters *)

(** The single-precision value the decoder computes for channel [ch] of
    the pixel at [(row, col)], before [clamprgb]. *)
Definition decoded_value (buf : list Z) (ps offy offuv : Z)
    (row col ch : Z) : spec_float :=
  channel_value
    (nth (Z.to_nat (offy + row * ps + col)) buf 0)
    (nth (Z.to_nat (offuv + row / 2 * ps + Z.land col (Z.lnot 1))) buf 0)
    (nth (Z.to_nat (offuv + row / 2 * ps + Z.lor col 1)) buf 0) ch.

(** The single-precision value the encoder computes for the luma sample of
    the pixel at [(r, c)], before the conversion to [uint8_t]. *)
Definition luma_value (rgb : list Z) (rs r c : Z) : spec_float :=
  luma_of_rgb (nth (Z.to_nat (r * rs + (c * 4 + 2))) rgb 0)
              (nth (Z.to_nat (r * rs + (c * 4 + 1))) rgb 0)
              (nth (Z.to_nat (r * rs + c * 4)) rgb 0).

(** The same for the chroma sample [k] (0 for Cb, 1 for Cr) of the block at
    [(i, j)]. *)
Definition chroma_value (rgb : list Z) (rs h i j k : Z) : spec_float :=
  let '(cr, cg, cb) := if k =? 0 then u_coeffs else v_coeffs in
  if 2 * i + 1 <? h then
    chroma_of_pair cr cg cb
      (nth (Z.to_nat (2 * i * rs + (j * 8 + 2))) rgb 0)
      (nth (Z.to_nat (2 * i * rs + (j * 8 + 2 + rs))) rgb 0)
      (nth (Z.to_nat (2 * i * rs + (j * 8 + 1))) rgb 0)
      (nth (Z.to_nat (2 * i * rs + (j * 8 + 1 + rs))) rgb 0)
      (nth (Z.to_nat (2 * i * rs + j * 8)) rgb 0)
      (nth (Z.to_nat (2 * i * rs + (j * 8 + rs))) rgb 0)
  else
    chroma_of_single cr cg cb
      (nth (Z.to_nat (2 * i * rs + (j * 8 + 2))) rgb 0)
      (nth (Z.to_nat (2 * i * rs + (j * 8 + 1))) rgb 0)
      (nth (Z.to_nat (2 * i * rs + j * 8)) rgb 0).

(** * Properties *)

(** ** Machine arithmetic *)

Lemma u32_range (z : Z) : 0 <= u32 z < 2 ^ 32.
Proof. unfold u32. apply Z.mod_pos_bound. lia. Qed.

Lemma u32_small (z : Z) : 0 <= z < 2 ^ 32 -> u32 z = z.
Proof. intros H. unfold u32. apply Z.mod_small. exact H. Qed.

Lemma u32_idem (z : Z) : u32 (u32 z) = u32 z.
Proof. apply u32_small, u32_range. Qed.

Lemma u32_s32 (z : Z) : u32 (s32 z) = u32 z.
Proof.
  unfold u32, s32.
  rewrite Zminus_mod, Zmod_mod, <- Zminus_mod.
  f_equal. lia.
Qed.

Lemma u32_add_l (a b : Z) : u32 (u32 a + b) = u32 (a + b).
Proof. unfold u32. apply Zplus_mod_idemp_l. Qed.

Lemma u32_add_r (a b : Z) : u32 (a + u32 b) = u32 (a + b).
Proof. unfold u32. apply Zplus_mod_idemp_r. Qed.

Lemma u32_mul_l (a b : Z) : u32 (u32 a * b) = u32 (a * b).
Proof. unfold u32. apply Zmult_mod_idemp_l. Qed.

Lemma u32_mul_r (a b : Z) : u32 (a * u32 b) = u32 (a * b).
Proof. unfold u32. apply Zmult_mod_idemp_r. Qed.

Lemma s32_small (z : Z) : - 2 ^ 31 <= z < 2 ^ 31 -> s32 z = z.
Proof. intros H. unfold s32. rewrite Z.mod_small; lia. Qed.

(** On a power of two, [ALIGN] rounds up, in 32-bit arithmetic. *)
Lemma ALIGN_pow2 (v k : Z) :
  0 <= k < 32 -> ALIGN v (2 ^ k) = u32 (round_up v (2 ^ k)).
Proof.
  intros Hk. unfold ALIGN, round_up.
  set (x := v + 2 ^ k - 1).
  assert (Hp : 0 < 2 ^ k) by (apply Z.pow_pos_nonneg; lia).
  assert (H32 : 2 ^ 32 = 2 ^ k * 2 ^ (32 - k)).
  { rewrite <- Z.pow_add_r by lia. f_equal. lia. }
  replace (2 ^ k - 1) with (Z.ones k) by (rewrite Z.ones_equiv; lia).
  unfold u32 at 2. rewrite <- (Z.land_ones _ 32) by lia.
  rewrite Z.land_assoc.
  replace (Z.land (u32 x) (Z.lnot (Z.ones k)))
    with (Z.ldiff (u32 x) (Z.ones k)) by (apply Z.ldiff_land).
  rewrite Z.ldiff_ones_r by lia.
  rewrite Z.shiftl_mul_pow2, Z.shiftr_div_pow2 by lia.
  rewrite Z.land_ones by lia.
  rewrite (Z.mod_small (u32 x / 2 ^ k * 2 ^ k)).
  2:{ pose proof (u32_range x) as Hx.
      pose proof (Z.mul_div_le (u32 x) (2 ^ k) Hp).
      split; [apply Z.mul_nonneg_nonneg; [apply Z.div_pos|]|]; lia. }
  unfold u32. rewrite H32 at 1.
  rewrite Z.rem_mul_r by (try apply Z.pow_nonzero; try apply Z.pow_pos_nonneg; lia).
  rewrite (Z.mul_comm (2 ^ k) (_ mod _)), Z.div_add by lia.
  rewrite (Z.div_small (x mod 2 ^ k)) by (apply Z.mod_pos_bound; lia).
  rewrite Z.add_0_l, H32.
  rewrite Z.mul_mod_distr_l by (try apply Z.pow_nonzero; lia).
  lia.
Qed.

Lemma ALIGN_u32 (v a : Z) : ALIGN (u32 v) a = ALIGN v a.
Proof.
  unfold ALIGN. f_equal.
  replace (u32 v + a - 1) with (u32 v + (a - 1)) by lia.
  rewrite u32_add_l. f_equal. lia.
Qed.

Lemma ALIGN_s32 (v a : Z) : ALIGN (s32 v) a = ALIGN v a.
Proof. rewrite <- ALIGN_u32, u32_s32, ALIGN_u32. reflexivity. Qed.

Lemma ALIGN_1 (v : Z) : ALIGN v 1 = u32 v.
Proof.
  change 1 with (2 ^ 0) at 1. rewrite ALIGN_pow2 by lia.
  unfold round_up. f_equal. rewrite Z.div_1_r. lia.
Qed.

Lemma ALIGN_range (v a : Z) : 0 <= ALIGN v a < 2 ^ 32.
Proof.
  assert (H : ALIGN v a = u32 (Z.land (u32 (v + a - 1)) (Z.lnot (a - 1)))).
  { unfold ALIGN. unfold u32 at 2 3.
    rewrite <- !(Z.land_ones _ 32), Z.land_assoc by lia. reflexivity. }
  rewrite H. apply u32_range.
Qed.

Lemma round_up_spec (v a : Z) :
  0 < a -> v <= round_up v a < v + a /\ (round_up v a) mod a = 0.
Proof.
  intros Ha. unfold round_up.
  pose proof (Z.div_mod (v + a - 1) a ltac:(lia)) as Hdm.
  pose proof (Z.mod_pos_bound (v + a - 1) a Ha) as Hb.
  split; [lia|].
  rewrite Z.mul_comm. apply Z.mod_mul. lia.
Qed.

(** ** The registry *)

Lemma lookup_drm_format_cases (drm_format : Z) (format : format_desc_struct) :
  lookup_drm_format drm_format = Some format ->
  In format format_desc /\ drm_id format = drm_format.
Proof.
  unfold lookup_drm_format, format_desc, lookup_in. intros H.
  repeat match type of H with
  | (if negb (?a =? ?b) then _ else _) = _ =>
      destruct (Z.eqb_spec a b);
      [ cbn [negb] in H; injection H as <-;
        split; [cbn; tauto | assumption]
      | cbn [negb] in H ]
  end.
  discriminate H.
Qed.

Lemma lookup_drm_format_None (drm_format : Z) :
  lookup_drm_format drm_format = None <->
  ~ In drm_format (map drm_id format_desc).
Proof.
  unfold lookup_drm_format, format_desc, lookup_in. cbn [map drm_id In].
  repeat match goal with
  | |- context [negb (?a =? ?b)] =>
      destruct (Z.eqb_spec a b); cbn [negb]
  end; split; intros H; try discriminate H; try tauto; try reflexivity.
Qed.

(** ** Tile geometry *)

Lemma tile_size_linear (fd : device) (fb_bpp : Z) :
  igt_get_fb_tile_size fd LOCAL_DRM_FORMAT_MOD_NONE fb_bpp = Ok (64, 1).
Proof. reflexivity. Qed.

Lemma tile_size_X (fd : device) (fb_bpp : Z) :
  is_intel fd = true ->
  igt_get_fb_tile_size fd LOCAL_I915_FORMAT_MOD_X_TILED fb_bpp
  = if intel_gen fd =? 2 then Ok (128, 16) else Ok (512, 8).
Proof.
  intros Hi. unfold igt_get_fb_tile_size, igt_require_intel, igt_require.
  rewrite Hi. reflexivity.
Qed.

Lemma tile_size_Y (fd : device) (fb_bpp : Z) :
  is_intel fd = true ->
  igt_get_fb_tile_size fd LOCAL_I915_FORMAT_MOD_Y_TILED fb_bpp
  = if intel_gen fd =? 2 then Ok (128, 16)
    else if IS_915 fd then Ok (512, 8) else Ok (128, 32).
Proof.
  intros Hi. unfold igt_get_fb_tile_size, igt_require_intel, igt_require.
  rewrite Hi. reflexivity.
Qed.

Lemma tile_size_Yf (fd fd' : device) (fb_bpp : Z) :
  is_intel fd = true -> is_intel fd' = true ->
  igt_get_fb_tile_size fd LOCAL_I915_FORMAT_MOD_Yf_TILED fb_bpp
  = igt_get_fb_tile_size fd' LOCAL_I915_FORMAT_MOD_Yf_TILED fb_bpp.
Proof.
  intros Hi Hi'. unfold igt_get_fb_tile_size, igt_require_intel, igt_require.
  rewrite Hi, Hi'. reflexivity.
Qed.

(** C5. Among the tiled modes, Y tiling is the one whose tile geometry
    differs between two chipsets of the same generation number: on a 915
    (which is not generation 2) it is 512 bytes by 8 rows, and no chipset
    that is not a 915 gets that pair.  X tiling is decided by the
    generation number alone (generation 2 or not), and Yf tiling by the
    bits per pixel alone. *)
Theorem tile_geometry_sub_generation :
  (forall tiling : Z,
      In tiling tiled_modes ->
      (sub_generation_dependent tiling
       <-> tiling = LOCAL_I915_FORMAT_MOD_Y_TILED))
  /\ (forall (fd fd' : device) (fb_bpp : Z),
        is_intel fd = true -> is_intel fd' = true ->
        intel_gen fd <> 2 -> IS_915 fd = true -> IS_915 fd' = false ->
        igt_get_fb_tile_size fd LOCAL_I915_FORMAT_MOD_Y_TILED fb_bpp
          = Ok (512, 8)
        /\ igt_get_fb_tile_size fd' LOCAL_I915_FORMAT_MOD_Y_TILED fb_bpp
          <> Ok (512, 8))
  /\ (forall (fd fd' : device) (fb_bpp fb_bpp' : Z),
        is_intel fd = true -> is_intel fd' = true ->
        (intel_gen fd =? 2) = (intel_gen fd' =? 2) ->
        igt_get_fb_tile_size fd LOCAL_I915_FORMAT_MOD_X_TILED fb_bpp
          = igt_get_fb_tile_size fd' LOCAL_I915_FORMAT_MOD_X_TILED fb_bpp')
  /\ (forall (fd fd' : device) (fb_bpp : Z),
        is_intel fd = true -> is_intel fd' = true ->
        igt_get_fb_tile_size fd LOCAL_I915_FORMAT_MOD_Yf_TILED fb_bpp
          = igt_get_fb_tile_size fd' LOCAL_I915_FORMAT_MOD_Yf_TILED fb_bpp).
Proof.
  split; [|split; [|split]].
  - intros tiling Hin. split.
    + intros (fb_bpp & fd & fd' & Hi & Hi' & Hg & Hne).
      cbn in Hin. destruct Hin as [<- | [<- | [<- | []]]].
      * exfalso. apply Hne. rewrite !tile_size_X by assumption.
        rewrite Hg. reflexivity.
      * reflexivity.
      * exfalso. apply Hne. apply tile_size_Yf; assumption.
    + intros ->.
      exists 32, (mk_device true 3 true), (mk_device true 3 false).
      repeat split. discriminate.
  - intros fd fd' fb_bpp Hi Hi' Hg H915 H915'.
    rewrite !tile_size_Y by assumption. rewrite H915, H915'.
    destruct (Z.eqb_spec (intel_gen fd) 2); [contradiction|].
    split; [reflexivity|].
    destruct (intel_gen fd' =? 2); discriminate.
  - intros fd fd' fb_bpp fb_bpp' Hi Hi' Hg.
    rewrite !tile_size_X by assumption. rewrite Hg. reflexivity.
  - intros fd fd' fb_bpp Hi Hi'. apply tile_size_Yf; assumption.
Qed.

Lemma tile_geometry_sub_generation_witness :
  sub_generation_dependent LOCAL_I915_FORMAT_MOD_Y_TILED
  /\ igt_get_fb_tile_size (mk_device true 3 true)
       LOCAL_I915_FORMAT_MOD_Y_TILED 32 = Ok (512, 8)
  /\ igt_get_fb_tile_size (mk_device true 2 false)
       LOCAL_I915_FORMAT_MOD_X_TILED 16
     = igt_get_fb_tile_size (mk_device true 2 true)
         LOCAL_I915_FORMAT_MOD_X_TILED 32.
Proof.
  pose proof tile_geometry_sub_generation as (H1 & H2 & H3 & _).
  split; [|split].
  - apply (H1 LOCAL_I915_FORMAT_MOD_Y_TILED); [cbn; tauto | reflexivity].
  - apply (H2 (mk_device true 3 true) (mk_device true 4 false) 32);
      (reflexivity || discriminate).
  - apply (H3 (mk_device true 2 false) (mk_device true 2 true) 16 32);
      reflexivity.
Defined.

(** ** Modifier and tiling constants *)

(** C10. On the four supported values the two conversions are mutual
    inverses: converting a supported modifier to its tiling constant and
    back returns the modifier, and converting a supported tiling constant
    to its modifier and back returns the tiling constant. *)
Theorem mod_tiling_inverse :
  Forall (fun m =>
            (do t <- igt_fb_mod_to_tiling m; igt_fb_tiling_to_mod t) = Ok m)
         tiling_modes
  /\ Forall (fun t =>
            (do m <- igt_fb_tiling_to_mod t; igt_fb_mod_to_tiling m) = Ok t)
         tiling_constants
  /\ Forall (fun m => exists t, igt_fb_mod_to_tiling m = Ok t
                                /\ In t tiling_constants) tiling_modes
  /\ Forall (fun t => exists m, igt_fb_tiling_to_mod t = Ok m
                                /\ In m tiling_modes) tiling_constants.
Proof.
  unfold tiling_modes, tiled_modes, tiling_constants.
  repeat split; repeat constructor;
    solve [ reflexivity | eexists; split; [reflexivity | cbn; tauto] ].
Qed.

(** ** The packed calculator on a linear layout *)

Lemma calc_fb_size_packed_linear (fuel : nat) (fd : device) (width height : Z)
    (format : format_desc_struct) :
  calc_fb_size_packed fuel fd width height format LOCAL_DRM_FORMAT_MOD_NONE
  = Ok (u32 (u32 (round_up (width * Z.quot (bpp format) 8) 64) * height),
        u32 (round_up (width * Z.quot (bpp format) 8) 64)).
Proof.
  unfold calc_fb_size_packed. rewrite tile_size_linear. cbn [obind].
  change (LOCAL_DRM_FORMAT_MOD_NONE =? LOCAL_DRM_FORMAT_MOD_NONE) with true.
  cbn [negb andb].
  rewrite ALIGN_s32, ALIGN_1, u32_mul_r.
  change 64 with (2 ^ 6). rewrite ALIGN_pow2 by lia. reflexivity.
Qed.

(** C1, within the range of the 32-bit type.  For a single-plane format
    of the registry and linear tiling, on every device, and for every width
    and height whose rounded byte width and whose product of that with the
    height fit the unsigned 32-bit type the code computes them in: the
    calculator returns as stride [width * (bpp / 8)] rounded up to a
    multiple of 64, which is the one multiple of 64 from the byte width on
    and less than 64 above it, and as size the stride times the height. *)
Theorem linear_packed_stride_size (fuel : nat) (fd : device)
    (width height drm_format : Z) (format : format_desc_struct) :
  lookup_drm_format drm_format = Some format ->
  planes format <= 1 ->
  0 <= round_up (width * (bpp format / 8)) 64 < 2 ^ 32 ->
  0 <= round_up (width * (bpp format / 8)) 64 * height < 2 ^ 32 ->
  exists size stride : Z,
    igt_calc_fb_size fuel fd width height drm_format LOCAL_DRM_FORMAT_MOD_NONE
      = Ok (size, stride)
    /\ stride = round_up (width * (bpp format / 8)) 64
    /\ stride mod 64 = 0
    /\ width * (bpp format / 8) <= stride < width * (bpp format / 8) + 64
    /\ size = stride * height.
Proof.
  intros Hl Hp Hs Hz. unfold igt_calc_fb_size. rewrite Hl.
  destruct (Z.gtb_spec (planes format) 1) as [Hgt | _]; [lia|].
  rewrite calc_fb_size_packed_linear.
  assert (Hq : bpp format / 8 = Z.quot (bpp format) 8).
  { apply lookup_drm_format_cases in Hl as [Hin _].
    cbn in Hin. destruct Hin as [<- | [<- | [<- | [<- | [<- | []]]]]];
      reflexivity. }
  rewrite <- Hq.
  rewrite (u32_small _ Hs), (u32_small _ Hz).
  destruct (round_up_spec (width * (bpp format / 8)) 64 ltac:(lia))
    as [Hb Hm].
  eexists _, _. split; [reflexivity|].
  split; [reflexivity|]. split; [exact Hm|]. split; [exact Hb | reflexivity].
Qed.

Lemma linear_packed_stride_size_witness :
  exists size stride : Z,
    igt_calc_fb_size 0 (mk_device false 0 false) 1366 768 DRM_FORMAT_XRGB8888
      LOCAL_DRM_FORMAT_MOD_NONE = Ok (size, stride)
    /\ stride = 5504 /\ size = 4227072.
Proof.
  destruct (linear_packed_stride_size 0 (mk_device false 0 false) 1366 768
              DRM_FORMAT_XRGB8888
              (mk_format DRM_FORMAT_XRGB8888 CAIRO_FORMAT_RGB24 "XRGB8888"
                 32 24 0 [0; 0; 0; 0])
              eq_refl ltac:(cbn; lia)
              ltac:(vm_compute; split; congruence)
              ltac:(vm_compute; split; congruence))
    as (size & stride & Hr & Hst & _ & _ & Hsz).
  exists size, stride. split; [exact Hr|].
  subst size stride. split; reflexivity.
Defined.

(** C1, as the specification words it, fails where the product leaves the
    32-bit type: for a 16384 by 70000 XRGB8888 buffer with linear layout
    the stride is 65536, [stride * height] is 4587520000, and the size
    the calculator returns is 292552704, that product modulo 2^32. *)
Lemma linear_size_wraps :
  igt_calc_fb_size 0 (mk_device true 9 false) 16384 70000 DRM_FORMAT_XRGB8888
    LOCAL_DRM_FORMAT_MOD_NONE = Ok (292552704, 65536)
  /\ round_up (16384 * (32 / 8)) 64 = 65536
  /\ 65536 * 70000 = 4587520000
  /\ 292552704 <> 65536 * 70000.
Proof.
  split; [vm_compute; reflexivity|].
  split; [reflexivity|]. split; [reflexivity|]. discriminate.
Qed.

(** ** The doubling loops of the legacy path *)

Lemma double_until_S (fuel : nat) (x v : Z) :
  double_until (S fuel) x v
  = if x <? u32 v then double_until fuel (u32 (x * 2)) v else Ok x.
Proof. reflexivity. Qed.

Lemma u32_double_pow2 (k : Z) :
  0 <= k < 31 -> u32 (2 ^ k * 2) = 2 ^ (k + 1).
Proof.
  intros Hk. rewrite Z.pow_add_r, Z.pow_1_r by lia.
  apply u32_small. split.
  - apply Z.mul_nonneg_nonneg; [apply Z.pow_nonneg|]; lia.
  - change (2 ^ 32) with (2 ^ 31 * 2).
    apply Z.mul_lt_mono_pos_r; [lia|].
    apply Z.pow_lt_mono_r; lia.
Qed.

(** With enough fuel the loop started on [2 ^ k] stops on the first power
    of two from there on that is not below the bound. *)
Lemma double_until_pow2 (fuel : nat) (k v : Z) :
  0 <= k <= 31 -> u32 v <= 2 ^ 31 ->
  (Z.to_nat (31 - k) < fuel)%nat ->
  exists j : Z,
    k <= j <= 31
    /\ double_until fuel (2 ^ k) v = Ok (2 ^ j)
    /\ u32 v <= 2 ^ j
    /\ (j = k \/ 2 ^ (j - 1) < u32 v).
Proof.
  revert k. induction fuel as [|fuel IH]; intros k Hk Hv Hf; [lia|].
  rewrite double_until_S.
  destruct (Z.ltb_spec (2 ^ k) (u32 v)) as [Hlt | Hge].
  - assert (Hk' : k < 31).
    { destruct (Z.eq_dec k 31) as [-> | ?]; lia. }
    rewrite u32_double_pow2 by lia.
    destruct (IH (k + 1)) as (j & Hj & Hr & Hb & Hm); [lia | lia | lia |].
    exists j. split; [lia|]. split; [exact Hr|]. split; [exact Hb|].
    right. destruct Hm as [-> | Hm]; [|exact Hm].
    replace (k + 1 - 1) with k by lia. exact Hlt.
  - exists k. split; [lia|]. split; [reflexivity|]. split; [exact Hge|].
    left. reflexivity.
Qed.

Lemma double_until_smallest (k j v : Z) :
  0 <= k <= j -> v <= 2 ^ j -> (j = k \/ 2 ^ (j - 1) < v) ->
  smallest_pow2_above (2 ^ k) v (2 ^ j).
Proof.
  intros Hk Hv Hm. split; [exists j; split; [lia | reflexivity]|].
  split; [apply Z.pow_le_mono_r; lia|]. split; [exact Hv|].
  intros s' (m & Hm0 & ->) Hfl Hvs.
  destruct Hm as [-> | Hm]; [exact Hfl|].
  apply Z.pow_le_mono_r; [lia|].
  assert (Hlt : 2 ^ (j - 1) < 2 ^ m) by lia.
  apply Z.pow_lt_mono_r_iff in Hlt; lia.
Qed.

Lemma double_until_deterministic (f1 f2 : nat) (x v r1 r2 : Z) :
  double_until f1 x v = Ok r1 -> double_until f2 x v = Ok r2 -> r1 = r2.
Proof.
  revert f2 x. induction f1 as [|f1 IH]; intros f2 x H1 H2; [discriminate H1|].
  destruct f2 as [|f2]; [discriminate H2|].
  rewrite double_until_S in H1, H2.
  destruct (x <? u32 v).
  - exact (IH _ _ H1 H2).
  - congruence.
Qed.

Lemma double_until_zero_diverges (fuel : nat) (v : Z) :
  0 < u32 v -> double_until fuel 0 v = Timeout.
Proof.
  intros Hv. induction fuel as [|fuel IH]; [reflexivity|].
  rewrite double_until_S.
  destruct (Z.ltb_spec 0 (u32 v)); [exact IH | lia].
Qed.

(** A bound above [2 ^ 31] is never reached: the counter wraps to zero. *)
Lemma double_until_diverges (fuel : nat) (k v : Z) :
  0 <= k <= 31 -> 2 ^ 31 < u32 v -> double_until fuel (2 ^ k) v = Timeout.
Proof.
  revert k. induction fuel as [|fuel IH]; intros k Hk Hv; [reflexivity|].
  rewrite double_until_S.
  assert (Hle : 2 ^ k <= 2 ^ 31) by (apply Z.pow_le_mono_r; lia).
  destruct (Z.ltb_spec (2 ^ k) (u32 v)); [|lia].
  destruct (Z.eq_dec k 31) as [-> | Hne].
  - change (u32 (2 ^ 31 * 2)) with 0.
    apply double_until_zero_diverges. lia.
  - rewrite u32_double_pow2 by lia. apply IH; lia.
Qed.

(** On an Intel device every supported tiling has a geometry, and both of
    its dimensions are powers of two. *)
Lemma tile_size_returns (fd : device) (tiling fb_bpp : Z) :
  is_intel fd = true -> In tiling tiling_modes ->
  (tiling = LOCAL_I915_FORMAT_MOD_Yf_TILED -> yf_bpp fb_bpp) ->
  exists a b : Z,
    0 <= a < 32 /\ 0 <= b < 32
    /\ igt_get_fb_tile_size fd tiling fb_bpp = Ok (2 ^ a, 2 ^ b).
Proof.
  intros Hi Hin Hbpp. unfold igt_get_fb_tile_size, igt_require_intel, igt_require.
  rewrite Hi. cbn [obind].
  cbn in Hin. destruct Hin as [<- | [<- | [<- | [<- | []]]]].
  - exists 6, 0. repeat split; lia.
  - cbn. destruct (intel_gen fd =? 2);
      [exists 7, 4 | exists 9, 3]; repeat split; lia.
  - cbn. destruct (intel_gen fd =? 2); [|destruct (IS_915 fd)];
      [exists 7, 4 | exists 9, 3 | exists 7, 5]; repeat split; lia.
  - specialize (Hbpp eq_refl). cbn in Hbpp.
    destruct Hbpp as [<- | [<- | [<- | [<- | [<- | []]]]]]; cbn;
      [exists 6, 6 | exists 7, 5 | exists 7, 5 | exists 8, 4 | exists 8, 4];
      repeat split; lia.
Qed.

Lemma packed_format_bpp (drm_format : Z) (format : format_desc_struct) :
  lookup_drm_format drm_format = Some format -> planes format <= 1 ->
  (bpp format = 16 \/ bpp format = 32)
  /\ Z.quot (bpp format) 8 = bpp format / 8.
Proof.
  intros Hl Hp. apply lookup_drm_format_cases in Hl as [Hin _].
  cbn in Hin. destruct Hin as [<- | [<- | [<- | [<- | [<- | []]]]]];
    cbn in *; (split; [lia | reflexivity]).
Qed.

(** ** The legacy power-of-two path *)

(** C3, as the code has it.  For a single-plane format of the registry, a
    tiled modifier and an Intel device of generation at most 3, when the
    byte width [width * (bpp / 8)] lies in [0, 2^31) and the height is not
    negative: the stride is the smallest power of two that is at least 512
    and at least the byte width, and, when [stride * height] is at most
    2^31, the calculator returns that stride and, as size, the smallest
    power of two that is at least 1 MiB and at least [stride * height]. *)
Theorem legacy_pot_stride_size (fuel : nat) (fd : device)
    (width height drm_format tiling : Z) (format : format_desc_struct) :
  lookup_drm_format drm_format = Some format ->
  planes format <= 1 ->
  In tiling tiled_modes ->
  is_intel fd = true ->
  intel_gen fd <= 3 ->
  (23 <= fuel)%nat ->
  0 <= width * (bpp format / 8) < 2 ^ 31 ->
  0 <= height ->
  exists stride : Z,
    smallest_pow2_above 512 (width * (bpp format / 8)) stride
    /\ (stride * height <= 2 ^ 31 ->
        exists size : Z,
          igt_calc_fb_size fuel fd width height drm_format tiling
            = Ok (size, stride)
          /\ smallest_pow2_above (1024 * 1024) (stride * height) size).
Proof.
  intros Hl Hp Hin Hi Hg Hf Hw Hh.
  destruct (packed_format_bpp _ _ Hl Hp) as [Hbpp Hq].
  set (bw := width * (bpp format / 8)) in *.
  assert (Hbw : u32 (s32 (width * Z.quot (bpp format) 8)) = bw).
  { rewrite Hq, u32_s32. apply u32_small. lia. }
  destruct (double_until_pow2 fuel 9 (s32 (width * Z.quot (bpp format) 8)))
    as (j & Hj & Hr & Hb & Hm); [lia | rewrite Hbw; lia | lia |].
  rewrite Hbw in Hb, Hm.
  exists (2 ^ j). split.
  { change 512 with (2 ^ 9). apply double_until_smallest; [lia | | ]; assumption. }
  intros Hsz.
  assert (Hpos : 0 <= 2 ^ j * height).
  { apply Z.mul_nonneg_nonneg; [apply Z.pow_nonneg|]; lia. }
  assert (Hv : u32 (s32 (u32 (2 ^ j * height))) = 2 ^ j * height).
  { rewrite u32_s32, u32_idem. apply u32_small. lia. }
  destruct (double_until_pow2 fuel 20 (s32 (u32 (2 ^ j * height))))
    as (i & Hi' & Hr' & Hb' & Hm'); [lia | rewrite Hv; lia | lia |].
  rewrite Hv in Hb', Hm'.
  exists (2 ^ i). split.
  - unfold igt_calc_fb_size. rewrite Hl.
    destruct (Z.gtb_spec (planes format) 1) as [Hgt | _]; [lia|].
    unfold calc_fb_size_packed.
    destruct (tile_size_returns fd tiling (bpp format) Hi) as (a & b & _ & _ & Ht).
    { right. exact Hin. }
    { intros _. unfold yf_bpp. cbn. lia. }
    rewrite Ht. cbn [obind].
    assert (Hnl : (tiling =? LOCAL_DRM_FORMAT_MOD_NONE) = false).
    { cbn in Hin. destruct Hin as [<- | [<- | [<- | []]]]; reflexivity. }
    rewrite Hnl. cbn [negb andb].
    destruct (Z.leb_spec (intel_gen fd) 3) as [_ | Hgt]; [|lia].
    change 512 with (2 ^ 9). rewrite Hr. cbn [obind].
    change (1024 * 1024) with (2 ^ 20). rewrite Hr'. reflexivity.
  - change (1024 * 1024) with (2 ^ 20).
    apply double_until_smallest; [lia | | ]; assumption.
Qed.

Lemma legacy_pot_stride_size_witness :
  exists stride : Z,
    smallest_pow2_above 512 (1024 * (32 / 8)) stride
    /\ exists size : Z,
         igt_calc_fb_size 23 (mk_device true 3 false) 1024 768
           DRM_FORMAT_XRGB8888 LOCAL_I915_FORMAT_MOD_X_TILED
         = Ok (size, stride)
         /\ smallest_pow2_above (1024 * 1024) (stride * 768) size.
Proof.
  destruct (legacy_pot_stride_size 23 (mk_device true 3 false) 1024 768
              DRM_FORMAT_XRGB8888 LOCAL_I915_FORMAT_MOD_X_TILED
              (mk_format DRM_FORMAT_XRGB8888 CAIRO_FORMAT_RGB24 "XRGB8888"
                 32 24 0 [0; 0; 0; 0])
              eq_refl ltac:(cbn; lia) ltac:(cbn; tauto) eq_refl
              ltac:(cbn; lia) ltac:(lia) ltac:(vm_compute; split; congruence)
              ltac:(lia))
    as (stride & Hs & Hsize).
  exists stride. split; [exact Hs|].
  apply Hsize.
  destruct Hs as ((k & Hk & ->) & _ & _ & Hmin).
  assert (H4096 : is_pow2 4096) by (exists 12; split; [lia | reflexivity]).
  assert (Hle : 2 ^ k <= 4096).
  { apply Hmin; [exact H4096 | lia | vm_compute; congruence]. }
  lia.
Defined.

(** C3, as the specification words it, fails where the 32-bit counters
    wrap: for a 16384 by 40000 XRGB8888 buffer with X tiling on generation
    3 the stride is 65536 and [stride * height] exceeds 2^31, the size
    counter wraps to zero before reaching it, and the calculator returns
    nothing, with whatever fuel. *)
Lemma legacy_pot_size_wraps :
  ~ (exists (fuel : nat) (r : Z * Z),
        igt_calc_fb_size fuel (mk_device true 3 false) 16384 40000
          DRM_FORMAT_XRGB8888 LOCAL_I915_FORMAT_MOD_X_TILED = Ok r).
Proof.
  intros (fuel & r & H).
  unfold igt_calc_fb_size in H. cbn [lookup_drm_format] in H.
  change (lookup_drm_format DRM_FORMAT_XRGB8888)
    with (Some (mk_format DRM_FORMAT_XRGB8888 CAIRO_FORMAT_RGB24 "XRGB8888"
                  32 24 0 [0; 0; 0; 0])) in H.
  cbv beta iota in H.
  change (planes _ >? 1) with false in H. cbv iota in H.
  unfold calc_fb_size_packed in H.
  change (igt_get_fb_tile_size _ _ _) with (@Ok (Z * Z) (512, 8)) in H.
  cbn [obind] in H.
  change (negb (_ =? _) && (_ <=? 3)) with true in H. cbv iota in H.
  change (s32 _) with 65536 in H at 1.
  destruct (double_until fuel 512 65536) as [stride | | | |] eqn:Hs;
    try discriminate H.
  assert (Hstride : stride = 65536).
  { apply (double_until_deterministic fuel 23 512 65536 _ _ Hs).
    vm_compute. reflexivity. }
  subst stride. cbn [obind] in H.
  change (1024 * 1024) with (2 ^ 20) in H.
  rewrite double_until_diverges in H; [discriminate H | lia |].
  vm_compute. reflexivity.
Qed.

(** ** The planar calculator *)







(** [memset] keeps the length of the mapping. *)
Lemma memset_length (map : list Z) (off c n : Z) (map' : list Z) :
  0 <= off -> 0 <= n ->
  memset map off c n = Ok map' -> length map' = length map.
Proof.
  intros Hoff Hn. unfold memset.
  destruct (n =? 0); [intros [= <-]; reflexivity|].
  destruct (Z.leb_spec (off + n) (Z.of_nat (length map))) as [Hle | _];
    [|discriminate].
  intros [= <-].
  rewrite !length_app, length_take, length_replicate, length_drop. lia.
Qed.

(** The bytes of the mapping after a [memset]. *)
Lemma memset_lookup (map : list Z) (off c n : Z) (map' : list Z) (i : nat) :
  0 <= off -> 0 <= n ->
  memset map off c n = Ok map' ->
  (Z.to_nat off <= i < Z.to_nat (off + n))%nat -> map' !! i = Some c.
Proof.
  intros Hoff Hn. unfold memset.
  destruct (Z.eqb_spec n 0) as [-> | Hn0]; [intros _; lia|].
  destruct (Z.leb_spec (off + n) (Z.of_nat (length map))) as [Hle | _];
    [|discriminate].
  intros [= <-] Hi.
  rewrite lookup_app_r by (rewrite length_take; lia).
  rewrite length_take, Nat.min_l by lia.
  rewrite lookup_app_l by (rewrite length_replicate; lia).
  apply lookup_replicate_2. lia.
Qed.

(** Two [memset] calls, the second starting where the first ends, succeed
    when both ranges lie inside the mapping. *)
Lemma memset_twice (map : list Z) (a b : Z) :
  0 <= a -> 0 <= b -> a + b <= Z.of_nat (length map) ->
  (do ptr <- memset map 0 16 a;
   do _ <- memset ptr a 128 b;
   Ok tt) = Ok tt.
Proof.
  intros Ha Hb Hlen.
  destruct (memset map 0 16 a) as [ptr| | | |] eqn:H1.
  2-5: revert H1; unfold memset; destruct (a =? 0); [discriminate|];
       destruct (Z.leb_spec (0 + a) (Z.of_nat (length map)));
       [discriminate | lia].
  cbn [obind].
  pose proof (memset_length _ _ _ _ _ (Z.le_refl 0) Ha H1) as Hl.
  unfold memset. rewrite Hl.
  destruct (b =? 0); [reflexivity|].
  destruct (Z.leb_spec (a + b) (Z.of_nat (length map))); [reflexivity | lia].
Qed.



(** ** Plane dimensions of a created framebuffer *)

Lemma lookup_NV12 : lookup_drm_format DRM_FORMAT_NV12 = Some NV12_desc.
Proof. reflexivity. Qed.

Lemma planar_width_NV12_chroma (width : Z) :
  0 <= width < 2 ^ 31 ->
  planar_width NV12_desc (u32 width) 1 = (width + 1) / 2.
Proof.
  intros H. unfold planar_width. cbn [NV12_desc drm_id].
  change ((DRM_FORMAT_NV12 =? DRM_FORMAT_NV12) && (1 =? 1)) with true.
  cbv iota. rewrite u32_add_l, u32_small; [reflexivity | lia].
Qed.

Lemma planar_height_NV12_chroma (height : Z) :
  0 <= height < 2 ^ 31 ->
  planar_height NV12_desc (u32 height) 1 = (height + 1) / 2.
Proof.
  intros H. unfold planar_height. cbn [NV12_desc drm_id].
  change ((DRM_FORMAT_NV12 =? DRM_FORMAT_NV12) && (1 =? 1)) with true.
  cbv iota. rewrite u32_add_l, u32_small; [reflexivity | lia].
Qed.

Lemma half_up_is_ceil (w : Z) : is_ceil_half w ((w + 1) / 2).
Proof.
  unfold is_ceil_half.
  pose proof (Z.div_mod (w + 1) 2 ltac:(lia)).
  pose proof (Z.mod_pos_bound (w + 1) 2 ltac:(lia)).
  lia.
Qed.

(** C7. For every width and height an [int] can hold from 0 on, odd or
    even, the framebuffer created for NV12 records as [plane_width[1]] and
    [plane_height[1]] the ceiling of half the width and the ceiling of half
    the height, which are the values of [planar_width] and [planar_height]
    on plane 1. *)
Theorem nv12_chroma_plane_dimensions (fuel : nat) (k : kernel) (fd : device)
    (width height tiling bo_size bo_stride : Z) (fb : igt_fb) :
  0 <= width < 2 ^ 31 ->
  0 <= height < 2 ^ 31 ->
  igt_create_fb_with_bo_size fuel k fd width height DRM_FORMAT_NV12 tiling
    bo_size bo_stride = Ok fb ->
  exists cw ch : Z,
    fb_plane_width fb !! 1%nat = Some cw
    /\ fb_plane_height fb !! 1%nat = Some ch
    /\ is_ceil_half width cw
    /\ is_ceil_half height ch
    /\ cw = planar_width NV12_desc (u32 width) 1
    /\ ch = planar_height NV12_desc (u32 height) 1.
Proof.
  intros Hw Hh H.
  unfold igt_create_fb_with_bo_size in H. rewrite lookup_NV12 in H.
  destruct (create_bo_for_fb _ _ _ _ _ _ _ _ _ _ _ _ _)
    as [[[[[bo sz] st] res] dumb] | | | |]; try discriminate H.
  cbn [obind] in H.
  destruct (igt_assert _); cbn [obind] in H; try discriminate H.
  destruct (kms_addfb _ _ _ _ _ _ _ _); cbn [obind] in H; try discriminate H.
  change (Z.to_nat (planes NV12_desc)) with 2%nat in H.
  cbn [plane_fields_loop] in H. injection H as <-.
  cbn [fb_plane_width fb_plane_height].
  change (Z.to_nat (0 + 1)) with 1%nat. change (Z.to_nat 0) with 0%nat.
  exists (planar_width NV12_desc (u32 width) 1),
         (planar_height NV12_desc (u32 height) 1).
  split; [reflexivity|]. split; [reflexivity|].
  rewrite planar_width_NV12_chroma, planar_height_NV12_chroma by assumption.
  repeat split; apply half_up_is_ceil.
Qed.

Lemma nv12_chroma_plane_dimensions_witness :
  exists (fb : igt_fb) (cw ch : Z),
    igt_create_fb 0 test_kernel (mk_device true 9 false) 9 9
      DRM_FORMAT_NV12 LOCAL_I915_FORMAT_MOD_Y_TILED = Ok fb
    /\ fb_plane_width fb !! 1%nat = Some cw
    /\ fb_plane_height fb !! 1%nat = Some ch
    /\ is_ceil_half 9 cw /\ is_ceil_half 9 ch.
Proof.
  assert (Hr : exists fb : igt_fb,
             igt_create_fb 0 test_kernel (mk_device true 9 false) 9 9
               DRM_FORMAT_NV12 LOCAL_I915_FORMAT_MOD_Y_TILED = Ok fb).
  { vm_compute. eexists. reflexivity. }
  destruct Hr as [fb Hfb]. exists fb.
  destruct (nv12_chroma_plane_dimensions 0 test_kernel
              (mk_device true 9 false) 9 9 LOCAL_I915_FORMAT_MOD_Y_TILED 0 0
              fb ltac:(lia) ltac:(lia) Hfb)
    as (cw & ch & Hw & Hh & Hcw & Hch & _).
  exists cw, ch.
  split; [exact Hfb|]. split; [exact Hw|]. split; [exact Hh|].
  split; assumption.
Defined.

(** ** Loops and buffers *)

Lemma for_loop_inv {St : Type} (I : Z -> St -> Prop)
    (body : Z -> St -> outcome St) (n : nat) :
  forall (i0 : Z) (s0 : St),
    I i0 s0 ->
    (forall (i : Z) (s : St),
        i0 <= i < i0 + Z.of_nat n -> I i s ->
        exists s' : St, body i s = Ok s' /\ I (i + 1) s') ->
    exists s' : St, for_loop n i0 body s0 = Ok s' /\ I (i0 + Z.of_nat n) s'.
Proof.
  induction n as [|n IH]; intros i0 s0 H0 Hstep.
  - exists s0. split; [reflexivity|]. rewrite Z.add_0_r. exact H0.
  - destruct (Hstep i0 s0) as (s1 & Hb & H1); [lia | exact H0 |].
    destruct (IH (i0 + 1) s1 H1) as (s' & Hl & HI).
    { intros i s Hi. apply Hstep. lia. }
    exists s'. split.
    + cbn [for_loop]. rewrite Hb. exact Hl.
    + replace (i0 + Z.of_nat (S n)) with (i0 + 1 + Z.of_nat n) by lia.
      exact HI.
Qed.

Lemma load_Ok (buf : list Z) (addr : Z) :
  0 <= addr < Z.of_nat (length buf) ->
  load buf addr = Ok (nth (Z.to_nat addr) buf 0).
Proof.
  intros H. unfold load.
  destruct (Z.leb_spec 0 addr) as [_ | ?]; [|lia].
  destruct (buf !! Z.to_nat addr) as [v|] eqn:Hl.
  - f_equal. symmetry. apply nth_lookup_Some with (d := 0) in Hl. exact Hl.
  - apply lookup_ge_None in Hl. lia.
Qed.

Lemma store_Ok (buf : list Z) (addr v : Z) :
  0 <= addr < Z.of_nat (length buf) ->
  store buf addr v = Ok (<[Z.to_nat addr := v]> buf).
Proof.
  intros H. unfold store.
  destruct (Z.leb_spec 0 addr) as [_ | ?]; [|lia].
  destruct (Z.ltb_spec addr (Z.of_nat (length buf))) as [_ | ?]; [|lia].
  reflexivity.
Qed.

Lemma lookup_insert_Z (buf : list Z) (a b v : Z) :
  0 <= a < Z.of_nat (length buf) -> 0 <= b ->
  <[Z.to_nat a := v]> buf !! Z.to_nat b
  = if Z.eq_dec a b then Some v else buf !! Z.to_nat b.
Proof.
  intros Ha Hb. destruct (Z.eq_dec a b) as [-> | Hne].
  - apply list_lookup_insert_eq. lia.
  - apply list_lookup_insert_ne. lia.
Qed.

Lemma lor_1_bounds (j : Z) : 0 <= j -> j <= Z.lor j 1 <= j + 1.
Proof.
  intros Hj. destruct j as [|p|p]; [| |lia].
  - cbv [Z.lor]. lia.
  - destruct p; cbv [Z.lor Pos.lor]; lia.
Qed.

Lemma land_not_1_bounds (j : Z) :
  0 <= j -> 0 <= Z.land j (Z.lnot 1) <= j.
Proof.
  intros Hj. destruct j as [|p|p]; [| |lia].
  - cbv [Z.land]. lia.
  - change (Z.lnot 1) with (Z.neg 2).
    destruct p;
      cbv [Z.land Pos.pred_N Pos.pred_double N.ldiff Pos.ldiff Z.of_N
           Pos.Ndouble N.double];
      lia.
Qed.

Lemma lor_1_lt (j w : Z) : 0 <= j < w -> Z.lor j 1 < w + w mod 2.
Proof.
  intros Hj.
  pose proof (Z.div_mod w 2 ltac:(lia)) as Hdm.
  pose proof (Z.mod_pos_bound w 2 ltac:(lia)) as Hmb.
  destruct j as [|p|p]; [| |lia].
  - cbv [Z.lor]. lia.
  - destruct p; cbv [Z.lor Pos.lor]; lia.
Qed.

(** ** Decoding NV12 *)

Section Decode.
Variables (buf out0 : list Z) (w h rs ps offy offuv : Z).
Hypothesis Hw : 0 <= w.
Hypothesis Hh : 0 <= h.
Hypothesis Hrs : 4 * w <= rs < 2 ^ 30.
Hypothesis Hps : w + w mod 2 <= ps < 2 ^ 30.
Hypothesis Hoffy : 0 <= offy.
Hypothesis Hoffuv : 0 <= offuv.
Hypothesis Hluma : offy + h * ps <= Z.of_nat (length buf).
Hypothesis Hchroma : offuv + (h + 1) / 2 * ps <= Z.of_nat (length buf).
Hypothesis Hout : h * rs <= Z.of_nat (length out0).

(** [out] has the size of the output map and holds the decoded byte of
    every pixel channel in [D]. *)
Definition decoded (D : Z -> Z -> Z -> Prop) (out : list Z) : Prop :=
  length out = length out0
  /\ (forall row col ch : Z,
         D row col ch -> 0 <= row < h /\ 0 <= col < w /\ 0 <= ch < 3)
  /\ (forall row col ch : Z,
         D row col ch ->
         out !! Z.to_nat (row * rs + col * 4 + ch)
         = Some (decoded_sample buf ps offy offuv row col ch)).

Lemma decoded_weaken (D D' : Z -> Z -> Z -> Prop) (out : list Z) :
  decoded D out ->
  (forall row col ch : Z, D' row col ch -> D row col ch) ->
  decoded D' out.
Proof.
  intros (Hl & Hv & Hd) Hsub. split; [exact Hl|]. split.
  - intros row col ch H'. apply Hv, Hsub, H'.
  - intros row col ch H'. apply Hd, Hsub, H'.
Qed.

Lemma pixel_addr_bound (row col ch : Z) :
  0 <= row < h -> 0 <= col < w -> 0 <= ch < 3 ->
  0 <= row * rs + col * 4 + ch < Z.of_nat (length out0).
Proof. intros Hr Hc Hch. nia. Qed.

Lemma pixel_addr_inj (row col ch row' col' ch' : Z) :
  0 <= row -> 0 <= col < w -> 0 <= ch < 3 ->
  0 <= row' -> 0 <= col' < w -> 0 <= ch' < 3 ->
  row * rs + col * 4 + ch = row' * rs + col' * 4 + ch' ->
  row = row' /\ col = col' /\ ch = ch'.
Proof.
  intros Hr Hc Hch Hr' Hc' Hch' He.
  assert (row = row') by nia. subst row'. lia.
Qed.

Lemma store_sample (D : Z -> Z -> Z -> Prop) (out : list Z)
    (row col ch a v : Z) :
  decoded D out ->
  0 <= row < h -> 0 <= col < w -> 0 <= ch < 3 ->
  a = row * rs + col * 4 + ch ->
  v = decoded_sample buf ps offy offuv row col ch ->
  store out a v = Ok (<[Z.to_nat a := v]> out)
  /\ decoded (fun r c k => D r c k \/ (r = row /\ c = col /\ k = ch))
       (<[Z.to_nat a := v]> out).
Proof.
  intros (Hl & Hv & Hd) Hr Hc Hch -> ->.
  pose proof (pixel_addr_bound row col ch Hr Hc Hch) as Hb.
  split; [apply store_Ok; rewrite Hl; exact Hb|].
  split; [rewrite length_insert; exact Hl|]. split.
  - intros r c k [HD | (-> & -> & ->)]; [apply Hv, HD | tauto].
  - intros r c k HD.
    assert (Hrck : 0 <= r < h /\ 0 <= c < w /\ 0 <= k < 3).
    { destruct HD as [HD | (-> & -> & ->)]; [apply Hv, HD | tauto]. }
    destruct Hrck as (Hr' & Hc' & Hk').
    pose proof (pixel_addr_bound r c k Hr' Hc' Hk') as Hb'.
    rewrite lookup_insert_Z by (rewrite ?Hl; lia).
    destruct (Z.eq_dec _ _) as [He | Hne].
    + apply pixel_addr_inj in He as (-> & -> & ->); try lia. reflexivity.
    + destruct HD as [HD | (-> & -> & ->)]; [apply Hd, HD | contradiction].
Qed.

Definition valid_sample (r c k : Z) : Prop :=
  0 <= r < h /\ 0 <= c < w /\ 0 <= k < 3.

(** The pixels done when the loop over blocks of the row pair from row
    [r0] on reaches column [j] ([n] rows in the pair). *)
Definition done_at (r0 n j : Z) (r c k : Z) : Prop :=
  valid_sample r c k /\ (r < r0 \/ (r < r0 + n /\ c < j)).

(** One store of the body: the byte stored is the decoded sample of
    [(row, col, ch)], which joins the pixels done. *)
Ltac store_step row col ch Hs :=
  match goal with
  | Hd : decoded _ ?o |- context [store ?o ?a ?v] =>
      let Hst := fresh "Hst" in
      let Hn := fresh "Hd" in
      destruct (store_sample _ o row col ch a v Hd) as [Hst Hn];
      [ lia | lia | lia | lia | exact (eq_sym Hs)
      | rewrite Hst; cbn [obind]; clear Hst Hd ]
  end.

Lemma half_row_bound (i : Z) : 0 <= i -> 2 * i + 1 <= h -> i + 1 <= (h + 1) / 2.
Proof. intros Hi Hle. apply Z.div_le_lower_bound; lia. Qed.

Lemma nv12_block_body_ok (i j : Z) (out : list Z) :
  0 <= i -> 2 * i + 2 <= h -> 0 <= j < w ->
  decoded (done_at (2 * i) 2 j) out ->
  exists out' : list Z,
    nv12_block_body buf (2 * i * rs) (offy + 2 * i * ps) (offuv + i * ps)
      rs ps j out = Ok out'
    /\ decoded (done_at (2 * i) 2 (j + 1)) out'.
Proof.
  intros Hi Hrow Hj Hdec. unfold nv12_block_body.
  pose proof (half_row_bound i Hi ltac:(lia)) as Hhalf.
  pose proof (lor_1_bounds j ltac:(lia)) as Hlor.
  pose proof (lor_1_lt j w ltac:(lia)) as Hlw.
  pose proof (Z.mod_pos_bound w 2 ltac:(lia)) as Hwm.
  pose proof (land_not_1_bounds j ltac:(lia)) as Hland.
  assert (Hrows : (2 * i + 2) * ps <= h * ps)
    by (apply Z.mul_le_mono_nonneg_r; lia).
  assert (Hcrows : (i + 1) * ps <= (h + 1) / 2 * ps)
    by (apply Z.mul_le_mono_nonneg_r; lia).
  assert (Hip : 0 <= i * ps) by (apply Z.mul_nonneg_nonneg; lia).
  rewrite (u32_small (j + ps)) by lia.
  rewrite !load_Ok by lia. cbn [obind].
  destruct (chroma_terms _ _) as [[r_ g_] b_] eqn:Hct.
  rewrite !u32_small by lia.
  assert (He : 2 * i / 2 = i) by (rewrite Z.mul_comm; apply Z.div_mul; lia).
  assert (Ho : (2 * i + 1) / 2 = i).
  { symmetry. apply (Z.div_unique _ _ _ 1); lia. }
  assert (Hs0 : forall ch : Z,
             decoded_sample buf ps offy offuv (2 * i) j ch
             = if ch =? 2
               then clamprgb (f32.add
                      (luma_term (nth (Z.to_nat (offy + 2 * i * ps + j)) buf 0))
                      r_)
               else if ch =? 1
               then clamprgb (f32.add
                      (luma_term (nth (Z.to_nat (offy + 2 * i * ps + j)) buf 0))
                      g_)
               else clamprgb (f32.add
                      (luma_term (nth (Z.to_nat (offy + 2 * i * ps + j)) buf 0))
                      b_)).
  { intros ch. unfold decoded_sample. rewrite He, Hct. reflexivity. }
  assert (Hs1 : forall ch : Z,
             decoded_sample buf ps offy offuv (2 * i + 1) j ch
             = if ch =? 2
               then clamprgb (f32.add
                      (luma_term
                         (nth (Z.to_nat (offy + 2 * i * ps + (j + ps))) buf 0))
                      r_)
               else if ch =? 1
               then clamprgb (f32.add
                      (luma_term
                         (nth (Z.to_nat (offy + 2 * i * ps + (j + ps))) buf 0))
                      g_)
               else clamprgb (f32.add
                      (luma_term
                         (nth (Z.to_nat (offy + 2 * i * ps + (j + ps))) buf 0))
                      b_)).
  { intros ch. unfold decoded_sample. rewrite Ho, Hct.
    replace (offy + (2 * i + 1) * ps + j) with (offy + 2 * i * ps + (j + ps))
      by lia.
    reflexivity. }
  store_step (2 * i) j 2 (Hs0 2).
  store_step (2 * i + 1) j 2 (Hs1 2).
  store_step (2 * i) j 1 (Hs0 1).
  store_step (2 * i + 1) j 1 (Hs1 1).
  store_step (2 * i) j 0 (Hs0 0).
  store_step (2 * i + 1) j 0 (Hs1 0).
  eexists. split; [reflexivity|].
  eapply decoded_weaken; [eassumption|].
  cbv beta. unfold done_at, valid_sample.
  intros r c k ((Hr & Hc & Hk) & Hdone).
  destruct (Z_lt_le_dec r (2 * i)) as [Hlt | Hge]; [do 6 left; lia|].
  destruct (Z_lt_le_dec c j) as [Hcj | Hcj]; [do 6 left; lia|].
  assert (Hcj' : c = j) by lia.
  destruct (Z.eq_dec r (2 * i)) as [Hr0 | Hr0];
    (destruct (Z.eq_dec k 2) as [Hk2 | Hk2];
     [|destruct (Z.eq_dec k 1) as [Hk1 | Hk1]]).
  - do 5 left. right. lia.
  - do 3 left. right. lia.
  - do 1 left. right. lia.
  - do 4 left. right. lia.
  - do 2 left. right. lia.
  - right. lia.
Qed.

Lemma nv12_last_row_body_ok (i j : Z) (out : list Z) :
  0 <= i -> 2 * i + 1 = h -> 0 <= j < w ->
  decoded (done_at (2 * i) 1 j) out ->
  exists out' : list Z,
    nv12_last_row_body buf (2 * i * rs) (offy + 2 * i * ps)
      (offuv + i * ps) j out = Ok out'
    /\ decoded (done_at (2 * i) 1 (j + 1)) out'.
Proof.
  intros Hi Hrow Hj Hdec. unfold nv12_last_row_body.
  pose proof (half_row_bound i Hi ltac:(lia)) as Hhalf.
  pose proof (lor_1_bounds j ltac:(lia)) as Hlor.
  pose proof (lor_1_lt j w ltac:(lia)) as Hlw.
  pose proof (Z.mod_pos_bound w 2 ltac:(lia)) as Hwm.
  pose proof (land_not_1_bounds j ltac:(lia)) as Hland.
  assert (Hrows : (2 * i + 1) * ps <= h * ps)
    by (apply Z.mul_le_mono_nonneg_r; lia).
  assert (Hcrows : (i + 1) * ps <= (h + 1) / 2 * ps)
    by (apply Z.mul_le_mono_nonneg_r; lia).
  assert (Hip : 0 <= i * ps) by (apply Z.mul_nonneg_nonneg; lia).
  rewrite !load_Ok by lia. cbn [obind].
  destruct (chroma_terms _ _) as [[r_ g_] b_] eqn:Hct.
  assert (He : 2 * i / 2 = i) by (rewrite Z.mul_comm; apply Z.div_mul; lia).
  assert (Hs0 : forall ch : Z,
             decoded_sample buf ps offy offuv (2 * i) j ch
             = if ch =? 2
               then clamprgb (f32.add
                      (luma_term (nth (Z.to_nat (offy + 2 * i * ps + j)) buf 0))
                      r_)
               else if ch =? 1
               then clamprgb (f32.add
                      (luma_term (nth (Z.to_nat (offy + 2 * i * ps + j)) buf 0))
                      g_)
               else clamprgb (f32.add
                      (luma_term (nth (Z.to_nat (offy + 2 * i * ps + j)) buf 0))
                      b_)).
  { intros ch. unfold decoded_sample. rewrite He, Hct. reflexivity. }
  store_step (2 * i) j 2 (Hs0 2).
  store_step (2 * i) j 1 (Hs0 1).
  store_step (2 * i) j 0 (Hs0 0).
  eexists. split; [reflexivity|].
  eapply decoded_weaken; [eassumption|].
  cbv beta. unfold done_at, valid_sample.
  intros r c k ((Hr & Hc & Hk) & Hdone).
  destruct (Z_lt_le_dec r (2 * i)) as [Hlt | Hge]; [do 3 left; lia|].
  destruct (Z_lt_le_dec c j) as [Hcj | Hcj]; [do 3 left; lia|].
  destruct (Z.eq_dec k 2) as [Hk2 | Hk2];
    [|destruct (Z.eq_dec k 1) as [Hk1 | Hk1]].
  - do 2 left. right. lia.
  - do 1 left. right. lia.
  - right. lia.
Qed.

(** The state of the outer loop before row pair [i]. *)
Definition rows_done (i : Z) (st : list Z * Z * Z * Z) : Prop :=
  let '(out, rgb24, y, uv) := st in
  rgb24 = 2 * i * rs /\ y = offy + 2 * i * ps /\ uv = offuv + i * ps
  /\ decoded (done_at (2 * i) 0 0) out.

Lemma nv12_rows_body_ok (i : Z) (st : list Z * Z * Z * Z) :
  0 <= i -> 2 * i + 2 <= h -> rows_done i st ->
  exists st' : list Z * Z * Z * Z,
    nv12_rows_body buf w rs ps i st = Ok st' /\ rows_done (i + 1) st'.
Proof.
  intros Hi Hrow. destruct st as [[[out rgb24] y] uv].
  intros (-> & -> & -> & Hdec). unfold nv12_rows_body.
  pose proof (Z.mod_pos_bound w 2 ltac:(lia)) as Hwm.
  destruct (for_loop_inv (fun j o => decoded (done_at (2 * i) 2 j) o)
              (nv12_block_body buf (2 * i * rs) (offy + 2 * i * ps)
                 (offuv + i * ps) rs ps)
              (Z.to_nat w) 0 out) as (out' & -> & Hdec').
  - eapply decoded_weaken; [exact Hdec|].
    unfold done_at, valid_sample. intros r c k. lia.
  - intros j o Hj Ho. apply nv12_block_body_ok; [lia | lia | lia | exact Ho].
  - cbn [obind]. eexists. split; [reflexivity|].
    unfold rows_done. rewrite !u32_small by lia.
    split; [lia|]. split; [lia|]. split; [lia|].
    eapply decoded_weaken; [exact Hdec'|].
    unfold done_at, valid_sample. intros r c k. lia.
Qed.

(** The decoder on a buffer of the geometry of this section: it returns,
    the output keeps its size, and every channel of every pixel holds its
    decoded sample. *)
Lemma nv12_decode_any (fb : igt_fb) (blit : fb_convert_blit_upload) :
  fb_width fb = w -> fb_height fb = h ->
  rgb24_stride blit = rs -> rgb24_map blit = out0 ->
  lin_stride (linear blit) = ps ->
  take (Z.to_nat (lin_size (linear blit))) (lin_map (linear blit)) = buf ->
  lin_size (linear blit) <= Z.of_nat (length (lin_map (linear blit))) ->
  nth 0 (lin_offsets (linear blit)) 0 = offy ->
  nth 1 (lin_offsets (linear blit)) 0 = offuv ->
  exists out : list Z,
    convert_nv12_to_rgb24 fb blit = Ok out /\ decoded valid_sample out.
Proof.
  intros Hfw Hfh Hbrs Hbmap Hbps Hbuf Hsize Hby Hbuv.
  pose proof (Z.mod_pos_bound w 2 ltac:(lia)) as Hwm.
  unfold convert_nv12_to_rgb24.
  rewrite Hfw, Hfh, Hbrs, Hbmap, Hbps, Hbuf, Hby, Hbuv.
  destruct (Z.ltb_spec (Z.of_nat (length (lin_map (linear blit))))
              (lin_size (linear blit))) as [? | _]; [lia|].
  cbn [obind].
  rewrite Z.quot_div_nonneg by lia.
  pose proof (Z.div_mod h 2 ltac:(lia)) as Hdm.
  pose proof (Z.mod_pos_bound h 2 ltac:(lia)) as Hmb.
  assert (Hq : 0 <= h / 2) by (apply Z.div_pos; lia).
  destruct (for_loop_inv rows_done (nv12_rows_body buf w rs ps)
              (Z.to_nat (h / 2)) 0 (out0, 0, offy, offuv))
    as ([[[out rgb24] y] uv] & -> & Hdone).
  - unfold rows_done. split; [lia|]. split; [lia|]. split; [lia|].
    split; [reflexivity|]. split.
    + unfold done_at, valid_sample. intros r c k. lia.
    + unfold done_at, valid_sample. intros r c k. lia.
  - intros i st Hi Hst. apply nv12_rows_body_ok; [lia | lia | exact Hst].
  - cbn [obind]. rewrite Z.add_0_l, Z2Nat.id in Hdone by lia.
    destruct Hdone as (-> & -> & -> & Hdec).
    replace (Z.land h 1) with (h mod 2)
      by (symmetry; apply (Z.land_ones h 1); lia).
    destruct (Z.eqb_spec (h mod 2) 0) as [Heven | Hodd]; cbn [negb].
    + eexists. split; [reflexivity|].
      eapply decoded_weaken; [exact Hdec|].
      unfold done_at, valid_sample. intros r c k. lia.
    + destruct (for_loop_inv
                  (fun j o => decoded (done_at (2 * (h / 2)) 1 j) o)
                  (nv12_last_row_body buf (2 * (h / 2) * rs)
                     (offy + 2 * (h / 2) * ps) (offuv + h / 2 * ps))
                  (Z.to_nat w) 0 out) as (out' & -> & Hdec').
      * eapply decoded_weaken; [exact Hdec|].
        unfold done_at, valid_sample. intros r c k. lia.
      * intros j o Hj Ho.
        apply nv12_last_row_body_ok; [lia | lia | lia | exact Ho].
      * eexists. split; [reflexivity|].
        eapply decoded_weaken; [exact Hdec'|].
        unfold done_at, valid_sample. intros r c k. lia.
Qed.
End Decode.

(** The same when the stride leaves a byte of room after the last luma
    sample of a row. *)
Lemma nv12_decode_ok (buf out0 : list Z) (w h rs ps offy offuv : Z) :
  0 <= w -> 0 <= h -> 4 * w <= rs < 2 ^ 30 -> w + 1 <= ps < 2 ^ 30 ->
  0 <= offy -> 0 <= offuv ->
  offy + h * ps <= Z.of_nat (length buf) ->
  offuv + (h + 1) / 2 * ps <= Z.of_nat (length buf) ->
  h * rs <= Z.of_nat (length out0) ->
  forall (fb : igt_fb) (blit : fb_convert_blit_upload),
    fb_width fb = w -> fb_height fb = h ->
    rgb24_stride blit = rs -> rgb24_map blit = out0 ->
    lin_stride (linear blit) = ps ->
    take (Z.to_nat (lin_size (linear blit))) (lin_map (linear blit)) = buf ->
    lin_size (linear blit) <= Z.of_nat (length (lin_map (linear blit))) ->
    nth 0 (lin_offsets (linear blit)) 0 = offy ->
    nth 1 (lin_offsets (linear blit)) 0 = offuv ->
    exists out : list Z,
      convert_nv12_to_rgb24 fb blit = Ok out
      /\ decoded buf out0 w h rs ps offy offuv (valid_sample w h) out.
Proof.
  intros Hw Hh Hrs Hps Hoffy Hoffuv Hluma Hchroma Hout.
  pose proof (Z.mod_pos_bound w 2 ltac:(lia)) as Hwm.
  apply nv12_decode_any; solve [assumption | lia].
Qed.

(** ** The packed view of a 9 by 9 NV12 framebuffer *)

Lemma ALIGN64_pow2 (v p : Z) :
  0 <= p -> ALIGN64 v (2 ^ p) = round_up v (2 ^ p).
Proof.
  intros Hp. unfold ALIGN64, round_up.
  replace (2 ^ p - 1) with (Z.ones p) by (rewrite Z.ones_equiv; lia).
  rewrite <- Z.ldiff_land, Z.ldiff_ones_r by lia.
  rewrite Z.shiftl_mul_pow2, Z.shiftr_div_pow2 by lia.
  lia.
Qed.

Lemma nv12_linear_layout_9x9 (fd : device) (a b c d : Z) :
  calc_fb_size_planar fd 9 9 NV12_desc LOCAL_DRM_FORMAT_MOD_NONE
    (Some [a; b; c; d])
  = Ok (896, 64, Some [0; 576; 0; 0]).
Proof. reflexivity. Qed.

(** C8. For a 9 by 9 NV12 framebuffer with Y tiling, on an Intel device
    where the linear shadow buffer is allocated and mapped: the buffer the
    calculator lays out has size 896, stride 64 and chroma offset 576; the
    decoder returns (an access outside the 896 bytes it copies, or outside
    the RGB map, would be a [Fault]); every luma and chroma index it reads
    is below 896, also for the last row; and the RGB map holds the decoded
    sample of each channel of each of the 81 pixels. *)
Theorem nv12_decode_9x9 (fuel : nat) (k : kernel) (fd : device)
    (pagesize : Z) (uninit : list Z) (fb : igt_fb) :
  fb_width fb = 9 -> fb_height fb = 9 ->
  fb_drm_format fb = DRM_FORMAT_NV12 ->
  fb_tiling fb = LOCAL_I915_FORMAT_MOD_Y_TILED ->
  length uninit = 4%nat ->
  (exists p : Z, 0 <= p <= 30 /\ pagesize = 2 ^ p) ->
  is_intel fd = true ->
  0 < u32 (gem_create k 896) ->
  gem_first_word k (gem_create k 896) = 0 ->
  length (gem_mmap k (u32 (gem_create k 896)) 896) = 896%nat ->
  exists blit : fb_convert_blit_upload,
    create_cairo_surface__convert fuel k fd pagesize uninit fb = Ok blit
    /\ calc_fb_size_planar fd 9 9 NV12_desc LOCAL_DRM_FORMAT_MOD_NONE
         (Some uninit)
       = Ok (lin_size (linear blit), lin_stride (linear blit),
             Some (lin_offsets (linear blit)))
    /\ lin_size (linear blit) = 896
    /\ lin_stride (linear blit) = 64
    /\ lin_offsets (linear blit) = [0; 576; 0; 0]
    /\ rgb24_stride blit = 48
    /\ 9 * 48 <= Z.of_nat (length (rgb24_map blit))
    /\ forall row col ch : Z,
         0 <= row < 9 -> 0 <= col < 9 -> 0 <= ch < 3 ->
         0 <= 0 + row * 64 + col < 896
         /\ 0 <= 576 + row / 2 * 64 + Z.land col (Z.lnot 1) < 896
         /\ 0 <= 576 + row / 2 * 64 + Z.lor col 1 < 896
         /\ rgb24_map blit !! Z.to_nat (row * 48 + col * 4 + ch)
            = Some (decoded_sample (lin_map (linear blit)) 64 0 576
                      row col ch).
Proof.
  intros Hfw Hfh Hfmt Htil Hun (p & Hp & ->) Hi Hbo Hzero Hmap.
  destruct uninit as [|a [|b [|c [|d [|]]]]]; try discriminate Hun.
  unfold create_cairo_surface__convert.
  rewrite Hfw, Hfh, Hfmt, Htil.
  change (ALIGN (9 * 4) 16) with 48. change (u32 (48 * 9)) with 432.
  rewrite ALIGN64_pow2 by lia.
  assert (Hpow : 0 < 2 ^ p <= 2 ^ 30).
  { split; [apply Z.pow_pos_nonneg; lia | apply Z.pow_le_mono_r; lia]. }
  destruct (round_up_spec 432 (2 ^ p) ltac:(lia)) as [Hru _].
  rewrite (u32_small (round_up 432 (2 ^ p))) by lia.
  destruct (Z.eqb_spec (round_up 432 (2 ^ p)) 0) as [? | _]; [lia|].
  cbn [negb igt_assert obind].
  change (LOCAL_I915_FORMAT_MOD_Y_TILED =? LOCAL_I915_FORMAT_MOD_Y_TILED)
    with true.
  cbn [orb].
  unfold setup_linear_mapping. rewrite Hfw, Hfh, Hfmt, Htil.
  change (igt_fb_mod_to_tiling LOCAL_I915_FORMAT_MOD_Y_TILED)
    with (@Ok Z I915_TILING_Y).
  cbn [obind]. rewrite lookup_NV12.
  unfold create_bo_for_fb.
  change (planes NV12_desc >? 1) with true.
  rewrite orb_true_r. cbv iota.
  rewrite nv12_linear_layout_9x9. cbn [obind].
  change (0 =? 0) with true. cbv iota.
  unfold is_i915_device. rewrite Hi.
  change (igt_fb_mod_to_tiling LOCAL_DRM_FORMAT_MOD_NONE)
    with (@Ok Z I915_TILING_NONE).
  cbn [obind]. rewrite Hzero.
  change (igt_assert (0 =? 0)) with (@Ok unit tt). cbn [obind].
  change (drm_id NV12_desc =? DRM_FORMAT_NV12) with true. cbv iota.
  cbv zeta. cbn [nth].
  rewrite (memset_twice (gem_mmap k (u32 (gem_create k 896)) 896) 576
             (u32 (Z.quot (s32 (9 + 1)) 2 * 64)))
    by (rewrite ?Hmap; vm_compute; congruence).
  cbn [obind].
  destruct (Z.gtb_spec (u32 (gem_create k 896)) 0) as [_ | ?]; [|lia].
  cbn [igt_assert obind default].
  change (DRM_FORMAT_NV12 =? DRM_FORMAT_NV12) with true.
  cbn [igt_assert obind].
  set (lin := mk_linear _ _ _ _ _ _).
  set (out0 := replicate (Z.to_nat (round_up 432 (2 ^ p))) 0).
  set (mapped := gem_mmap k (u32 (gem_create k 896)) 896) in *.
  assert (Hl1 : 0 + 9 * 64 <= Z.of_nat (length mapped))
    by (rewrite Hmap; vm_compute; congruence).
  assert (Hl2 : 576 + (9 + 1) / 2 * 64 <= Z.of_nat (length mapped))
    by (rewrite Hmap; vm_compute; congruence).
  assert (Hl3 : 9 * 48 <= Z.of_nat (length out0))
    by (unfold out0; rewrite length_replicate; lia).
  assert (Htake : take (Z.to_nat 896) mapped = mapped)
    by (apply take_ge; rewrite Hmap; lia).
  assert (Hsz : 896 <= Z.of_nat (length mapped)) by (rewrite Hmap; lia).
  destruct (nv12_decode_ok mapped out0 9 9 48 64 0 576
              ltac:(lia) ltac:(lia) ltac:(lia) ltac:(lia) ltac:(lia)
              ltac:(lia) Hl1 Hl2 Hl3
              fb (mk_blit out0 48 (round_up 432 (2 ^ p)) lin)
              Hfw Hfh eq_refl eq_refl eq_refl Htake Hsz eq_refl eq_refl)
    as (out & Hconv & Hlen & _ & Hdec).
  rewrite Hconv. cbn [obind]. eexists. split; [reflexivity|].
  cbn [linear lin_size lin_stride lin_offsets rgb24_stride rgb24_map
       lin_map lin].
  split; [reflexivity|]. split; [reflexivity|]. split; [reflexivity|].
  split; [reflexivity|]. split; [reflexivity|].
  split; [rewrite Hlen; exact Hl3|].
  intros row col ch Hr Hc Hch.
  pose proof (lor_1_bounds col ltac:(lia)).
  pose proof (land_not_1_bounds col ltac:(lia)).
  assert (0 <= row / 2 <= 4).
  { split; [apply Z.div_pos; lia | apply Z.div_le_upper_bound; lia]. }
  split; [lia|]. split; [lia|]. split; [lia|].
  apply Hdec. unfold valid_sample. lia.
Qed.

Lemma nv12_decode_9x9_witness :
  exists (fb : igt_fb) (blit : fb_convert_blit_upload),
    igt_create_fb 0 test_kernel (mk_device true 9 false) 9 9
      DRM_FORMAT_NV12 LOCAL_I915_FORMAT_MOD_Y_TILED = Ok fb
    /\ create_cairo_surface__convert 0 test_kernel (mk_device true 9 false)
         4096 [7; 7; 7; 7] fb = Ok blit
    /\ lin_size (linear blit) = 896
    /\ rgb24_map blit !! Z.to_nat (8 * 48 + 8 * 4 + 2)
       = Some (decoded_sample (lin_map (linear blit)) 64 0 576 8 8 2).
Proof.
  assert (Hfb : exists fb : igt_fb,
             igt_create_fb 0 test_kernel (mk_device true 9 false) 9 9
               DRM_FORMAT_NV12 LOCAL_I915_FORMAT_MOD_Y_TILED = Ok fb
             /\ fb_width fb = 9 /\ fb_height fb = 9
             /\ fb_drm_format fb = DRM_FORMAT_NV12
             /\ fb_tiling fb = LOCAL_I915_FORMAT_MOD_Y_TILED).
  { eexists. split; [vm_compute; reflexivity|]. repeat split. }
  destruct Hfb as (fb & Hfb & Hw & Hh & Hf & Ht).
  assert (Hpage : exists p : Z, 0 <= p <= 30 /\ 4096 = 2 ^ p)
    by (exists 12; split; [lia | reflexivity]).
  destruct (nv12_decode_9x9 0 test_kernel (mk_device true 9 false) 4096
              [7; 7; 7; 7] fb Hw Hh Hf Ht eq_refl Hpage
              eq_refl eq_refl eq_refl eq_refl)
    as (blit & Hblit & _ & Hsize & _ & _ & _ & _ & Hpix).
  exists fb, blit. split; [exact Hfb|]. split; [exact Hblit|].
  split; [exact Hsize|].
  apply (Hpix 8 8 2); lia.
Defined.

(** ** Aborting *)

Lemma obind_not_Abort {A B : Type} (m : outcome A) (k : A -> outcome B) :
  m <> Abort -> (forall a : A, k a <> Abort) -> obind m k <> Abort.
Proof. intros Hm Hk. destruct m; cbn; auto; discriminate. Qed.

Lemma load_not_Abort (buf : list Z) (addr : Z) : load buf addr <> Abort.
Proof.
  unfold load. destruct (0 <=? addr); [|discriminate].
  destruct (buf !! Z.to_nat addr); discriminate.
Qed.

Lemma store_not_Abort (buf : list Z) (addr v : Z) : store buf addr v <> Abort.
Proof. unfold store. destruct (_ && _); discriminate. Qed.

Lemma for_loop_not_Abort {St : Type} (body : Z -> St -> outcome St) (n : nat) :
  (forall (i : Z) (s : St), body i s <> Abort) ->
  forall (i : Z) (s : St), for_loop n i body s <> Abort.
Proof.
  intros Hb. induction n as [|n IH]; intros i s; cbn [for_loop].
  - discriminate.
  - apply obind_not_Abort; [apply Hb | intros s'; apply IH].
Qed.

Ltac not_abort :=
  repeat first
    [ apply obind_not_Abort; [|intros ?]
    | apply load_not_Abort
    | apply store_not_Abort
    | apply for_loop_not_Abort; intros ? ?
    | discriminate
    | match goal with
      | |- (let '(_, _) := ?p in _) <> Abort => destruct p
      | |- (if ?c then _ else _) <> Abort => destruct c
      end ].

Lemma convert_rgb24_to_nv12_Abort (fb : igt_fb) (blit : fb_convert_blit_upload) :
  convert_rgb24_to_nv12 fb blit = Abort
  <-> fb_drm_format fb <> DRM_FORMAT_NV12.
Proof.
  unfold convert_rgb24_to_nv12.
  destruct (Z.eqb_spec (fb_drm_format fb) DRM_FORMAT_NV12) as [He | Hne];
    cbn [igt_assert obind].
  - split; [|contradiction]. intros H. exfalso. revert H.
    unfold luma_rows_body, chroma_rows_body, luma_body, chroma_pair_body,
      chroma_single_body, u_coeffs, v_coeffs.
    not_abort.
  - split; [intros _; exact Hne | reflexivity].
Qed.

Lemma convert_nv12_to_rgb24_not_Abort (fb : igt_fb)
    (blit : fb_convert_blit_upload) :
  convert_nv12_to_rgb24 fb blit <> Abort.
Proof.
  unfold convert_nv12_to_rgb24, nv12_rows_body, nv12_block_body,
    nv12_last_row_body.
  not_abort.
Qed.

Lemma tile_size_Abort_iff (fd : device) (tiling fb_bpp : Z) :
  igt_get_fb_tile_size fd tiling fb_bpp = Abort
  <-> (~ In tiling tiling_modes
       \/ (tiling = LOCAL_I915_FORMAT_MOD_Yf_TILED /\ is_intel fd = true
           /\ ~ yf_bpp fb_bpp)).
Proof.
  unfold igt_get_fb_tile_size, igt_require_intel, igt_require, igt_assert,
    tiling_modes, tiled_modes, yf_bpp.
  cbn [In].
  destruct (Z.eqb_spec tiling LOCAL_DRM_FORMAT_MOD_NONE) as [-> | H0].
  { split; [discriminate | intros [H | (H & _)]; [tauto | discriminate H]]. }
  destruct (Z.eqb_spec tiling LOCAL_I915_FORMAT_MOD_X_TILED) as [-> | H1].
  { destruct (is_intel fd); cbn [obind]; [destruct (intel_gen fd =? 2)|];
      (split; [discriminate | intros [H | (H & _)]; [tauto | discriminate H]]). }
  destruct (Z.eqb_spec tiling LOCAL_I915_FORMAT_MOD_Y_TILED) as [-> | H2].
  { destruct (is_intel fd); cbn [obind];
      [destruct (intel_gen fd =? 2); [|destruct (IS_915 fd)]|];
      (split; [discriminate | intros [H | (H & _)]; [tauto | discriminate H]]). }
  destruct (Z.eqb_spec tiling LOCAL_I915_FORMAT_MOD_Yf_TILED) as [-> | H3].
  { destruct (is_intel fd); cbn [obind].
    - destruct (Z.eqb_spec fb_bpp 8); [|destruct (Z.eqb_spec fb_bpp 16);
        [|destruct (Z.eqb_spec fb_bpp 32); [|destruct (Z.eqb_spec fb_bpp 64);
        [|destruct (Z.eqb_spec fb_bpp 128)]]]]; cbn [orb obind];
        (split;
         [ first [discriminate | intros _; right; repeat split; lia]
         | first [ reflexivity
                 | intros [H | (_ & _ & H)];
                   [exfalso; tauto | exfalso; apply H; lia] ] ]).
    - split; [discriminate | intros [H | (_ & H & _)];
                               [exfalso; tauto | discriminate H]]. }
  cbn [obind]. split; [intros _; left; intros H; lia | reflexivity].
Qed.

Lemma double_until_not_Abort (fuel : nat) (x v : Z) :
  double_until fuel x v <> Abort.
Proof.
  revert x. induction fuel as [|fuel IH]; intros x; cbn [double_until].
  - discriminate.
  - destruct (x <? u32 v); [apply IH | discriminate].
Qed.

Lemma calc_fb_size_packed_Abort (fuel : nat) (fd : device) (width height : Z)
    (format : format_desc_struct) (tiling : Z) :
  yf_bpp (bpp format) ->
  calc_fb_size_packed fuel fd width height format tiling = Abort
  <-> ~ In tiling tiling_modes.
Proof.
  intros Hbpp. unfold calc_fb_size_packed.
  pose proof (tile_size_Abort_iff fd tiling (bpp format)) as Ht.
  destruct (igt_get_fb_tile_size fd tiling (bpp format))
    as [[tw th] | | | |]; cbn [obind].
  - split.
    + intros H. exfalso. revert H.
      destruct (_ && _); [|discriminate].
      apply obind_not_Abort; [apply double_until_not_Abort|]. intros s.
      apply obind_not_Abort; [apply double_until_not_Abort|]. discriminate.
    + intros H. destruct Ht as [_ Ht]. discriminate Ht. left. exact H.
  - split; [|reflexivity]. intros _.
    destruct Ht as [Ht _]. destruct (Ht eq_refl) as [H | (_ & _ & H)];
      [exact H | contradiction].
  - split; [discriminate|]. intros H.
    destruct Ht as [_ Ht]. discriminate Ht. left. exact H.
  - split; [discriminate|]. intros H.
    destruct Ht as [_ Ht]. discriminate Ht. left. exact H.
  - split; [discriminate|]. intros H.
    destruct Ht as [_ Ht]. discriminate Ht. left. exact H.
Qed.

Lemma calc_fb_size_planar_NV12_Abort (fd : device) (width height tiling : Z)
    (offsets : option (list Z)) :
  calc_fb_size_planar fd width height NV12_desc tiling offsets = Abort
  <-> ~ In tiling tiling_modes.
Proof.
  assert (H8 : yf_bpp 8) by (unfold yf_bpp; cbn; tauto).
  assert (H16 : yf_bpp 16) by (unfold yf_bpp; cbn; tauto).
  pose proof (tile_size_Abort_iff fd tiling 8) as Ht8.
  pose proof (tile_size_Abort_iff fd tiling 16) as Ht16.
  unfold calc_fb_size_planar.
  change (Z.to_nat (planes NV12_desc)) with 2%nat.
  cbn [planar_stride_loop planar_size_loop].
  change (plane_bpp_at NV12_desc 0) with 8.
  change (plane_bpp_at NV12_desc (0 + 1)) with 16.
  destruct (igt_get_fb_tile_size fd tiling 8) as [[tw th] | | | |];
    cbn [obind];
    [ destruct (igt_get_fb_tile_size fd tiling 16) as [[tw' th'] | | | |];
      cbn [obind] | .. ];
    (split;
     [ first [ discriminate
             | intros _;
               first [ destruct Ht8 as [Ht8 _];
                       destruct (Ht8 eq_refl) as [H | (_ & _ & H)];
                       [exact H | contradiction]
                     | destruct Ht16 as [Ht16 _];
                       destruct (Ht16 eq_refl) as [H | (_ & _ & H)];
                       [exact H | contradiction] ] ]
     | first [ reflexivity
             | intros H; first [ destruct Ht8 as [_ Ht8]; discriminate Ht8;
                                 left; exact H
                               | destruct Ht16 as [_ Ht16]; discriminate Ht16;
                                 left; exact H ] ] ]).
Qed.

Lemma registry_format_cases (drm_format : Z) (format : format_desc_struct) :
  lookup_drm_format drm_format = Some format ->
  (planes format > 1 /\ format = NV12_desc)
  \/ (planes format <= 1 /\ yf_bpp (bpp format)).
Proof.
  intros Hl. apply lookup_drm_format_cases in Hl as [Hin _].
  unfold yf_bpp. cbn in Hin.
  destruct Hin as [<- | [<- | [<- | [<- | [<- | []]]]]]; cbn;
    first [left; split; [lia | reflexivity] | right; split; [lia | tauto]].
Qed.

Lemma igt_calc_fb_size_Abort (fuel : nat) (fd : device)
    (width height drm_format tiling : Z) :
  igt_calc_fb_size fuel fd width height drm_format tiling = Abort
  <-> (lookup_drm_format drm_format = None \/ ~ In tiling tiling_modes).
Proof.
  unfold igt_calc_fb_size.
  destruct (lookup_drm_format drm_format) as [format|] eqn:Hl;
    [|split; [intros _; left; reflexivity | reflexivity]].
  destruct (registry_format_cases _ _ Hl) as [[Hp ->] | [Hp Hbpp]].
  - change (planes NV12_desc >? 1) with true. cbv iota.
    pose proof (calc_fb_size_planar_NV12_Abort fd width height tiling None)
      as Hpl.
    destruct (calc_fb_size_planar fd width height NV12_desc tiling None)
      as [[[sz st] o] | | | |]; cbn [obind];
      (split; [ first [discriminate | intros _; right; apply Hpl; reflexivity]
              | intros [H | H];
                [discriminate H | first [reflexivity
                                        | apply Hpl in H; discriminate H]] ]).
  - destruct (Z.gtb_spec (planes format) 1) as [? | _]; [lia|].
    rewrite calc_fb_size_packed_Abort by exact Hbpp.
    split; [intros H; right; exact H | intros [H | H]; [discriminate H | exact H]].
Qed.

Lemma create_cairo_surface__convert_NV12_only (fuel : nat) (k : kernel)
    (fd : device) (pagesize : Z) (uninit : list Z) (fb : igt_fb) :
  fb_drm_format fb <> DRM_FORMAT_NV12 ->
  ~ returns (create_cairo_surface__convert fuel k fd pagesize uninit fb).
Proof.
  intros Hne [blit H]. unfold create_cairo_surface__convert in H.
  destruct (igt_assert (negb _)); cbn [obind] in H; try discriminate H.
  destruct (if _ : bool then _ else _) as [lin | | | |]; cbn [obind] in H;
    try discriminate H.
  destruct (Z.eqb_spec (fb_drm_format fb) DRM_FORMAT_NV12) as [? | _];
    [contradiction | discriminate H].
Qed.

Lemma igt_fb_mod_to_tiling_Abort (modifier : Z) :
  igt_fb_mod_to_tiling modifier = Abort <-> ~ In modifier tiling_modes.
Proof.
  unfold igt_fb_mod_to_tiling, tiling_modes, tiled_modes, igt_assert.
  cbn [In obind].
  repeat match goal with
  | |- context [?a =? ?b] => destruct (Z.eqb_spec a b)
  end; split; intros H; try discriminate H; try reflexivity;
    solve [intuition congruence | exfalso; apply H; subst; auto 10].
Qed.

Lemma igt_fb_tiling_to_mod_Abort (tiling : Z) :
  igt_fb_tiling_to_mod tiling = Abort <-> ~ In tiling tiling_constants.
Proof.
  unfold igt_fb_tiling_to_mod, tiling_constants, igt_assert.
  cbn [In obind].
  repeat match goal with
  | |- context [?a =? ?b] => destruct (Z.eqb_spec a b)
  end; split; intros H; try discriminate H; try reflexivity;
    solve [intuition congruence | exfalso; apply H; subst; auto 10].
Qed.

(** C9. On an Intel device the tile geometry resolver aborts exactly on an
    unsupported query, and on every device it returns nothing on one and
    aborts on nothing else; the calculator aborts exactly when the format
    is not in the registry or the tiling is none of the four modes; each
    of the two constant conversions aborts exactly off its four values;
    the encoder aborts exactly when the format is not NV12, the decoder
    itself never aborts and its caller returns nothing for a format other
    than NV12; framebuffer creation aborts on a format that is not in the
    registry.  An abort is not a result. *)
Theorem abort_exactly_outside_domain (fd : device) :
  is_intel fd = true ->
  (forall tiling fb_bpp : Z,
      igt_get_fb_tile_size fd tiling fb_bpp = Abort
      <-> unsupported_tile_query tiling fb_bpp)
  /\ (forall (fd' : device) (tiling fb_bpp : Z),
         (unsupported_tile_query tiling fb_bpp ->
          ~ returns (igt_get_fb_tile_size fd' tiling fb_bpp))
         /\ (igt_get_fb_tile_size fd' tiling fb_bpp = Abort ->
             unsupported_tile_query tiling fb_bpp))
  /\ (forall (fuel : nat) (fd' : device) (width height drm_format tiling : Z),
         igt_calc_fb_size fuel fd' width height drm_format tiling = Abort
         <-> (lookup_drm_format drm_format = None
              \/ ~ In tiling tiling_modes))
  /\ (forall modifier : Z,
         igt_fb_mod_to_tiling modifier = Abort
         <-> ~ In modifier tiling_modes)
  /\ (forall tiling : Z,
         igt_fb_tiling_to_mod tiling = Abort
         <-> ~ In tiling tiling_constants)
  /\ (forall (fb : igt_fb) (blit : fb_convert_blit_upload),
         (convert_rgb24_to_nv12 fb blit = Abort
          <-> fb_drm_format fb <> DRM_FORMAT_NV12)
         /\ convert_nv12_to_rgb24 fb blit <> Abort)
  /\ (forall (fuel : nat) (k : kernel) (fd' : device) (pagesize : Z)
             (uninit : list Z) (fb : igt_fb),
         fb_drm_format fb <> DRM_FORMAT_NV12 ->
         ~ returns (create_cairo_surface__convert fuel k fd' pagesize uninit
                      fb))
  /\ (forall (fuel : nat) (k : kernel) (fd' : device)
             (width height drm_format tiling bo_size bo_stride : Z),
         lookup_drm_format drm_format = None ->
         igt_create_fb_with_bo_size fuel k fd' width height drm_format tiling
           bo_size bo_stride = Abort)
  /\ (forall (A : Type) (m : outcome A), m = Abort -> ~ returns m).
Proof.
  intros Hi. repeat split.
  - intros H. apply tile_size_Abort_iff in H.
    destruct H as [H | (H1 & _ & H2)]; [left; exact H | right; tauto].
  - intros [H | [H1 H2]]; apply tile_size_Abort_iff; [left; exact H|].
    right. tauto.
  - intros Hu [r Hr].
    assert (Ha : igt_get_fb_tile_size fd' tiling fb_bpp = Abort
                 \/ is_intel fd' = false).
    { destruct (is_intel fd') eqn:Hi'; [left | right; reflexivity].
      apply tile_size_Abort_iff.
      destruct Hu as [H | [H1 H2]]; [left; exact H | right; tauto]. }
    destruct Ha as [Ha | Hni]; [congruence|].
    destruct Hu as [H | [-> H2]].
    + assert (Hn : igt_get_fb_tile_size fd' tiling fb_bpp = Abort)
        by (apply tile_size_Abort_iff; left; exact H).
      congruence.
    + unfold igt_get_fb_tile_size, igt_require_intel, igt_require in Hr.
      rewrite Hni in Hr. discriminate Hr.
  - intros H. apply tile_size_Abort_iff in H.
    destruct H as [H | (H1 & _ & H2)]; [left; exact H | right; tauto].
  - apply igt_calc_fb_size_Abort.
  - apply igt_calc_fb_size_Abort.
  - apply igt_fb_mod_to_tiling_Abort.
  - apply igt_fb_mod_to_tiling_Abort.
  - apply igt_fb_tiling_to_mod_Abort.
  - apply igt_fb_tiling_to_mod_Abort.
  - apply convert_rgb24_to_nv12_Abort.
  - apply convert_rgb24_to_nv12_Abort.
  - apply convert_nv12_to_rgb24_not_Abort.
  - apply create_cairo_surface__convert_NV12_only.
  - intros fuel k fd' width height drm_format tiling bo_size bo_stride Hl.
    unfold igt_create_fb_with_bo_size. rewrite Hl. reflexivity.
  - intros A m -> [a Ha]. discriminate Ha.
Qed.

Lemma abort_exactly_outside_domain_witness :
  igt_get_fb_tile_size (mk_device true 9 false)
    LOCAL_I915_FORMAT_MOD_Yf_TILED 24 = Abort
  /\ igt_calc_fb_size 0 (mk_device true 9 false) 64 64 0
       LOCAL_I915_FORMAT_MOD_X_TILED = Abort.
Proof.
  destruct (abort_exactly_outside_domain (mk_device true 9 false) eq_refl)
    as (Ht & _ & Hc & _).
  split.
  - apply Ht. right. split; [reflexivity|].
    unfold yf_bpp. cbn. intros H. lia.
  - apply Hc. left. reflexivity.
Defined.

(** * Single-precision conversions *)

(** ** Rounding to binary32 *)

Lemma pow2_pos (n : Z) : 0 <= n -> 0 < 2 ^ n.
Proof. intros H. apply Z.pow_pos_nonneg; lia. Qed.

Lemma pow2_add (a b : Z) : 0 <= a -> 0 <= b -> 2 ^ (a + b) = 2 ^ a * 2 ^ b.
Proof. intros Ha Hb. apply Z.pow_add_r; assumption. Qed.

Lemma pow2_le (a b : Z) : 0 <= a <= b -> 2 ^ a <= 2 ^ b.
Proof. intros H. apply Z.pow_le_mono_r; lia. Qed.

Lemma digits2_pos_spec (p : positive) :
  2 ^ (Z.pos (digits2_pos p) - 1) <= Z.pos p < 2 ^ Z.pos (digits2_pos p).
Proof.
  induction p as [p IH | p IH |]; cbn [digits2_pos].
  - rewrite Pos2Z.inj_succ.
    replace (Z.succ (Z.pos (digits2_pos p)) - 1)
      with (Z.succ (Z.pos (digits2_pos p) - 1)) by lia.
    rewrite !Z.pow_succ_r by lia. lia.
  - rewrite Pos2Z.inj_succ.
    replace (Z.succ (Z.pos (digits2_pos p)) - 1)
      with (Z.succ (Z.pos (digits2_pos p) - 1)) by lia.
    rewrite !Z.pow_succ_r by lia. lia.
  - cbn. lia.
Qed.

Lemma Zdigits2_spec (m : Z) :
  0 <= m -> 0 <= Zdigits2 m /\ m < 2 ^ Zdigits2 m.
Proof.
  intros Hm. destruct m as [|p|p]; [cbn; lia | | lia].
  cbn [Zdigits2]. pose proof (digits2_pos_spec p). lia.
Qed.

(** Shifting right by [shr_1] halves the mantissa. *)
Lemma shr_1_m (mrs : shr_record) :
  0 <= shr_m mrs -> shr_m (shr_1 mrs) = shr_m mrs / 2.
Proof.
  destruct mrs as [m r s]. cbn [shr_m]. intros Hm.
  destruct m as [|p|p]; [reflexivity | | lia].
  destruct p as [p | p |]; cbn [shr_1 shr_m].
  - rewrite Pos2Z.inj_xI. apply (Z.div_unique _ _ _ 1); lia.
  - rewrite Pos2Z.inj_xO. apply (Z.div_unique _ _ _ 0); lia.
  - reflexivity.
Qed.

Lemma iter_pos_shr_1_m (n : positive) :
  forall mrs : shr_record,
    0 <= shr_m mrs ->
    shr_m (SpecFloat.iter_pos shr_1 n mrs) = shr_m mrs / 2 ^ Z.pos n.
Proof.
  induction n as [n IH | n IH |]; intros mrs Hm; cbn [SpecFloat.iter_pos].
  - assert (H1 : 0 <= shr_m (shr_1 mrs))
      by (rewrite shr_1_m by exact Hm; apply Z.div_pos; lia).
    assert (H2 : 0 <= shr_m (SpecFloat.iter_pos shr_1 n (shr_1 mrs))).
    { rewrite IH by exact H1. apply Z.div_pos; [exact H1 | apply pow2_pos; lia]. }
    rewrite IH, IH, shr_1_m by assumption.
    rewrite !Z.div_div by (try apply pow2_pos; lia).
    f_equal. rewrite (Pos2Z.inj_xI n).
    replace (2 * Z.pos n + 1) with (1 + Z.pos n + Z.pos n) by lia.
    rewrite (pow2_add (1 + Z.pos n) (Z.pos n)), (pow2_add 1 (Z.pos n)) by lia.
    change (2 ^ 1) with 2. ring.
  - assert (H2 : 0 <= shr_m (SpecFloat.iter_pos shr_1 n mrs)).
    { rewrite IH by exact Hm. apply Z.div_pos; [exact Hm | apply pow2_pos; lia]. }
    rewrite IH, IH by assumption.
    rewrite !Z.div_div by (try apply pow2_pos; lia).
    f_equal. rewrite (Pos2Z.inj_xO n).
    replace (2 * Z.pos n) with (Z.pos n + Z.pos n) by lia.
    rewrite (pow2_add (Z.pos n) (Z.pos n)) by lia. reflexivity.
  - rewrite shr_1_m by exact Hm. reflexivity.
Qed.

(** [shr_fexp] on a mantissa that is not negative: a shift by [n] bits,
    [n] the distance to the exponent of the format, when positive. *)
Lemma shr_fexp_spec (m e : Z) (l : location) :
  0 <= m ->
  let n := Z.max 0 (fexp f32.prec f32.emax (Zdigits2 m + e) - e) in
  shr_m (fst (shr_fexp f32.prec f32.emax m e l)) = m / 2 ^ n
  /\ snd (shr_fexp f32.prec f32.emax m e l) = e + n.
Proof.
  intros Hm n. unfold shr_fexp, shr. subst n.
  assert (Hrec : shr_m (shr_record_of_loc m l) = m).
  { destruct l as [|[| |]]; reflexivity. }
  destruct (fexp f32.prec f32.emax (Zdigits2 m + e) - e) as [|p|p] eqn:Hn;
    cbn [fst snd].
  - rewrite Hrec. cbn. rewrite Z.div_1_r. lia.
  - rewrite iter_pos_shr_1_m by (rewrite Hrec; exact Hm).
    rewrite Hrec. rewrite Z.max_r by lia. split; reflexivity.
  - rewrite Hrec. rewrite Z.max_l by lia. cbn. rewrite Z.div_1_r. lia.
Qed.

Lemma round_nearest_even_spec (mrs : shr_record) :
  let m := round_nearest_even (shr_m mrs) (loc_of_shr_record mrs) in
  m = shr_m mrs \/ m = shr_m mrs + 1.
Proof.
  destruct mrs as [m [|] [|]]; cbn [shr_m loc_of_shr_record round_nearest_even];
    try destruct (Z.even m); auto.
Qed.

Lemma fexp_f32 (e : Z) : fexp f32.prec f32.emax e = Z.max (e - 24) (-149).
Proof. reflexivity. Qed.

Lemma Zdigits2_pos_spec (p : positive) :
  1 <= Zdigits2 (Z.pos p)
  /\ 2 ^ (Zdigits2 (Z.pos p) - 1) <= Z.pos p < 2 ^ Zdigits2 (Z.pos p).
Proof.
  cbn [Zdigits2]. pose proof (digits2_pos_spec p). lia.
Qed.

(** The number of digits is determined by the two powers around. *)
Lemma Zdigits2_unique (p : positive) (d : Z) :
  2 ^ (d - 1) <= Z.pos p < 2 ^ d -> Zdigits2 (Z.pos p) = d.
Proof.
  intros [Hlo Hhi].
  destruct (Zdigits2_pos_spec p) as (H1 & Hlo' & Hhi').
  assert (Hd : 1 <= d).
  { destruct (Z_le_gt_dec 1 d) as [|Hd]; [assumption|].
    exfalso. destruct d as [|q|q]; [cbn in Hhi; lia| lia |].
    rewrite Z.pow_neg_r in Hhi by lia. lia. }
  destruct (Z.lt_trichotomy (Zdigits2 (Z.pos p)) d) as [Hlt | [Heq | Hgt]].
  - exfalso.
    assert (2 ^ Zdigits2 (Z.pos p) <= 2 ^ (d - 1)) by (apply pow2_le; lia).
    lia.
  - exact Heq.
  - exfalso.
    assert (2 ^ d <= 2 ^ (Zdigits2 (Z.pos p) - 1)) by (apply pow2_le; lia).
    lia.
Qed.

Lemma div_pow2_bounds (p n : Z) :
  0 <= n -> p / 2 ^ n * 2 ^ n <= p < (p / 2 ^ n + 1) * 2 ^ n.
Proof.
  intros Hn. pose proof (pow2_pos n Hn) as Hpos.
  pose proof (Z.div_mod p (2 ^ n) ltac:(lia)) as Hdm.
  pose proof (Z.mod_pos_bound p (2 ^ n) Hpos) as Hmod.
  lia.
Qed.

(** ** Values of binary32 numbers *)

Lemma bounded_f32 (m : positive) (e : Z) :
  bounded f32.prec f32.emax m e = true <->
  Z.max (Zdigits2 (Z.pos m) + e - 24) (-149) = e /\ e <= 104.
Proof.
  unfold bounded, canonical_mantissa. rewrite andb_true_iff, fexp_f32.
  rewrite Z.eqb_eq, Z.leb_le. cbn [Zdigits2]. reflexivity.
Qed.

Lemma fval_rounded (s : bool) (m e : Z) :
  0 <= m -> fval (rounded s m e) = cond_Zopp s (m * 2 ^ (e + 149)).
Proof.
  intros Hm. destruct m as [|q|q]; [destruct s; reflexivity | reflexivity | lia].
Qed.

Lemma scaled_error (A N p m1 m2 : Z) :
  0 < A -> 0 < N ->
  m1 * N <= p < (m1 + 1) * N ->
  m2 = m1 \/ m2 = m1 + 1 ->
  Z.abs (m2 * (N * A) - p * A) <= N * A.
Proof.
  intros HA HN Hp Hm.
  replace (m2 * (N * A) - p * A) with (A * (m2 * N - p)) by ring.
  rewrite Z.abs_mul, (Z.abs_eq A), (Z.mul_comm N A) by lia.
  apply Z.mul_le_mono_nonneg_l; [lia|].
  destruct Hm as [-> | ->]; lia.
Qed.

(** Rounding a positive integer [p * 2^e] below [2^10] to binary32, from an
    exponent [e] not above the one of the format: the result is canonical
    and within [2^-14] of the exact value. *)
Lemma binary_round_aux_shape (s : bool) (p : positive) (e : Z) :
  -149 <= e ->
  e <= Z.max (Zdigits2 (Z.pos p) + e - 24) (-149) ->
  Z.pos p * 2 ^ (e + 149) < 2 ^ 159 ->
  exists m3 e3 : Z,
    binary_round_aux f32.prec f32.emax s (Z.pos p) e loc_Exact = rounded s m3 e3
    /\ 0 <= m3
    /\ fcan (rounded s m3 e3) = true
    /\ Z.abs (m3 * 2 ^ (e3 + 149) - Z.pos p * 2 ^ (e + 149)) <= 2 ^ 135.
Proof.
  intros He Hal Hmag.
  destruct (Zdigits2_pos_spec p) as (Hd1 & Hdlo & Hdhi).
  set (d := Zdigits2 (Z.pos p)) in *.
  assert (Hde : d + e <= 10).
  { destruct (Z_le_gt_dec (d + e) 10) as [|Hgt]; [assumption|]. exfalso.
    assert (H1 : 2 ^ 159 <= 2 ^ (d - 1) * 2 ^ (e + 149)).
    { rewrite <- pow2_add by lia. apply pow2_le. lia. }
    assert (H2 : 2 ^ (d - 1) * 2 ^ (e + 149) <= Z.pos p * 2 ^ (e + 149)).
    { apply Z.mul_le_mono_nonneg_r; [apply Z.lt_le_incl, pow2_pos; lia | lia]. }
    lia. }
  set (f1 := Z.max (d + e - 24) (-149)) in *.
  assert (Hf1 : -149 <= f1 <= -14) by (unfold f1; lia).
  set (n1 := f1 - e).
  assert (Hn1 : 0 <= n1) by (unfold n1; lia).
  unfold binary_round_aux.
  pose proof (shr_fexp_spec (Z.pos p) e loc_Exact ltac:(lia)) as Hs1.
  cbv zeta in Hs1. rewrite fexp_f32 in Hs1. fold d in Hs1. fold f1 in Hs1.
  rewrite Z.max_r in Hs1 by lia. fold n1 in Hs1.
  destruct (shr_fexp f32.prec f32.emax (Z.pos p) e loc_Exact) as [mrs1 e1].
  cbn [fst snd] in Hs1. destruct Hs1 as [Hm1 He1].
  replace (e + n1) with f1 in He1 by (unfold n1; lia). subst e1.
  pose proof (round_nearest_even_spec mrs1) as Hr. cbv zeta in Hr.
  set (m2 := round_nearest_even (shr_m mrs1) (loc_of_shr_record mrs1)) in *.
  rewrite Hm1 in Hr. clear Hm1.
  set (m1 := Z.pos p / 2 ^ n1) in *.
  pose proof (div_pow2_bounds (Z.pos p) n1 Hn1) as Hdiv. fold m1 in Hdiv.
  assert (Hm1nn : 0 <= m1) by (apply Z.div_pos; [lia | apply pow2_pos; lia]).
  assert (Hm1lt : m1 < 2 ^ 24).
  { apply Z.div_lt_upper_bound; [apply pow2_pos; lia|].
    rewrite <- pow2_add by lia.
    apply Z.lt_le_trans with (2 ^ d); [lia|]. apply pow2_le. unfold n1, f1. lia. }
  assert (Herr : Z.abs (m2 * 2 ^ (f1 + 149) - Z.pos p * 2 ^ (e + 149))
                 <= 2 ^ 135).
  { replace (f1 + 149) with (n1 + (e + 149)) by (unfold n1; lia).
    rewrite pow2_add by lia.
    apply Z.le_trans with (2 ^ n1 * 2 ^ (e + 149)).
    - apply (scaled_error _ _ _ m1); try assumption; apply pow2_pos; lia.
    - rewrite <- pow2_add by lia. apply pow2_le. unfold n1. lia. }
  pose proof (shr_fexp_spec m2 f1 loc_Exact ltac:(lia)) as Hs2.
  cbv zeta in Hs2. rewrite fexp_f32 in Hs2.
  destruct (shr_fexp f32.prec f32.emax m2 f1 loc_Exact) as [mrs3 e3].
  cbn [fst snd] in Hs2. destruct Hs2 as [Hm3 He3].
  destruct m2 as [|q|q] eqn:Hm2; [| |lia].
  - (* the mantissa vanishes *)
    cbn [Zdigits2] in Hm3, He3.
    rewrite Z.max_l in Hm3, He3 by lia.
    exists 0, f1. rewrite Hm3. change (0 / 2 ^ 0) with 0.
    cbn [rounded fcan]. repeat split; [lia | exact Herr].
  - destruct (Z_lt_le_dec (Z.pos q) (2 ^ 24)) as [Hlt | Hge].
    + (* no carry out of the mantissa *)
      destruct (Zdigits2_pos_spec q) as (Hq1 & Hqlo & Hqhi).
      set (d2 := Zdigits2 (Z.pos q)) in *.
      assert (Hd2 : d2 <= 24).
      { destruct (Z_le_gt_dec d2 24) as [|Hgt]; [assumption|]. exfalso.
        assert (2 ^ 24 <= 2 ^ (d2 - 1)) by (apply pow2_le; lia). lia. }
      rewrite Z.max_l in Hm3, He3 by lia.
      change (2 ^ 0) with 1 in Hm3. rewrite Z.div_1_r in Hm3.
      exists (Z.pos q), f1. rewrite Hm3, He3, Z.add_0_r.
      replace (f1 <=? f32.emax - f32.prec) with true
        by (symmetry; apply Z.leb_le; unfold f32.emax, f32.prec; lia).
      cbn [rounded fcan]. repeat split; [lia | | exact Herr].
      apply bounded_f32. fold d2. split; [|lia].
      destruct (Z.eq_dec f1 (-149)) as [Hsub | Hnorm]; [lia|].
      assert (Hn1' : n1 = d - 24) by (unfold n1, f1 in *; lia).
      assert (Hm1ge : 2 ^ 23 <= m1).
      { apply Z.div_le_lower_bound; [apply pow2_pos; lia|].
        rewrite <- pow2_add by lia.
        replace (n1 + 23) with (d - 1) by lia. lia. }
      assert (Hd2' : 24 <= d2).
      { destruct (Z_le_gt_dec 24 d2) as [|Hgt]; [assumption|]. exfalso.
        assert (2 ^ d2 <= 2 ^ 23) by (apply pow2_le; lia). lia. }
      lia.
    + (* the mantissa rounds up to [2^24] *)
      assert (Hq : Z.pos q = 2 ^ 24) by lia.
      rewrite Hq in Hm3, He3, Herr.
      change (Zdigits2 (2 ^ 24)) with 25 in Hm3, He3.
      replace (Z.max 0 (Z.max (25 + f1 - 24) (-149) - f1)) with 1
        in Hm3, He3 by lia.
      change (2 ^ 24 / 2 ^ 1) with (2 ^ 23) in Hm3.
      exists (2 ^ 23), (f1 + 1). rewrite Hm3, He3.
      change (2 ^ 23) with (Z.pos 8388608).
      replace (f1 + 1 <=? f32.emax - f32.prec) with true
        by (symmetry; apply Z.leb_le; unfold f32.emax, f32.prec; lia).
      cbn [rounded fcan]. repeat split; [lia | | ].
      * apply bounded_f32. change (Zdigits2 (Z.pos 8388608)) with 24. lia.
      * replace (f1 + 1 + 149) with (1 + (f1 + 149)) by lia.
        rewrite pow2_add by lia.
        replace (Z.pos 8388608 * (2 ^ 1 * 2 ^ (f1 + 149)))
          with (2 ^ 24 * 2 ^ (f1 + 149)) by (change (2 ^ 24) with 16777216; change (2 ^ 1) with 2; lia).
        exact Herr.
Qed.

Lemma shl_align_spec (m : positive) (e e' : Z) :
  -149 <= e -> -149 <= e' ->
  snd (shl_align m e e') = Z.min e e'
  /\ Z.pos (fst (shl_align m e e')) * 2 ^ (Z.min e e' + 149)
     = Z.pos m * 2 ^ (e + 149)
  /\ Zdigits2 (Z.pos (fst (shl_align m e e')))
     = Zdigits2 (Z.pos m) + (e - Z.min e e').
Proof.
  intros He He'. unfold shl_align.
  destruct (e' - e) as [|k|k] eqn:Hk; cbn [fst snd].
  - rewrite Z.min_l by lia. split; [reflexivity|]. split; [reflexivity | lia].
  - rewrite Z.min_l by lia. split; [reflexivity|]. split; [reflexivity | lia].
  - rewrite Z.min_r by lia. split; [reflexivity|].
    assert (Hs : Z.pos (Pos.iter xO m k) = 2 ^ Z.pos k * Z.pos m)
      by apply Zpower.shift_pos_correct.
    assert (Hke : e = Z.pos k + e') by lia.
    destruct (Zdigits2_pos_spec m) as (Hd & Hlo & Hhi).
    pose proof (pow2_pos (Z.pos k) ltac:(lia)) as Hpk.
    split.
    + rewrite Hs, Hke.
      replace (Z.pos k + e' + 149) with (Z.pos k + (e' + 149)) by lia.
      rewrite (pow2_add (Z.pos k) (e' + 149)) by lia. ring.
    + apply Zdigits2_unique. rewrite Hs.
      replace (Zdigits2 (Z.pos m) + (e - e') - 1)
        with (Z.pos k + (Zdigits2 (Z.pos m) - 1)) by lia.
      replace (Zdigits2 (Z.pos m) + (e - e'))
        with (Z.pos k + Zdigits2 (Z.pos m)) by lia.
      rewrite (pow2_add (Z.pos k) (Zdigits2 (Z.pos m) - 1)),
        (pow2_add (Z.pos k) (Zdigits2 (Z.pos m))) by lia.
      split.
      * apply Z.mul_le_mono_nonneg_l; lia.
      * apply Z.mul_lt_mono_pos_l; lia.
Qed.

Lemma cond_Zopp_abs (s : bool) (a b : Z) :
  Z.abs (cond_Zopp s a - cond_Zopp s b) = Z.abs (a - b).
Proof. destruct s; cbn [cond_Zopp]; lia. Qed.

(** Rounding the integer [z * 2^e], below [2^10] in magnitude. *)
Lemma binary_normalize_spec (z e : Z) (sz : bool) :
  -149 <= e ->
  Z.abs z * 2 ^ (e + 149) < 2 ^ 159 ->
  fcan (binary_normalize f32.prec f32.emax z e sz) = true
  /\ Z.abs (fval (binary_normalize f32.prec f32.emax z e sz)
            - z * 2 ^ (e + 149)) <= 2 ^ 135.
Proof.
  intros He Hmag.
  assert (Hround : forall (s : bool) (p : positive),
    Z.pos p * 2 ^ (e + 149) < 2 ^ 159 ->
    fcan (binary_round f32.prec f32.emax s p e) = true
    /\ Z.abs (fval (binary_round f32.prec f32.emax s p e)
              - cond_Zopp s (Z.pos p * 2 ^ (e + 149))) <= 2 ^ 135).
  { intros s p Hp. unfold binary_round.
    rewrite fexp_f32. change (Z.pos (digits2_pos p)) with (Zdigits2 (Z.pos p)).
    set (f := Z.max (Zdigits2 (Z.pos p) + e - 24) (-149)).
    destruct (shl_align_spec p e f He ltac:(unfold f; lia)) as (Hez & Hval & Hdig).
    destruct (shl_align p e f) as [mz ez]. cbn [fst snd] in Hez, Hval, Hdig.
    subst ez.
    destruct (binary_round_aux_shape s mz (Z.min e f)) as (m3 & e3 & Hr & Hm3 & Hcan & Herr).
    - lia.
    - rewrite Hdig. unfold f. lia.
    - rewrite Hval. exact Hp.
    - rewrite Hr. split; [exact Hcan|].
      rewrite fval_rounded by exact Hm3. rewrite cond_Zopp_abs, <- Hval.
      exact Herr. }
  destruct z as [|p|p]; cbn [binary_normalize].
  - cbn. split; [reflexivity | lia].
  - apply (Hround false p). exact Hmag.
  - destruct (Hround true p Hmag) as [Hc Hv]. split; [exact Hc|].
    cbn [cond_Zopp] in Hv.
    replace (Z.neg p * 2 ^ (e + 149)) with (- (Z.pos p * 2 ^ (e + 149)))
      by (rewrite <- Pos2Z.opp_pos; ring).
    exact Hv.
Qed.

Lemma fcan_exponent (s : bool) (m : positive) (e : Z) :
  fcan (S754_finite s m e) = true -> -149 <= e.
Proof. cbn [fcan]. rewrite bounded_f32. lia. Qed.

(** Addition of two canonical numbers whose sum is below [2^10] in
    magnitude: canonical, and within [2^-14] of the sum. *)
Lemma add_spec (x y : spec_float) :
  fcan x = true -> fcan y = true ->
  Z.abs (fval x + fval y) < 2 ^ 159 ->
  fcan (f32.add x y) = true
  /\ Z.abs (fval (f32.add x y) - (fval x + fval y)) <= 2 ^ 135.
Proof.
  intros Hx Hy Hmag. unfold f32.add.
  destruct x as [sx|sx| |sx mx ex]; try discriminate Hx;
    destruct y as [sy|sy| |sy my ey]; try discriminate Hy.
  - split; [destruct sx, sy; reflexivity|].
    destruct sx, sy; cbn; lia.
  - cbn [SFadd]. split; [exact Hy|]. cbn [fval]. 
    replace (fval (S754_finite sy my ey) - (0 + fval (S754_finite sy my ey))) with 0 by lia. cbn; lia.
  - cbn [SFadd]. split; [exact Hx|]. cbn [fval].
    replace (fval (S754_finite sx mx ex) - (fval (S754_finite sx mx ex) + 0)) with 0 by lia. cbn; lia.
  - cbn [SFadd].
    pose proof (fcan_exponent _ _ _ Hx) as Hex.
    pose proof (fcan_exponent _ _ _ Hy) as Hey.
    destruct (shl_align_spec mx ex (Z.min ex ey) Hex ltac:(lia)) as (_ & Hvx & _).
    destruct (shl_align_spec my ey (Z.min ex ey) Hey ltac:(lia)) as (_ & Hvy & _).
    replace (Z.min ex (Z.min ex ey)) with (Z.min ex ey) in Hvx by lia.
    replace (Z.min ey (Z.min ex ey)) with (Z.min ex ey) in Hvy by lia.
    set (ez := Z.min ex ey) in *.
    set (ax := Z.pos (fst (shl_align mx ex ez))) in *.
    set (ay := Z.pos (fst (shl_align my ey ez))) in *.
    assert (Hsum : (cond_Zopp sx ax + cond_Zopp sy ay) * 2 ^ (ez + 149)
                   = fval (S754_finite sx mx ex) + fval (S754_finite sy my ey)).
    { cbn [fval]. rewrite <- Hvx, <- Hvy.
      destruct sx, sy; cbn [cond_Zopp]; ring. }
    rewrite <- Hsum in Hmag |- *.
    apply binary_normalize_spec; [unfold ez; lia|].
    rewrite Z.abs_mul in Hmag.
    rewrite (Z.abs_eq (2 ^ (ez + 149))) in Hmag
      by (apply Z.lt_le_incl, pow2_pos; unfold ez; lia).
    exact Hmag.
Qed.

(** ** Comparison and truncation *)

Lemma fval_finite_pos (m : positive) (e : Z) :
  -149 <= e -> 0 < Z.pos m * 2 ^ (e + 149).
Proof.
  intros He. apply Z.mul_pos_pos; [lia | apply pow2_pos; lia].
Qed.

(** [val < 0], the first test of [clamprgb]. *)
Lemma ltb_zero_spec (x : spec_float) :
  fcan x = true -> f32.ltb x (f32.of_Z 0) = (fval x <? 0).
Proof.
  intros Hx. change (f32.of_Z 0) with (S754_zero false).
  destruct x as [sx|sx| |sx mx ex]; try discriminate Hx.
  - reflexivity.
  - pose proof (fval_finite_pos mx ex (fcan_exponent _ _ _ Hx)) as Hpos.
    unfold f32.ltb, SFltb. cbn [SFcompare fval].
    destruct sx; cbn [cond_Zopp]; symmetry;
      [apply Z.ltb_lt | apply Z.ltb_ge]; lia.
Qed.

Lemma of_Z_255 : f32.of_Z 255 = S754_finite false 16711680 (-16).
Proof. reflexivity. Qed.

(** [val > 255], the second test of [clamprgb]. *)
Lemma ltb_255_spec (x : spec_float) :
  fcan x = true -> f32.ltb (f32.of_Z 255) x = (255 * 2 ^ 149 <? fval x).
Proof.
  intros Hx. rewrite of_Z_255.
  destruct x as [sx|sx| |sx mx ex]; try discriminate Hx.
  - reflexivity.
  - pose proof (fcan_exponent _ _ _ Hx) as Hex.
    pose proof (fval_finite_pos mx ex Hex) as Hpos.
    cbn [fcan] in Hx. apply bounded_f32 in Hx. destruct Hx as [Hcan _].
    destruct (Zdigits2_pos_spec mx) as (Hd & Hlo & Hhi).
    set (d := Zdigits2 (Z.pos mx)) in *.
    unfold f32.ltb, SFltb. cbn [SFcompare fval].
    destruct sx; cbn [cond_Zopp].
    + symmetry. apply Z.ltb_ge. lia.
    + destruct (Z.compare_spec (-16) ex) as [Heq | Hlt | Hgt].
      * subst ex. change (Pos.compare_cont Eq 16711680 mx)
          with (Z.pos 16711680 ?= Z.pos mx).
        change (-16 + 149) with 133.
        destruct (Z.compare_spec (Z.pos 16711680) (Z.pos mx)) as [H | H | H];
          symmetry; [apply Z.ltb_ge | apply Z.ltb_lt | apply Z.ltb_ge]; lia.
      * symmetry. apply Z.ltb_lt.
        assert (Hd24 : d = 24) by lia. rewrite Hd24 in Hlo.
        assert (H1 : 2 ^ 134 <= 2 ^ (ex + 149)) by (apply pow2_le; lia).
        apply Z.lt_le_trans with (2 ^ 23 * 2 ^ 134); [reflexivity|].
        apply Z.mul_le_mono_nonneg; lia.
      * symmetry. apply Z.ltb_ge.
        assert (Hd24 : d <= 24) by lia.
        assert (H0 : 2 ^ d <= 2 ^ 24) by (apply pow2_le; lia).
        assert (H1 : 2 ^ (ex + 149) <= 2 ^ 132) by (apply pow2_le; lia).
        pose proof (pow2_pos (ex + 149) ltac:(lia)) as H2.
        apply Z.le_trans with (2 ^ 24 * 2 ^ 132); [|discriminate].
        apply Z.mul_le_mono_nonneg; lia.
Qed.

(** Truncation of a number that is not negative. *)
Lemma trunc_spec (x : spec_float) :
  fcan x = true -> 0 <= fval x -> f32.trunc x = fval x / 2 ^ 149.
Proof.
  intros Hx Hnn.
  destruct x as [sx|sx| |sx mx ex]; try discriminate Hx.
  - reflexivity.
  - pose proof (fcan_exponent _ _ _ Hx) as Hex.
    pose proof (fval_finite_pos mx ex Hex) as Hpos.
    cbn [fval] in Hnn |- *. cbn [f32.trunc].
    destruct sx; cbn [cond_Zopp] in Hnn |- *; [lia|].
    destruct (Z.leb_spec 0 ex) as [Hle | Hlt].
    + rewrite (pow2_add ex 149) by lia.
      rewrite Z.mul_assoc, Z.div_mul by (apply Z.neq_sym, Z.lt_neq, pow2_pos; lia).
      reflexivity.
    + replace 149 with ((- ex) + (ex + 149)) at 2 by lia.
      rewrite (pow2_add (- ex) (ex + 149)) by lia.
      rewrite Z.div_mul_cancel_r
        by (apply Z.neq_sym, Z.lt_neq, pow2_pos; lia).
      reflexivity.
Qed.

(** A value in [[0, 256)] converts to [uint8_t] without wrapping, and
    [clamprgb] returns the same byte when it is at most [255]. *)
Lemma to_u8_spec (x : spec_float) :
  fcan x = true -> 0 <= fval x < 256 * 2 ^ 149 ->
  f32.to_u8 x = fval x / 2 ^ 149.
Proof.
  intros Hx Hr. unfold f32.to_u8. rewrite trunc_spec by (assumption || lia).
  apply Z.mod_small. split.
  - apply Z.div_pos; lia.
  - apply Z.div_lt_upper_bound; lia.
Qed.

Lemma clamprgb_spec (x : spec_float) :
  fcan x = true ->
  clamprgb x =
    if fval x <? 0 then 0
    else if 255 * 2 ^ 149 <? fval x then 255
    else fval x / 2 ^ 149.
Proof.
  intros Hx. unfold clamprgb.
  rewrite ltb_zero_spec, ltb_255_spec by exact Hx.
  destruct (Z.ltb_spec (fval x) 0) as [|H0]; [reflexivity|].
  destruct (Z.ltb_spec (255 * 2 ^ 149) (fval x)) as [|H255]; [reflexivity|].
  apply to_u8_spec; [exact Hx | lia].
Qed.

Lemma clamprgb_range (x : spec_float) :
  fcan x = true -> 0 <= clamprgb x <= 255.
Proof.
  intros Hx. rewrite clamprgb_spec by exact Hx.
  destruct (Z.ltb_spec (fval x) 0) as [|H0]; [lia|].
  destruct (Z.ltb_spec (255 * 2 ^ 149) (fval x)) as [|H255]; [lia|].
  split.
  - apply Z.div_pos; lia.
  - apply Z.div_le_upper_bound; lia.
Qed.

(** ** Error bounds *)

Lemma approx_near (x : spec_float) (num den : Z) :
  approx x num den = true -> near 1 x num den.
Proof.
  unfold approx, near. rewrite andb_true_iff, Z.leb_le. intros [Hc Hv].
  split; [exact Hc|]. lia.
Qed.

Lemma near_add (k1 k2 : Z) (x y : spec_float) (a b den : Z) :
  0 < den -> 0 <= k1 -> 0 <= k2 -> k1 + k2 <= 1000 ->
  Z.abs (a + b) <= 1000 * den ->
  near k1 x a den -> near k2 y b den ->
  near (k1 + k2 + 1) (f32.add x y) (a + b) den.
Proof.
  intros Hden Hk1 Hk2 Hk Hab [Hcx Hx] [Hcy Hy].
  apply Z.abs_le in Hx, Hy, Hab.
  set (U := 2 ^ 149) in *. set (E := 2 ^ 135) in *.
  assert (HU : U = 16384 * E) by reflexivity.
  assert (HE : 0 < E) by reflexivity.
  assert (Hmag : Z.abs (fval x + fval y) < 2 ^ 159).
  { change (2 ^ 159) with (1024 * U). apply Z.abs_lt.
    assert (H1 : den * (-(1024 * U)) < den * (fval x + fval y)) by nia.
    assert (H2 : den * (fval x + fval y) < den * (1024 * U)) by nia.
    apply Z.mul_lt_mono_pos_l in H1, H2; [lia | exact Hden | exact Hden]. }
  destruct (add_spec x y Hcx Hcy Hmag) as [Hc Hv].
  split; [exact Hc|].
  apply Z.abs_le in Hv. fold E in Hv.
  assert (H1 : den * (- E) <= den * (fval (f32.add x y) - (fval x + fval y)))
    by (apply Z.mul_le_mono_nonneg_l; lia).
  assert (H2 : den * (fval (f32.add x y) - (fval x + fval y)) <= den * E)
    by (apply Z.mul_le_mono_nonneg_l; lia).
  apply Z.abs_le. nia.
Qed.

(** ** Tables over the bytes *)

Lemma forall_bytes (P : Z -> bool) :
  forallb P bytes = true -> forall v, 0 <= v <= 255 -> P v = true.
Proof.
  intros H v Hv. rewrite forallb_forall in H. apply H.
  unfold bytes. apply in_map_iff. exists (Z.to_nat v).
  split; [lia|]. apply in_seq. lia.
Qed.

Ltac by_table f :=
  let v := fresh "v" in
  let Hv := fresh "Hv" in
  intros v Hv; apply approx_near; revert v Hv;
  apply (forall_bytes f); vm_compute; reflexivity.

(** ** The intermediates of the encoder *)

Lemma weighted_183 (v : Z) :
  0 <= v <= 255 -> near 1 (weighted (f32.milli 183) v) (183 * v) 1000.
Proof.
  revert v.
  by_table (fun v => approx (weighted (f32.milli 183) v) (183 * v) 1000).
Qed.

Lemma weighted_614 (v : Z) :
  0 <= v <= 255 -> near 1 (weighted (f32.milli 614) v) (614 * v) 1000.
Proof.
  revert v.
  by_table (fun v => approx (weighted (f32.milli 614) v) (614 * v) 1000).
Qed.

Lemma weighted_62 (v : Z) :
  0 <= v <= 255 -> near 1 (weighted (f32.milli 62) v) (62 * v) 1000.
Proof.
  revert v.
  by_table (fun v => approx (weighted (f32.milli 62) v) (62 * v) 1000).
Qed.

Lemma of_Z_16 : near 0 (f32.of_Z 16) 16000 1000.
Proof. split; [reflexivity | vm_compute; discriminate]. Qed.

(** The luma of a pixel is within [6 * 2^-14] of
    [0.183 r + 0.614 g + 0.062 b + 16]. *)
Lemma luma_of_rgb_near (r g b : Z) :
  0 <= r <= 255 -> 0 <= g <= 255 -> 0 <= b <= 255 ->
  near 6 (luma_of_rgb r g b) (183 * r + 614 * g + 62 * b + 16000) 1000.
Proof.
  intros Hr Hg Hb. unfold luma_of_rgb.
  apply (near_add 5 0); [lia .. | | exact of_Z_16].
  apply (near_add 3 1); [lia .. | | apply weighted_62; exact Hb].
  apply (near_add 1 1); [lia .. | apply weighted_183; exact Hr
                        | apply weighted_614; exact Hg].
Qed.

Lemma weighted_m101 (v : Z) :
  0 <= v <= 255 ->
  near 1 (weighted (f32.opp (f32.milli 101)) v) (-101 * v) 1000.
Proof.
  revert v.
  by_table (fun v => approx (weighted (f32.opp (f32.milli 101)) v)
                       (-101 * v) 1000).
Qed.

Lemma weighted_m339 (v : Z) :
  0 <= v <= 255 ->
  near 1 (weighted (f32.opp (f32.milli 339)) v) (-339 * v) 1000.
Proof.
  revert v.
  by_table (fun v => approx (weighted (f32.opp (f32.milli 339)) v)
                       (-339 * v) 1000).
Qed.

Lemma weighted_439 (v : Z) :
  0 <= v <= 255 -> near 1 (weighted (f32.milli 439) v) (439 * v) 1000.
Proof.
  revert v.
  by_table (fun v => approx (weighted (f32.milli 439) v) (439 * v) 1000).
Qed.

Lemma weighted_m40 (v : Z) :
  0 <= v <= 255 ->
  near 1 (weighted (f32.opp (f32.milli 40)) v) (-40 * v) 1000.
Proof.
  revert v.
  by_table (fun v => approx (weighted (f32.opp (f32.milli 40)) v)
                       (-40 * v) 1000).
Qed.

Lemma half_m101 (v : Z) :
  0 <= v <= 255 ->
  near 1 (weighted (half (f32.opp (f32.milli 101))) v) (-101 * v) 2000.
Proof.
  revert v.
  by_table (fun v => approx (weighted (half (f32.opp (f32.milli 101))) v)
                       (-101 * v) 2000).
Qed.

Lemma half_m339 (v : Z) :
  0 <= v <= 255 ->
  near 1 (weighted (half (f32.opp (f32.milli 339))) v) (-339 * v) 2000.
Proof.
  revert v.
  by_table (fun v => approx (weighted (half (f32.opp (f32.milli 339))) v)
                       (-339 * v) 2000).
Qed.

Lemma half_439 (v : Z) :
  0 <= v <= 255 ->
  near 1 (weighted (half (f32.milli 439)) v) (439 * v) 2000.
Proof.
  revert v.
  by_table (fun v => approx (weighted (half (f32.milli 439)) v)
                       (439 * v) 2000).
Qed.

Lemma half_m40 (v : Z) :
  0 <= v <= 255 ->
  near 1 (weighted (half (f32.opp (f32.milli 40))) v) (-40 * v) 2000.
Proof.
  revert v.
  by_table (fun v => approx (weighted (half (f32.opp (f32.milli 40))) v)
                       (-40 * v) 2000).
Qed.

Lemma of_Z_128 : near 0 (f32.of_Z 128) 128000 1000.
Proof. split; [reflexivity | vm_compute; discriminate]. Qed.

Lemma of_Z_128_half : near 0 (f32.of_Z 128) 256000 2000.
Proof. split; [reflexivity | vm_compute; discriminate]. Qed.

Create HintDb tables.

#[local] Hint Resolve weighted_m101 weighted_m339 weighted_439 weighted_m40
  half_m101 half_m339 half_439 half_m40 of_Z_128 of_Z_128_half : tables.

Ltac sum_near k1 k2 :=
  apply (near_add k1 k2); [lia | lia | lia | lia | lia | | auto with tables].

(** The chroma of a block, both components. *)
Lemma chroma_of_pair_u_near (r0 r1 g0 g1 b0 b1 : Z) :
  0 <= r0 <= 255 -> 0 <= r1 <= 255 -> 0 <= g0 <= 255 -> 0 <= g1 <= 255 ->
  0 <= b0 <= 255 -> 0 <= b1 <= 255 ->
  let '(cr, cg, cb) := u_coeffs in
  near 12 (chroma_of_pair cr cg cb r0 r1 g0 g1 b0 b1)
    (-101 * r0 + -101 * r1 + -339 * g0 + -339 * g1 + 439 * b0 + 439 * b1
     + 256000) 2000.
Proof.
  intros Hr0 Hr1 Hg0 Hg1 Hb0 Hb1. unfold u_coeffs, chroma_of_pair.
  sum_near 11 0. sum_near 9 1. sum_near 7 1. sum_near 5 1. sum_near 3 1.
  sum_near 1 1. auto with tables.
Qed.

Lemma chroma_of_pair_v_near (r0 r1 g0 g1 b0 b1 : Z) :
  0 <= r0 <= 255 -> 0 <= r1 <= 255 -> 0 <= g0 <= 255 -> 0 <= g1 <= 255 ->
  0 <= b0 <= 255 -> 0 <= b1 <= 255 ->
  let '(cr, cg, cb) := v_coeffs in
  near 12 (chroma_of_pair cr cg cb r0 r1 g0 g1 b0 b1)
    (439 * r0 + 439 * r1 + -339 * g0 + -339 * g1 + -40 * b0 + -40 * b1
     + 256000) 2000.
Proof.
  intros Hr0 Hr1 Hg0 Hg1 Hb0 Hb1. unfold v_coeffs, chroma_of_pair.
  sum_near 11 0. sum_near 9 1. sum_near 7 1. sum_near 5 1. sum_near 3 1.
  sum_near 1 1. auto with tables.
Qed.

Lemma chroma_of_single_u_near (r g b : Z) :
  0 <= r <= 255 -> 0 <= g <= 255 -> 0 <= b <= 255 ->
  let '(cr, cg, cb) := u_coeffs in
  near 6 (chroma_of_single cr cg cb r g b)
    (-101 * r + -339 * g + 439 * b + 128000) 1000.
Proof.
  intros Hr Hg Hb. unfold u_coeffs, chroma_of_single.
  sum_near 5 0. sum_near 3 1. sum_near 1 1. auto with tables.
Qed.

Lemma chroma_of_single_v_near (r g b : Z) :
  0 <= r <= 255 -> 0 <= g <= 255 -> 0 <= b <= 255 ->
  let '(cr, cg, cb) := v_coeffs in
  near 6 (chroma_of_single cr cg cb r g b)
    (439 * r + -339 * g + -40 * b + 128000) 1000.
Proof.
  intros Hr Hg Hb. unfold v_coeffs, chroma_of_single.
  sum_near 5 0. sum_near 3 1. sum_near 1 1. auto with tables.
Qed.

(** ** The channels of the decoder *)

Lemma luma_term_near (y : Z) :
  0 <= y <= 255 -> near 1 (luma_term y) (1164 * (y - 16)) 1000.
Proof.
  revert y.
  by_table (fun y => approx (luma_term y) (1164 * (y - 16)) 1000).
Qed.

Lemma chroma_0 (c : Z) :
  0 <= c <= 255 ->
  near 1 (f32.mul (f32.milli 0) (chroma_centred c)) 0 1000.
Proof.
  revert c.
  by_table (fun c => approx (f32.mul (f32.milli 0) (chroma_centred c)) 0 1000).
Qed.

Lemma chroma_1793 (c : Z) :
  0 <= c <= 255 ->
  near 1 (f32.mul (f32.milli 1793) (chroma_centred c))
    (1793 * (c - 128)) 1000.
Proof.
  revert c.
  by_table (fun c => approx (f32.mul (f32.milli 1793) (chroma_centred c))
                       (1793 * (c - 128)) 1000).
Qed.

Lemma chroma_m213 (c : Z) :
  0 <= c <= 255 ->
  near 1 (f32.mul (f32.opp (f32.milli 213)) (chroma_centred c))
    (-213 * (c - 128)) 1000.
Proof.
  revert c.
  by_table (fun c => approx
                       (f32.mul (f32.opp (f32.milli 213)) (chroma_centred c))
                       (-213 * (c - 128)) 1000).
Qed.

Lemma chroma_m533 (c : Z) :
  0 <= c <= 255 ->
  near 1 (f32.mul (f32.opp (f32.milli 533)) (chroma_centred c))
    (-533 * (c - 128)) 1000.
Proof.
  revert c.
  by_table (fun c => approx
                       (f32.mul (f32.opp (f32.milli 533)) (chroma_centred c))
                       (-533 * (c - 128)) 1000).
Qed.

Lemma chroma_2112 (c : Z) :
  0 <= c <= 255 ->
  near 1 (f32.mul (f32.milli 2112) (chroma_centred c))
    (2112 * (c - 128)) 1000.
Proof.
  revert c.
  by_table (fun c => approx (f32.mul (f32.milli 2112) (chroma_centred c))
                       (2112 * (c - 128)) 1000).
Qed.

(** Every channel is within [5 * 2^-14] of the exact transform. *)
Lemma channel_value_near (yv cbv crv ch : Z) :
  0 <= yv <= 255 -> 0 <= cbv <= 255 -> 0 <= crv <= 255 ->
  near 5 (channel_value yv cbv crv ch) (channel_exact yv cbv crv ch) 1000.
Proof.
  intros Hy Hcb Hcr. unfold channel_value, channel_exact, chroma_terms.
  destruct (ch =? 2); [|destruct (ch =? 1)].
  - apply (near_add 1 3); [lia .. | apply luma_term_near; exact Hy |].
    replace (1793 * (crv - 128)) with (0 + 1793 * (crv - 128)) by lia.
    apply (near_add 1 1); [lia .. | apply chroma_0; exact Hcb
                          | apply chroma_1793; exact Hcr].
  - apply (near_add 1 3); [lia .. | apply luma_term_near; exact Hy |].
    apply (near_add 1 1); [lia .. | apply chroma_m213; exact Hcb
                          | apply chroma_m533; exact Hcr].
  - apply (near_add 1 3); [lia .. | apply luma_term_near; exact Hy |].
    replace (2112 * (cbv - 128)) with (2112 * (cbv - 128) + 0) by lia.
    apply (near_add 1 1); [lia .. | apply chroma_2112; exact Hcb
                          | apply chroma_0; exact Hcr].
Qed.

(** ** Clamping and truncating *)

Lemma clamprgb_clamp_trunc (x : spec_float) :
  fcan x = true -> clamprgb x = clamp_trunc x.
Proof.
  intros Hx. rewrite clamprgb_spec by exact Hx. unfold clamp_trunc.
  destruct (Z.ltb_spec (fval x) 0) as [Hneg | H0].
  - rewrite Z.max_l, Z.min_r by lia. reflexivity.
  - rewrite (Z.max_r 0) by lia.
    destruct (Z.ltb_spec (255 * 2 ^ 149) (fval x)) as [Hbig | H255].
    + rewrite Z.min_l by lia. symmetry. apply Z.div_mul. discriminate.
    + rewrite Z.min_r by lia. reflexivity.
Qed.

Lemma to_u8_clamp_trunc (x : spec_float) :
  fcan x = true -> 0 <= fval x <= 255 * 2 ^ 149 ->
  f32.to_u8 x = clamp_trunc x.
Proof.
  intros Hx Hr. rewrite to_u8_spec by (assumption || lia).
  unfold clamp_trunc. rewrite Z.max_r, Z.min_r by lia. reflexivity.
Qed.

(** A canonical value near a fraction between [0] and [255]. *)
Lemma near_in_range (k : Z) (x : spec_float) (num den : Z) :
  0 < den -> 0 <= k <= 16384 ->
  den <= num <= 254 * den ->
  near k x num den ->
  fcan x = true /\ 0 <= fval x <= 255 * 2 ^ 149.
Proof.
  intros Hden Hk Hnum [Hc Hv]. split; [exact Hc|].
  apply Z.abs_le in Hv.
  set (U := 2 ^ 149) in *. set (E := 2 ^ 135) in *.
  assert (HU : U = 16384 * E) by reflexivity.
  assert (HE : 0 < E) by reflexivity.
  assert (H1 : den * 0 <= den * fval x) by nia.
  assert (H2 : den * fval x <= den * (255 * U)) by nia.
  apply Z.mul_le_mono_pos_l in H1, H2; [lia | exact Hden | exact Hden].
Qed.

(** The integer part of a canonical value near a fraction. *)
Lemma floor_near (k : Z) (x : spec_float) (num den : Z) :
  0 < den -> near k x num den -> 0 <= fval x ->
  16384 * den * (fval x / 2 ^ 149) <= 16384 * num + k * den
  /\ 16384 * num - k * den < 16384 * den * (fval x / 2 ^ 149 + 1).
Proof.
  intros Hden [_ Hv] H0.
  apply Z.abs_le in Hv.
  pose proof (div_pow2_bounds (fval x) 149 ltac:(lia)) as Hdiv.
  set (v := fval x / 2 ^ 149) in *.
  set (U := 2 ^ 149) in *. set (E := 2 ^ 135) in *.
  assert (HU : U = 16384 * E) by reflexivity.
  assert (HE : 0 < E) by reflexivity.
  assert (H1 : den * (v * U) <= den * fval x)
    by (apply Z.mul_le_mono_nonneg_l; lia).
  assert (H2 : den * fval x < den * ((v + 1) * U))
    by (apply Z.mul_lt_mono_pos_l; lia).
  split.
  - apply (Z.mul_le_mono_pos_r _ _ E HE). nia.
  - apply (Z.mul_lt_mono_pos_r E _ _ HE). nia.
Qed.

(** The byte of [decoded_sample] is [clamprgb] of the channel value. *)
Lemma decoded_sample_channel (buf : list Z) (ps offy offuv row col ch : Z) :
  decoded_sample buf ps offy offuv row col ch
  = clamprgb
      (channel_value
         (nth (Z.to_nat (offy + row * ps + col)) buf 0)
         (nth (Z.to_nat (offuv + row / 2 * ps + Z.land col (Z.lnot 1))) buf 0)
         (nth (Z.to_nat (offuv + row / 2 * ps + Z.lor col 1)) buf 0) ch).
Proof.
  unfold decoded_sample, channel_value, chroma_terms. cbv zeta beta iota.
  destruct (ch =? 2); [reflexivity|]. destruct (ch =? 1); reflexivity.
Qed.

Lemma channel_value_fcan (yv cbv crv ch : Z) :
  0 <= yv <= 255 -> 0 <= cbv <= 255 -> 0 <= crv <= 255 ->
  fcan (channel_value yv cbv crv ch) = true.
Proof.
  intros Hy Hcb Hcr. apply (channel_value_near yv cbv crv ch Hy Hcb Hcr).
Qed.

(** The scalar steps: [clamprgb] of a channel value of bytes is that value
    clamped to [[0, 255]] and truncated; the luma and chroma intermediates
    of the encoder lie in [[0, 255]] for bytes, so that their conversion to
    [uint8_t] gives the same byte as the clamp. *)
Lemma clamp_and_truncate_outputs
    (yv cbv crv ch r0 g0 b0 r1 g1 b1 : Z) :
  0 <= yv <= 255 -> 0 <= cbv <= 255 -> 0 <= crv <= 255 ->
  0 <= r0 <= 255 -> 0 <= g0 <= 255 -> 0 <= b0 <= 255 ->
  0 <= r1 <= 255 -> 0 <= g1 <= 255 -> 0 <= b1 <= 255 ->
  clamprgb (channel_value yv cbv crv ch)
  = clamp_trunc (channel_value yv cbv crv ch)
  /\ f32.to_u8 (luma_of_rgb r0 g0 b0) = clamp_trunc (luma_of_rgb r0 g0 b0)
  /\ (let '(cr, cg, cb) := u_coeffs in
      f32.to_u8 (chroma_of_pair cr cg cb r0 r1 g0 g1 b0 b1)
      = clamp_trunc (chroma_of_pair cr cg cb r0 r1 g0 g1 b0 b1)
      /\ f32.to_u8 (chroma_of_single cr cg cb r0 g0 b0)
         = clamp_trunc (chroma_of_single cr cg cb r0 g0 b0))
  /\ (let '(cr, cg, cb) := v_coeffs in
      f32.to_u8 (chroma_of_pair cr cg cb r0 r1 g0 g1 b0 b1)
      = clamp_trunc (chroma_of_pair cr cg cb r0 r1 g0 g1 b0 b1)
      /\ f32.to_u8 (chroma_of_single cr cg cb r0 g0 b0)
         = clamp_trunc (chroma_of_single cr cg cb r0 g0 b0)).
Proof.
  intros Hy Hcb Hcr Hr0 Hg0 Hb0 Hr1 Hg1 Hb1.
  split; [|split; [|split]].
  - apply clamprgb_clamp_trunc, channel_value_fcan; assumption.
  - pose proof (luma_of_rgb_near r0 g0 b0 Hr0 Hg0 Hb0) as Hn.
    apply near_in_range in Hn; [|lia ..].
    apply to_u8_clamp_trunc; apply Hn.
  - pose proof (chroma_of_pair_u_near r0 r1 g0 g1 b0 b1
                  Hr0 Hr1 Hg0 Hg1 Hb0 Hb1) as Hp.
    pose proof (chroma_of_single_u_near r0 g0 b0 Hr0 Hg0 Hb0) as Hs.
    unfold u_coeffs in *.
    apply near_in_range in Hp; [|lia ..].
    apply near_in_range in Hs; [|lia ..].
    split; apply to_u8_clamp_trunc; first [apply Hp | apply Hs].
  - pose proof (chroma_of_pair_v_near r0 r1 g0 g1 b0 b1
                  Hr0 Hr1 Hg0 Hg1 Hb0 Hb1) as Hp.
    pose proof (chroma_of_single_v_near r0 g0 b0 Hr0 Hg0 Hb0) as Hs.
    unfold v_coeffs in *.
    apply near_in_range in Hp; [|lia ..].
    apply near_in_range in Hs; [|lia ..].
    split; apply to_u8_clamp_trunc; first [apply Hp | apply Hs].
Qed.

(** ** Decoding and encoding back *)

(** The byte of a channel that is not clamped is the integer part of a
    value within [5 * 2^-14] of the exact transform. *)
Lemma unclamped_sample (yv cbv crv ch : Z) :
  0 <= yv <= 255 -> 0 <= cbv <= 255 -> 0 <= crv <= 255 ->
  unclamped (channel_value yv cbv crv ch) ->
  0 <= clamprgb (channel_value yv cbv crv ch) <= 255
  /\ 16384000 * clamprgb (channel_value yv cbv crv ch)
     <= 16384 * channel_exact yv cbv crv ch + 5000
  /\ 16384 * channel_exact yv cbv crv ch - 5000
     < 16384000 * (clamprgb (channel_value yv cbv crv ch) + 1).
Proof.
  intros Hy Hcb Hcr [Hlo Hhi].
  pose proof (channel_value_near yv cbv crv ch Hy Hcb Hcr) as Hn.
  pose proof (channel_value_fcan yv cbv crv ch Hy Hcb Hcr) as Hc.
  rewrite ltb_zero_spec in Hlo by exact Hc.
  rewrite ltb_255_spec in Hhi by exact Hc.
  apply Z.ltb_ge in Hlo, Hhi.
  split; [apply clamprgb_range; exact Hc|].
  rewrite clamprgb_spec by exact Hc.
  replace (fval (channel_value yv cbv crv ch) <? 0) with false
    by (symmetry; apply Z.ltb_ge; exact Hlo).
  replace (255 * 2 ^ 149 <? fval (channel_value yv cbv crv ch)) with false
    by (symmetry; apply Z.ltb_ge; exact Hhi).
  pose proof (floor_near 5 _ _ 1000 ltac:(lia) Hn Hlo) as Hf.
  lia.
Qed.

(** The byte the encoder stores for an intermediate near a fraction between
    [1] and [254]. *)
Lemma encoded_sample (k : Z) (x : spec_float) (num den : Z) :
  0 < den -> 0 <= k <= 16384 -> den <= num <= 254 * den ->
  near k x num den ->
  16384 * den * f32.to_u8 x <= 16384 * num + k * den
  /\ 16384 * num - k * den < 16384 * den * (f32.to_u8 x + 1).
Proof.
  intros Hden Hk Hnum Hn.
  destruct (near_in_range k x num den Hden Hk Hnum Hn) as [Hc Hr].
  rewrite to_u8_spec by (assumption || lia).
  apply floor_near; [exact Hden | exact Hn | lia].
Qed.

(** On the samples of one block.  Where the decoder clamps no channel of
    a pixel, the luma sample the encoder computes from the decoded pixel is
    within 2 of the luma sample it was decoded from; where it clamps no
    channel of the two left pixels of a block (or of the left pixel, on the
    last row of an odd height), the Cb sample computed from them is within
    2 of the original. *)
Lemma roundtrip_unclamped (y0 y1 cbv crv : Z) :
  0 <= y0 <= 255 -> 0 <= y1 <= 255 ->
  0 <= cbv <= 255 -> 0 <= crv <= 255 ->
  pixel_unclamped y0 cbv crv -> pixel_unclamped y1 cbv crv ->
  let '(r0, g0, b0) := decoded_pixel y0 cbv crv in
  let '(r1, g1, b1) := decoded_pixel y1 cbv crv in
  let '(ur, ug, ub) := u_coeffs in
  Z.abs (f32.to_u8 (luma_of_rgb r0 g0 b0) - y0) <= 2
  /\ Z.abs (f32.to_u8 (chroma_of_pair ur ug ub r0 r1 g0 g1 b0 b1) - cbv) <= 2
  /\ Z.abs (f32.to_u8 (chroma_of_single ur ug ub r0 g0 b0) - cbv) <= 2.
Proof.
  intros Hy0 Hy1 Hcb Hcr (Hr0 & Hg0 & Hb0) (Hr1 & Hg1 & Hb1).
  unfold decoded_pixel.
  apply (unclamped_sample y0 cbv crv 2 Hy0 Hcb Hcr) in Hr0.
  apply (unclamped_sample y0 cbv crv 1 Hy0 Hcb Hcr) in Hg0.
  apply (unclamped_sample y0 cbv crv 0 Hy0 Hcb Hcr) in Hb0.
  apply (unclamped_sample y1 cbv crv 2 Hy1 Hcb Hcr) in Hr1.
  apply (unclamped_sample y1 cbv crv 1 Hy1 Hcb Hcr) in Hg1.
  apply (unclamped_sample y1 cbv crv 0 Hy1 Hcb Hcr) in Hb1.
  set (r0 := clamprgb (channel_value y0 cbv crv 2)) in *.
  set (g0 := clamprgb (channel_value y0 cbv crv 1)) in *.
  set (b0 := clamprgb (channel_value y0 cbv crv 0)) in *.
  set (r1 := clamprgb (channel_value y1 cbv crv 2)) in *.
  set (g1 := clamprgb (channel_value y1 cbv crv 1)) in *.
  set (b1 := clamprgb (channel_value y1 cbv crv 0)) in *.
  unfold channel_exact in *. cbn [Z.eqb Pos.eqb] in *.
  destruct Hr0 as (Br0 & Ur0 & Lr0), Hg0 as (Bg0 & Ug0 & Lg0),
    Hb0 as (Bb0 & Ub0 & Lb0), Hr1 as (Br1 & Ur1 & Lr1),
    Hg1 as (Bg1 & Ug1 & Lg1), Hb1 as (Bb1 & Ub1 & Lb1).
  pose proof (luma_of_rgb_near r0 g0 b0 Br0 Bg0 Bb0) as Hl.
  pose proof (chroma_of_pair_u_near r0 r1 g0 g1 b0 b1
                Br0 Br1 Bg0 Bg1 Bb0 Bb1) as Hp.
  pose proof (chroma_of_single_u_near r0 g0 b0 Br0 Bg0 Bb0) as Hs.
  unfold u_coeffs in *.
  apply encoded_sample in Hl; [|lia ..].
  apply encoded_sample in Hp; [|lia ..].
  apply encoded_sample in Hs; [|lia ..].
  split; [lia | split; lia].
Qed.


(** The Cr sample is not recovered that way: the green weight of the
    encoder is 0.339 in both chroma rows, and the row of Cr does not sum
    to zero.  A white pixel, which the decoder does not clamp, comes back
    with Cr 143 for 128. *)
Lemma roundtrip_cr_drifts :
  pixel_unclamped 235 128 128
  /\ (let '(r, g, b) := decoded_pixel 235 128 128 in
      let '(vr, vg, vb) := v_coeffs in
      f32.to_u8 (chroma_of_single vr vg vb r g b) = 143).
Proof.
  split.
  - unfold pixel_unclamped, unclamped. repeat split; vm_compute; reflexivity.
  - vm_compute. reflexivity.
Qed.

(** * Further properties *)

(** ** Registry queries *)

Lemma bpp_depth_in_Some (bpp_ depth_ d : Z) :
  bpp_depth_in format_desc bpp_ depth_ = Some d ->
  exists f : format_desc_struct,
    lookup_drm_format d = Some f /\ bpp f = bpp_ /\ depth f = depth_.
Proof.
  unfold format_desc, bpp_depth_in. intros H.
  repeat match type of H with
  | (if (?a =? ?b) && (?c =? ?e) then _ else _) = _ =>
      destruct (Z.eqb_spec a b); destruct (Z.eqb_spec c e);
      cbn [andb] in H;
      try (injection H as <-; eexists; split; [reflexivity|]; split; assumption)
  end; discriminate H.
Qed.

(** X1.  The bits per pixel and the depth identify a format of the
    registry: [igt_bpp_depth_to_drm_format] returns the code of every
    registry format from its own pair; whatever code it returns,
    [igt_drm_format_to_bpp] gives the bits per pixel back and the format
    found has the depth asked for; and it aborts exactly when no registry
    format has the pair. *)
Theorem bpp_depth_round_trip :
  Forall (fun f => igt_bpp_depth_to_drm_format (bpp f) (depth f)
                   = Ok (drm_id f)) format_desc
  /\ (forall bpp_ depth_ d : Z,
         igt_bpp_depth_to_drm_format bpp_ depth_ = Ok d ->
         igt_drm_format_to_bpp d = Ok bpp_
         /\ exists f : format_desc_struct,
              lookup_drm_format d = Some f /\ depth f = depth_)
  /\ (forall bpp_ depth_ : Z,
         igt_bpp_depth_to_drm_format bpp_ depth_ = Abort <->
         ~ exists f : format_desc_struct,
             In f format_desc /\ bpp f = bpp_ /\ depth f = depth_).
Proof.
  split; [|split].
  - repeat constructor.
  - intros bpp_ depth_ d H. unfold igt_bpp_depth_to_drm_format in H.
    destruct (bpp_depth_in format_desc bpp_ depth_) as [d'|] eqn:Hin;
      [|discriminate H].
    injection H as ->.
    destruct (bpp_depth_in_Some _ _ _ Hin) as (f & Hl & Hb & Hd).
    split; [|exists f; split; assumption].
    unfold igt_drm_format_to_bpp. rewrite Hl. f_equal. subst bpp_.
    apply lookup_drm_format_cases in Hl as [Hf _]. cbn in Hf.
    destruct Hf as [<- | [<- | [<- | [<- | [<- | []]]]]]; reflexivity.
  - intros bpp_ depth_. unfold igt_bpp_depth_to_drm_format. split.
    + destruct (bpp_depth_in format_desc bpp_ depth_) eqn:Hin;
        [discriminate|]. intros _ (f & Hf & Hb & Hd). subst bpp_ depth_.
      cbn in Hf.
      destruct Hf as [<- | [<- | [<- | [<- | [<- | []]]]]]; discriminate Hin.
    + intros Hno.
      destruct (bpp_depth_in format_desc bpp_ depth_) as [d|] eqn:Hin;
        [|reflexivity].
      exfalso. apply Hno.
      destruct (bpp_depth_in_Some _ _ _ Hin) as (f & Hl & Hb & Hd).
      exists f. apply lookup_drm_format_cases in Hl as [Hf _]. tauto.
Qed.

(** X2.  [igt_format_str] answers "invalid" exactly for the codes that are
    not in the registry, and two codes with the same name that is not
    "invalid" are the same code. *)
Theorem format_str_identifies :
  (forall drm_format : Z,
      igt_format_str drm_format = "invalid"%string <->
      lookup_drm_format drm_format = None)
  /\ (forall a b : Z,
         igt_format_str a = igt_format_str b ->
         igt_format_str a <> "invalid"%string -> a = b).
Proof.
  assert (Hname : forall (d : Z) (f : format_desc_struct),
            lookup_drm_format d = Some f ->
            name f <> "invalid"%string
            /\ forall (d' : Z) (f' : format_desc_struct),
                 lookup_drm_format d' = Some f' -> name f = name f' -> d = d').
  { intros d f Hl. apply lookup_drm_format_cases in Hl as [Hf <-].
    cbn in Hf.
    destruct Hf as [<- | [<- | [<- | [<- | [<- | []]]]]];
      (split; [discriminate|]);
      intros d' f' Hl'; apply lookup_drm_format_cases in Hl' as [Hf' <-];
      cbn in Hf';
      destruct Hf' as [<- | [<- | [<- | [<- | [<- | []]]]]];
      intros Hn; first [reflexivity | discriminate Hn]. }
  split.
  - intros d. unfold igt_format_str.
    destruct (lookup_drm_format d) as [f|] eqn:Hl.
    + split; [|discriminate]. intros Hn.
      destruct (Hname d f Hl) as [Hne _]. contradiction.
    + split; reflexivity.
  - intros a b Heq Hne. unfold igt_format_str in *.
    destruct (lookup_drm_format a) as [fa|] eqn:Ha; [|contradiction].
    destruct (lookup_drm_format b) as [fb|] eqn:Hb.
    + destruct (Hname a fa Ha) as [_ Hinj]. exact (Hinj b fb Hb Heq).
    + destruct (Hname a fa Ha) as [Hn _]. contradiction.
Qed.

Lemma cairo_in_lookup (drm_format : Z) :
  cairo_in format_desc drm_format
  = option_map cairo_id (lookup_drm_format drm_format).
Proof.
  unfold lookup_drm_format, format_desc, cairo_in, lookup_in.
  repeat match goal with
  | |- context [negb (?a =? ?b)] =>
      destruct (Z.eqb_spec a b); cbn [negb option_map]; [reflexivity|]
  end.
  reflexivity.
Qed.

(** X3.  The queries agree on which codes are known.  For a code that
    [igt_format_str] names, [drm_format_to_cairo] and
    [igt_drm_format_to_bpp] return, with the cairo format and the bits per
    pixel of the entry that [lookup_drm_format] finds; for a code it calls
    "invalid" both abort, and so do the size calculator and the creation of
    a framebuffer, on every device and for all dimensions. *)
Theorem registry_queries_agree (drm_format : Z) :
  (igt_format_str drm_format <> "invalid"%string ->
   exists f : format_desc_struct,
     lookup_drm_format drm_format = Some f
     /\ drm_format_to_cairo drm_format = Ok (cairo_id f)
     /\ igt_drm_format_to_bpp drm_format = Ok (bpp f))
  /\ (igt_format_str drm_format = "invalid"%string ->
      drm_format_to_cairo drm_format = Abort
      /\ igt_drm_format_to_bpp drm_format = Abort
      /\ forall (fuel : nat) (k : kernel) (fd : device)
           (width height tiling bo_size bo_stride : Z),
           igt_calc_fb_size fuel fd width height drm_format tiling = Abort
           /\ igt_create_fb_with_bo_size fuel k fd width height drm_format
                tiling bo_size bo_stride = Abort).
Proof.
  unfold igt_format_str, drm_format_to_cairo, igt_drm_format_to_bpp,
    igt_calc_fb_size, igt_create_fb_with_bo_size.
  rewrite cairo_in_lookup.
  destruct (lookup_drm_format drm_format) as [f|] eqn:Hl; cbn [option_map].
  - split.
    + intros _. exists f. split; [reflexivity|]. split; [reflexivity|].
      f_equal. apply lookup_drm_format_cases in Hl as [Hf _]. cbn in Hf.
      destruct Hf as [<- | [<- | [<- | [<- | [<- | []]]]]]; reflexivity.
    + intros Hn. exfalso.
      apply lookup_drm_format_cases in Hl as [Hf _]. cbn in Hf.
      destruct Hf as [<- | [<- | [<- | [<- | [<- | []]]]]]; discriminate Hn.
  - split; [intros Hn; contradiction|].
    intros _. repeat split.
Qed.

(** ** Stereo layouts *)

(** X4.  For a top-and-bottom or a side-by-side (half) mode the
    framebuffer has the size of the mode, and the two eye boxes split it:
    every pixel of the framebuffer lies in the left box or in the right
    box, never in both, and neither box reaches outside the framebuffer.
    A top-and-bottom mode is cut across: both boxes have the full width,
    the left box is on top, the right box starts on the line where the left
    one ends, and with an odd height the right box is the one that is a
    line higher.  A side-by-side mode is cut down the middle in the same
    way: both boxes have the full height, the right box starts in the
    column where the left one ends, and with an odd width the right box is
    the one that is a column wider. *)
Theorem stereo_halves_split (mode : drmModeModeInfo) :
  mode_fields_in_range mode ->
  stereo_format mode = DRM_MODE_FLAG_3D_TOP_AND_BOTTOM
  \/ stereo_format mode = DRM_MODE_FLAG_3D_SIDE_BY_SIDE_HALF ->
  exists l : stereo_fb_layout,
    stereo_fb_layout_from_mode mode = Ok l
    /\ layout_fb_width l = hdisplay mode
    /\ layout_fb_height l = vdisplay mode
    /\ (forall x y : Z,
           (0 <= x < layout_fb_width l /\ 0 <= y < layout_fb_height l) <->
           (in_box (layout_left l) x y \/ in_box (layout_right l) x y))
    /\ (forall x y : Z,
           ~ (in_box (layout_left l) x y /\ in_box (layout_right l) x y))
    /\ box_width (layout_left l) * box_height (layout_left l)
       <= box_width (layout_right l) * box_height (layout_right l)
       <= box_width (layout_left l) * box_height (layout_left l)
          + Z.max (hdisplay mode) (vdisplay mode)
    /\ (stereo_format mode = DRM_MODE_FLAG_3D_TOP_AND_BOTTOM ->
        box_x (layout_left l) = 0 /\ box_x (layout_right l) = 0
        /\ box_width (layout_left l) = hdisplay mode
        /\ box_width (layout_right l) = hdisplay mode
        /\ box_y (layout_left l) = 0
        /\ box_y (layout_right l) = box_height (layout_left l)
        /\ box_height (layout_left l) + box_height (layout_right l)
           = vdisplay mode
        /\ box_height (layout_left l) <= box_height (layout_right l)
           <= box_height (layout_left l) + 1)
    /\ (stereo_format mode = DRM_MODE_FLAG_3D_SIDE_BY_SIDE_HALF ->
        box_y (layout_left l) = 0 /\ box_y (layout_right l) = 0
        /\ box_height (layout_left l) = vdisplay mode
        /\ box_height (layout_right l) = vdisplay mode
        /\ box_x (layout_left l) = 0
        /\ box_x (layout_right l) = box_width (layout_left l)
        /\ box_width (layout_left l) + box_width (layout_right l)
           = hdisplay mode
        /\ box_width (layout_left l) <= box_width (layout_right l)
           <= box_width (layout_left l) + 1).
Proof.
  intros (Hh & Hv & Ht & Hf) Hfmt.
  unfold stereo_format in *. unfold stereo_fb_layout_from_mode.
  cbv zeta.
  pose proof (Z.div_mod (vdisplay mode) 2 ltac:(lia)) as Hvd.
  pose proof (Z.mod_pos_bound (vdisplay mode) 2 ltac:(lia)) as Hvm.
  pose proof (Z.div_mod (hdisplay mode) 2 ltac:(lia)) as Hhd.
  pose proof (Z.mod_pos_bound (hdisplay mode) 2 ltac:(lia)) as Hhm.
  rewrite !Z.quot_div_nonneg by lia.
  destruct Hfmt as [-> | ->]; cbn [Z.eqb Pos.eqb];
    eexists; (split; [reflexivity|]);
    cbn [layout_fb_width layout_fb_height layout_left layout_right box_init];
    unfold in_box; cbn [box_x box_y box_width box_height box_init];
    (split; [reflexivity|]); (split; [reflexivity|]);
    (split; [intros x y; lia|]); (split; [intros x y; lia|]);
    (split; [nia|]);
    split; intros E; first [discriminate E | repeat split; lia].
Qed.

Lemma stereo_halves_split_witness :
  exists l : stereo_fb_layout,
    stereo_fb_layout_from_mode (mk_mode 1920 1081 1125 DRM_MODE_FLAG_3D_TOP_AND_BOTTOM)
    = Ok l
    /\ box_height (layout_left l) = 540 /\ box_height (layout_right l) = 541.
Proof.
  destruct (stereo_halves_split
              (mk_mode 1920 1081 1125 DRM_MODE_FLAG_3D_TOP_AND_BOTTOM))
    as (l & Hl & _).
  - unfold mode_fields_in_range. repeat split; vm_compute; congruence.
  - left. reflexivity.
  - exists l. split; [exact Hl|].
    vm_compute in Hl. injection Hl as <-. split; reflexivity.
Defined.

(** X5.  For a frame-packing mode whose total height is at least its
    visible height, the framebuffer is as wide as the mode and
    [vdisplay + vtotal] high; both eye boxes have the size of the mode and
    lie inside the framebuffer, the left one at the top, the right one at
    the bottom; the [vtotal - vdisplay] lines between them belong to
    neither. *)
Theorem stereo_frame_packing (mode : drmModeModeInfo) :
  mode_fields_in_range mode ->
  stereo_format mode = DRM_MODE_FLAG_3D_FRAME_PACKING ->
  vdisplay mode <= vtotal mode ->
  exists l : stereo_fb_layout,
    stereo_fb_layout_from_mode mode = Ok l
    /\ layout_fb_width l = hdisplay mode
    /\ layout_fb_height l = vdisplay mode + vtotal mode
    /\ box_width (layout_left l) = hdisplay mode
    /\ box_height (layout_left l) = vdisplay mode
    /\ box_width (layout_right l) = hdisplay mode
    /\ box_height (layout_right l) = vdisplay mode
    /\ box_y (layout_left l) = 0
    /\ box_y (layout_right l) + box_height (layout_right l)
       = layout_fb_height l
    /\ (forall x y : Z,
           in_box (layout_left l) x y \/ in_box (layout_right l) x y ->
           0 <= x < layout_fb_width l /\ 0 <= y < layout_fb_height l)
    /\ (forall x y : Z,
           vdisplay mode <= y < vtotal mode ->
           ~ in_box (layout_left l) x y /\ ~ in_box (layout_right l) x y).
Proof.
  intros (Hh & Hv & Ht & Hf) Hfmt Hvt.
  unfold stereo_format in Hfmt. unfold stereo_fb_layout_from_mode.
  cbv zeta. rewrite Hfmt. cbn [Z.eqb Pos.eqb].
  eexists. split; [reflexivity|].
  cbn [layout_fb_width layout_fb_height layout_left layout_right box_init].
  unfold in_box. cbn [box_x box_y box_width box_height box_init].
  repeat (split; [lia|]). lia.
Qed.

Lemma stereo_frame_packing_witness :
  exists l : stereo_fb_layout,
    stereo_fb_layout_from_mode
      (mk_mode 1920 1080 1125 DRM_MODE_FLAG_3D_FRAME_PACKING) = Ok l
    /\ layout_fb_height l = 2205.
Proof.
  destruct (stereo_frame_packing
              (mk_mode 1920 1080 1125 DRM_MODE_FLAG_3D_FRAME_PACKING))
    as (l & Hl & _ & Hh & _).
  - unfold mode_fields_in_range. repeat split; vm_compute; congruence.
  - reflexivity.
  - vm_compute. congruence.
  - exists l. split; [exact Hl | exact Hh].
Defined.

(** X6.  [stereo_fb_layout_from_mode] returns a layout exactly for the three
    stereo formats it knows and aborts for every other value of the 3D
    flags, a mode that is not stereo included; the flags outside the 3D
    mask play no part. *)
Theorem stereo_layout_domain (mode : drmModeModeInfo) :
  (returns (stereo_fb_layout_from_mode mode) <->
   In (stereo_format mode)
     [DRM_MODE_FLAG_3D_TOP_AND_BOTTOM; DRM_MODE_FLAG_3D_SIDE_BY_SIDE_HALF;
      DRM_MODE_FLAG_3D_FRAME_PACKING])
  /\ (stereo_fb_layout_from_mode mode = Abort <->
      ~ In (stereo_format mode)
          [DRM_MODE_FLAG_3D_TOP_AND_BOTTOM;
           DRM_MODE_FLAG_3D_SIDE_BY_SIDE_HALF;
           DRM_MODE_FLAG_3D_FRAME_PACKING])
  /\ (forall mode' : drmModeModeInfo,
         hdisplay mode' = hdisplay mode -> vdisplay mode' = vdisplay mode ->
         vtotal mode' = vtotal mode ->
         stereo_format mode' = stereo_format mode ->
         stereo_fb_layout_from_mode mode' = stereo_fb_layout_from_mode mode).
Proof.
  unfold stereo_fb_layout_from_mode, stereo_format, returns. cbn [In].
  split; [|split].
  - destruct (Z.eqb_spec (Z.land (flags mode) DRM_MODE_FLAG_3D_MASK)
                DRM_MODE_FLAG_3D_TOP_AND_BOTTOM) as [H1 | H1];
      [split; [intros _; intuition congruence | eauto]|].
    destruct (Z.eqb_spec (Z.land (flags mode) DRM_MODE_FLAG_3D_MASK)
                DRM_MODE_FLAG_3D_SIDE_BY_SIDE_HALF) as [H2 | H2];
      [split; [intros _; intuition congruence | eauto]|].
    destruct (Z.eqb_spec (Z.land (flags mode) DRM_MODE_FLAG_3D_MASK)
                DRM_MODE_FLAG_3D_FRAME_PACKING) as [H3 | H3];
      [split; [intros _; intuition congruence | eauto]|].
    cbn. split; [intros [l Hl]; discriminate Hl|].
    intros [H | [H | [H | []]]]; congruence.
  - destruct (Z.eqb_spec (Z.land (flags mode) DRM_MODE_FLAG_3D_MASK)
                DRM_MODE_FLAG_3D_TOP_AND_BOTTOM) as [H1 | H1];
      [split; [discriminate | intros H; exfalso; apply H; intuition congruence]|].
    destruct (Z.eqb_spec (Z.land (flags mode) DRM_MODE_FLAG_3D_MASK)
                DRM_MODE_FLAG_3D_SIDE_BY_SIDE_HALF) as [H2 | H2];
      [split; [discriminate | intros H; exfalso; apply H; intuition congruence]|].
    destruct (Z.eqb_spec (Z.land (flags mode) DRM_MODE_FLAG_3D_MASK)
                DRM_MODE_FLAG_3D_FRAME_PACKING) as [H3 | H3];
      [split; [discriminate | intros H; exfalso; apply H; intuition congruence]|].
    cbn. split; [|reflexivity].
    intros _ [H | [H | [H | []]]]; congruence.
  - intros mode' -> -> -> ->. reflexivity.
Qed.

(** ** Allocation *)

Lemma planar_size_loop_None (fd : device) (height : Z)
    (format : format_desc_struct) (tiling stride : Z) (n : nat) :
  forall (plane size_ret size' : Z) (res : option (list Z)),
    planar_size_loop fd height format tiling stride n plane size_ret None
    = Ok (size', res) ->
    res = None.
Proof.
  induction n as [|n IH]; intros plane size_ret size' res H.
  - cbn in H. congruence.
  - cbn [planar_size_loop option_map] in H.
    destruct (igt_get_fb_tile_size fd tiling (plane_bpp_at format plane))
      as [[tw th]| | | |]; cbn [obind] in H; try discriminate H.
    exact (IH _ _ _ _ H).
Qed.

(** The size the second loop computes does not depend on [offsets]. *)
Lemma planar_size_loop_size (fd : device) (height : Z)
    (format : format_desc_struct) (tiling stride : Z) (n : nat) :
  forall (plane size_ret : Z) (offsets : option (list Z)),
    omap fst (planar_size_loop fd height format tiling stride n plane
                size_ret offsets)
    = omap fst (planar_size_loop fd height format tiling stride n plane
                  size_ret None).
Proof.
  induction n as [|n IH]; intros plane size_ret offsets.
  - reflexivity.
  - cbn [planar_size_loop option_map].
    destruct (igt_get_fb_tile_size fd tiling (plane_bpp_at format plane))
      as [[tw th]| | | |]; cbn [obind]; try reflexivity.
    apply IH.
Qed.

Lemma calc_fb_size_planar_size (fd : device) (width height : Z)
    (format : format_desc_struct) (tiling : Z) (offsets : option (list Z)) :
  omap (fun r => (fst (fst r), snd (fst r)))
    (calc_fb_size_planar fd width height format tiling offsets)
  = omap (fun r => (fst (fst r), snd (fst r)))
      (calc_fb_size_planar fd width height format tiling None).
Proof.
  unfold calc_fb_size_planar.
  destruct (planar_stride_loop fd width format tiling
              (Z.to_nat (planes format)) 0 0) as [stride| | | |];
    cbn [obind omap]; try reflexivity.
  pose proof (planar_size_loop_size fd height format tiling stride
                (Z.to_nat (planes format)) 0 0 offsets) as H.
  destruct (planar_size_loop fd height format tiling stride
              (Z.to_nat (planes format)) 0 0 offsets) as [[s o]| | | |];
    destruct (planar_size_loop fd height format tiling stride
                (Z.to_nat (planes format)) 0 0 None) as [[s' o']| | | |];
    cbn [omap obind fst] in H; try discriminate H; try reflexivity.
  injection H as ->. reflexivity.
Qed.

Lemma calc_fb_size_planar_None (fd : device) (width height : Z)
    (format : format_desc_struct) (tiling size stride : Z)
    (res : option (list Z)) :
  calc_fb_size_planar fd width height format tiling None
  = Ok (size, stride, res) -> res = None.
Proof.
  unfold calc_fb_size_planar. intros H.
  destruct (planar_stride_loop fd width format tiling
              (Z.to_nat (planes format)) 0 0) as [st| | | |];
    cbn [obind] in H; try discriminate H.
  destruct (planar_size_loop fd height format tiling st
              (Z.to_nat (planes format)) 0 0 None) as [[s o]| | | |] eqn:Hl;
    cbn [obind] in H; try discriminate H.
  apply planar_size_loop_None in Hl. subst o.
  injection H as _ _ <-. reflexivity.
Qed.

(** A planar request with no [offsets] array never returns: the NV12
    planes are painted through [offsets]. *)
Lemma create_bo_for_fb_planar_null (fuel : nat) (k : kernel) (fd : device)
    (width height : Z) (f : format_desc_struct)
    (tiling size stride size_ret stride_ret : Z) (is_dumb : bool)
    (r : Z * Z * Z * option (list Z) * bool) :
  In f format_desc -> planes f > 1 ->
  create_bo_for_fb fuel k fd width height (Some f) tiling size stride
    size_ret stride_ret None is_dumb <> Ok r.
Proof.
  intros Hf Hp H. unfold create_bo_for_fb in H.
  destruct (Z.gtb_spec (planes f) 1) as [_ | ?]; [|lia].
  rewrite !orb_true_r in H. cbn [obind] in H.
  destruct (calc_fb_size_planar fd width height f tiling None)
    as [[[cs cst] o]| | | |] eqn:Hc; cbn [obind] in H; try discriminate H.
  apply calc_fb_size_planar_None in Hc. subst o.
  destruct (is_i915_device fd); cbn [obind igt_require] in H;
    [|discriminate H].
  destruct (igt_fb_mod_to_tiling tiling); cbn [obind] in H;
    try discriminate H.
  destruct (igt_assert _); cbn [obind] in H; try discriminate H.
  cbn in Hf.
  destruct Hf as [<- | [<- | [<- | [<- | [<- | []]]]]]; cbn in Hp; try lia.
  cbn in H. discriminate H.
Qed.

(** X7.  [igt_create_bo_with_dimensions] passes no [offsets] array.  So it
    returns a buffer only on the dumb path: for a single-plane format with
    linear layout and no stride given, the buffer, stride and size that
    [kmstest_dumb_create] answers.  For a single-plane format with a
    modifier or a stride the call writes through the null pointer before
    anything is allocated, on every device. *)
Theorem create_bo_with_dimensions_dumb_only (fuel : nat) (k : kernel)
    (fd : device) (width height format modifier stride : Z)
    (size_ret stride_ret : Z) (is_dumb : bool) :
  (forall (bo size stride' : Z) (dumb : bool),
      igt_create_bo_with_dimensions fuel k fd width height format modifier
        stride size_ret stride_ret is_dumb = Ok (bo, size, stride', dumb) ->
      modifier = 0 /\ stride = 0 /\ dumb = true
      /\ exists f : format_desc_struct,
           lookup_drm_format format = Some f /\ planes f <= 1
           /\ kmstest_dumb_create k width height (bpp f)
              = (bo, stride', size))
  /\ (forall f : format_desc_struct,
         lookup_drm_format format = Some f -> planes f <= 1 ->
         modifier <> 0 \/ stride <> 0 ->
         igt_create_bo_with_dimensions fuel k fd width height format
           modifier stride size_ret stride_ret is_dumb = Fault).
Proof.
  unfold igt_create_bo_with_dimensions. split.
  - intros bo size stride' dumb H.
    destruct (lookup_drm_format format) as [f|] eqn:Hl;
      [|discriminate H].
    destruct (create_bo_for_fb fuel k fd width height (Some f) modifier 0
                stride size_ret stride_ret None is_dumb)
      as [[[[[bo0 sz0] st0] o0] d0]| | | |] eqn:Hc; cbn [obind] in H;
      try discriminate H.
    injection H as -> -> -> ->.
    destruct (Z.gtb_spec (planes f) 1) as [Hp | Hp].
    { exfalso. apply lookup_drm_format_cases in Hl as [Hf _].
      exact (create_bo_for_fb_planar_null _ _ _ _ _ _ _ _ _ _ _ _ _ Hf
               ltac:(lia) Hc). }
    unfold create_bo_for_fb in Hc.
    change (0 =? 0) with true in Hc. cbn [negb orb] in Hc.
    destruct (Z.gtb_spec (planes f) 1) as [? | _]; [lia|].
    destruct (Z.eqb_spec modifier 0) as [Hm | Hm];
      destruct (Z.eqb_spec stride 0) as [Hs | Hs];
      cbn [negb orb obind] in Hc; try discriminate Hc.
    destruct (kmstest_dumb_create k width height (bpp f))
      as [[bo' st'] sz'] eqn:Hk.
    injection Hc as <- <- <- _ <-.
    split; [exact Hm|]. split; [exact Hs|]. split; [reflexivity|].
    exists f. split; [reflexivity|]. split; [exact Hp | exact Hk].
  - intros f Hl Hp Hms. rewrite Hl. unfold create_bo_for_fb.
    change (0 =? 0) with true. cbn [negb orb].
    destruct (Z.gtb_spec (planes f) 1) as [? | _]; [lia|].
    destruct (Z.eqb_spec modifier 0) as [Hm | Hm];
      destruct (Z.eqb_spec stride 0) as [Hs | Hs];
      cbn [negb orb obind]; try reflexivity.
    exfalso. destruct Hms; contradiction.
Qed.

(** ** Created framebuffers *)

Lemma create_bo_for_fb_cases (fuel : nat) (k : kernel) (fd : device)
    (width height : Z) (f : format_desc_struct)
    (tiling size stride size_ret stride_ret : Z) (offs : list Z)
    (is_dumb : bool) (bo size' stride' : Z) (res : option (list Z))
    (dumb : bool) :
  create_bo_for_fb fuel k fd width height (Some f) tiling size stride
    size_ret stride_ret (Some offs) is_dumb
  = Ok (bo, size', stride', res, dumb) ->
  (dumb = true /\ tiling = 0 /\ size = 0 /\ stride = 0 /\ planes f <= 1
   /\ kmstest_dumb_create k width height (bpp f) = (bo, stride', size'))
  \/ (dumb = false
      /\ ~ (tiling = 0 /\ size = 0 /\ stride = 0 /\ planes f <= 1)
      /\ is_intel fd = true
      /\ returns (igt_fb_mod_to_tiling tiling)
      /\ bo = gem_create k size'
      /\ exists cs cst : Z,
           omap (fun r => (fst (fst r), snd (fst r)))
             (if planes f >? 1
              then calc_fb_size_planar fd width height f tiling None
              else omap (fun p => (p, @None (list Z)))
                     (calc_fb_size_packed fuel fd width height f tiling))
           = Ok (cs, cst)
           /\ size' = (if size =? 0 then cs else size)
           /\ stride' = (if stride =? 0 then cst else stride)).
Proof.
  unfold create_bo_for_fb. intros H.
  destruct (Z.eqb_spec tiling 0) as [Ht | Ht];
    destruct (Z.eqb_spec size 0) as [Hz | Hz];
    destruct (Z.eqb_spec stride 0) as [Hs | Hs];
    destruct (Z.gtb_spec (planes f) 1) as [Hp | Hp];
    cbn [negb orb] in H;
    try (left;
         destruct (kmstest_dumb_create k width height (bpp f))
           as [[bo' st'] sz'];
         injection H as <- <- <- _ <-;
         repeat split; solve [assumption | lia]);
    right.
  all: match type of H with
       | obind (obind (calc_fb_size_planar ?a ?b ?c ?d ?e (Some ?o)) _) _ = _ =>
           pose proof (calc_fb_size_planar_size a b c d e (Some o)) as Hsz;
           destruct (calc_fb_size_planar a b c d e (Some o))
             as [[[cs cst] o']| | | |]; cbn [obind] in H;
           try discriminate H;
           destruct (calc_fb_size_planar a b c d e None)
             as [[[cs0 cst0] o0]| | | |]; cbn [omap obind fst snd] in Hsz;
           try discriminate Hsz;
           injection Hsz as <- <-
       | _ =>
           cbn [obind] in H;
           destruct (calc_fb_size_packed fuel fd width height f tiling)
             as [[cs cst]| | | |]; cbn [obind] in H; try discriminate H
       end.
  all: unfold is_i915_device in H;
    destruct (is_intel fd); cbn [obind igt_require] in H;
    [|discriminate H];
    destruct (igt_fb_mod_to_tiling tiling) as [t| | | |] eqn:Hmod;
    cbn [obind] in H; try discriminate H;
    destruct (igt_assert _); cbn [obind] in H; try discriminate H;
    destruct (if drm_id f =? DRM_FORMAT_NV12 then _ else _);
    cbn [obind] in H; try discriminate H;
    injection H as <- <- <- _ <-;
    (split; [reflexivity|]); (split; [intros (? & ? & ? & ?); lia|]);
    (split; [reflexivity|]); (split; [exists t; reflexivity|]);
    (split; [reflexivity|]);
    exists cs, cst; cbn [omap obind fst snd];
    repeat split; reflexivity.
Qed.

(** X8.  A framebuffer that [igt_create_fb_with_bo_size] returns and that
    is no dumb buffer was created on an Intel device, for a modifier
    [igt_fb_mod_to_tiling] knows, and is laid out as [igt_calc_fb_size]
    says for the same dimensions, format and tiling: the calculator
    returns, the size is the given [bo_size] or, when that is 0, the
    calculated size, and likewise for the stride. *)
Theorem created_fb_matches_calculator (fuel : nat) (k : kernel) (fd : device)
    (width height format tiling bo_size bo_stride : Z) (fb : igt_fb) :
  igt_create_fb_with_bo_size fuel k fd width height format tiling
    bo_size bo_stride = Ok fb ->
  fb_is_dumb fb = false ->
  is_intel fd = true
  /\ returns (igt_fb_mod_to_tiling tiling)
  /\ exists cs cst : Z,
       igt_calc_fb_size fuel fd width height format tiling = Ok (cs, cst)
       /\ fb_size fb = (if bo_size =? 0 then cs else bo_size)
       /\ fb_stride fb = (if bo_stride =? 0 then cst else bo_stride).
Proof.
  unfold igt_create_fb_with_bo_size, igt_calc_fb_size. intros H Hd.
  destruct (lookup_drm_format format) as [f|]; [|discriminate H].
  destruct (create_bo_for_fb fuel k fd width height (Some f) tiling bo_size
              bo_stride 0 0 (Some [0; 0; 0; 0]) false)
    as [[[[[bo sz] st] o] d]| | | |] eqn:Hc; cbn [obind] in H;
    try discriminate H.
  destruct (igt_assert _); cbn [obind] in H; try discriminate H.
  destruct (kms_addfb _ _ _ _ _ _ _ _); cbn [obind] in H; try discriminate H.
  destruct (plane_fields_loop _ _ _ _ _ _) as [[pb ph] pw].
  injection H as <-. cbn [fb_is_dumb fb_size fb_stride] in *. subst d.
  apply create_bo_for_fb_cases in Hc
    as [(Hd & _) | (_ & _ & Hi & Hm & _ & cs & cst & Hcalc & -> & ->)];
    [discriminate Hd|].
  split; [exact Hi|]. split; [exact Hm|]. exists cs, cst.
  split; [|split; reflexivity].
  destruct (planes f >? 1).
  - destruct (calc_fb_size_planar fd width height f tiling None)
      as [[[c1 c2] c3]| | | |]; cbn [omap obind fst snd] in Hcalc |- *;
      congruence.
  - destruct (calc_fb_size_packed fuel fd width height f tiling)
      as [[c1 c2]| | | |]; cbn [omap obind fst snd] in Hcalc |- *; congruence.
Qed.

Lemma created_fb_matches_calculator_witness :
  exists fb : igt_fb,
    igt_create_fb_with_bo_size 0 test_kernel (mk_device true 9 false)
      1920 1080 DRM_FORMAT_XRGB8888 LOCAL_I915_FORMAT_MOD_X_TILED 0 0 = Ok fb
    /\ igt_calc_fb_size 0 (mk_device true 9 false) 1920 1080
         DRM_FORMAT_XRGB8888 LOCAL_I915_FORMAT_MOD_X_TILED
       = Ok (fb_size fb, fb_stride fb).
Proof.
  assert (Hr : exists fb : igt_fb,
             igt_create_fb_with_bo_size 0 test_kernel (mk_device true 9 false)
               1920 1080 DRM_FORMAT_XRGB8888 LOCAL_I915_FORMAT_MOD_X_TILED
               0 0 = Ok fb /\ fb_is_dumb fb = false).
  { vm_compute. eexists. split; reflexivity. }
  destruct Hr as (fb & Hfb & Hd). exists fb. split; [exact Hfb|].
  destruct (created_fb_matches_calculator _ _ _ _ _ _ _ _ _ _ Hfb Hd)
    as (_ & _ & cs & cst & Hc & Hs & Ht).
  cbn [Z.eqb] in Hs, Ht. rewrite Hs, Ht. exact Hc.
Defined.

(** X9.  A framebuffer that [igt_create_fb_with_bo_size] returns is a dumb
    buffer exactly when the request is linear, names no size and no
    stride, and the format has a single plane; its buffer, stride and size
    are then what [kmstest_dumb_create] answers for the bits per pixel of
    the format.  On a device that is not an Intel one no other framebuffer
    is ever returned. *)
Theorem created_fb_dumb (fuel : nat) (k : kernel) (fd : device)
    (width height format tiling bo_size bo_stride : Z) (fb : igt_fb) :
  igt_create_fb_with_bo_size fuel k fd width height format tiling
    bo_size bo_stride = Ok fb ->
  exists f : format_desc_struct,
    lookup_drm_format format = Some f
    /\ (fb_is_dumb fb = true <->
        tiling = 0 /\ bo_size = 0 /\ bo_stride = 0 /\ planes f <= 1)
    /\ (fb_is_dumb fb = true ->
        exists bo : Z,
          kmstest_dumb_create k width height (bpp f)
          = (bo, fb_stride fb, fb_size fb)
          /\ fb_gem_handle fb = u32 bo)
    /\ (is_intel fd = false -> fb_is_dumb fb = true)
    /\ 0 < fb_gem_handle fb < 2 ^ 32.
Proof.
  unfold igt_create_fb_with_bo_size. intros H.
  destruct (lookup_drm_format format) as [f|]; [|discriminate H].
  exists f. split; [reflexivity|].
  destruct (create_bo_for_fb fuel k fd width height (Some f) tiling bo_size
              bo_stride 0 0 (Some [0; 0; 0; 0]) false)
    as [[[[[bo sz] st] o] d]| | | |] eqn:Hc; cbn [obind] in H;
    try discriminate H.
  destruct (Z.gtb_spec (u32 bo) 0) as [Hbo | Hbo];
    cbn [igt_assert obind] in H; try discriminate H.
  destruct (kms_addfb _ _ _ _ _ _ _ _); cbn [obind] in H; try discriminate H.
  destruct (plane_fields_loop _ _ _ _ _ _) as [[pb ph] pw].
  injection H as <-.
  cbn [fb_is_dumb fb_size fb_stride fb_gem_handle].
  pose proof (u32_range bo) as Hu.
  apply create_bo_for_fb_cases in Hc
    as [(-> & Ht & Hz & Hs & Hp & Hk) | (-> & Hn & Hi & _)].
  - split; [tauto|]. split; [intros _; exists bo; split; [exact Hk|reflexivity]|].
    split; [reflexivity | lia].
  - split; [split; [discriminate | intros Hall; contradiction]|].
    split; [discriminate|]. split; [congruence | lia].
Qed.

Lemma created_fb_dumb_witness :
  exists fb : igt_fb,
    igt_create_fb_with_bo_size 0 test_kernel (mk_device false 0 false)
      64 64 DRM_FORMAT_ARGB8888 LOCAL_DRM_FORMAT_MOD_NONE 0 0 = Ok fb
    /\ fb_is_dumb fb = true.
Proof.
  assert (Hr : exists fb : igt_fb,
             igt_create_fb_with_bo_size 0 test_kernel (mk_device false 0 false)
               64 64 DRM_FORMAT_ARGB8888 LOCAL_DRM_FORMAT_MOD_NONE 0 0
             = Ok fb).
  { vm_compute. eexists. reflexivity. }
  destruct Hr as (fb & Hfb). exists fb. split; [exact Hfb|].
  destruct (created_fb_dumb _ _ _ _ _ _ _ _ _ _ Hfb)
    as (f & _ & _ & _ & Hni & _).
  apply Hni. reflexivity.
Defined.

(** ** Buffers large enough *)

Lemma double_until_ge (fuel : nat) :
  forall x v r : Z, double_until fuel x v = Ok r -> u32 v <= r.
Proof.
  induction fuel as [|fuel IH]; intros x v r H; [discriminate H|].
  cbn [double_until] in H.
  destruct (Z.ltb_spec x (u32 v)) as [Hlt | Hge].
  - exact (IH _ _ _ H).
  - injection H as <-. exact Hge.
Qed.

Lemma tile_size_bounds (fd : device) (tiling fb_bpp tw th : Z) :
  igt_get_fb_tile_size fd tiling fb_bpp = Ok (tw, th) ->
  exists a b : Z, 0 <= a <= 9 /\ 0 <= b <= 6 /\ tw = 2 ^ a /\ th = 2 ^ b.
Proof.
  unfold igt_get_fb_tile_size, igt_require_intel, igt_require, igt_assert.
  intros H.
  repeat match type of H with
  | (if ?c then _ else _) = _ => destruct c; cbn [obind] in H
  | obind (if ?c then _ else _) _ = _ => destruct c; cbn [obind] in H
  end; try discriminate H; injection H as <- <-;
    first [ exists 6, 0; repeat split; lia
          | exists 7, 4; repeat split; lia
          | exists 9, 3; repeat split; lia
          | exists 7, 5; repeat split; lia
          | exists 6, 6; repeat split; lia
          | exists 8, 4; repeat split; lia ].
Qed.

(** X10.  The buffer the calculator sizes for a single-plane format holds
    the picture, on every path (linear, tiled, legacy power-of-two): when
    [igt_calc_fb_size] returns for a width whose rows are below 2^31 bytes
    and the returned stride times the height (plus one tile row of room)
    is below 2^31, a row of pixels fits in the stride and [height] rows of
    that stride fit in the size. *)
Theorem packed_buffer_holds_rows (fuel : nat) (fd : device)
    (width height drm_format tiling : Z) (format : format_desc_struct)
    (size stride : Z) :
  lookup_drm_format drm_format = Some format ->
  planes format <= 1 ->
  0 <= width -> 0 <= height ->
  width * (bpp format / 8) < 2 ^ 31 ->
  igt_calc_fb_size fuel fd width height drm_format tiling
    = Ok (size, stride) ->
  stride * (height + 64) < 2 ^ 31 ->
  width * (bpp format / 8) <= stride /\ stride * height <= size.
Proof.
  intros Hl Hp Hw Hh Hbw H Hov. unfold igt_calc_fb_size in H.
  rewrite Hl in H.
  destruct (Z.gtb_spec (planes format) 1) as [? | _]; [lia|].
  assert (Hq : Z.quot (bpp format) 8 = bpp format / 8 /\ 0 <= bpp format / 8).
  { apply lookup_drm_format_cases in Hl as [Hin _]. cbn in Hin.
    destruct Hin as [<- | [<- | [<- | [<- | [<- | []]]]]];
      split; first [reflexivity | discriminate]. }
  destruct Hq as [Hq Hcpp].
  unfold calc_fb_size_packed in H. rewrite Hq in H.
  assert (Hbw0 : 0 <= width * (bpp format / 8)) by nia.
  assert (Hs32 : s32 (width * (bpp format / 8)) = width * (bpp format / 8))
    by (apply s32_small; lia).
  rewrite Hs32 in H.
  destruct (igt_get_fb_tile_size fd tiling (bpp format))
    as [[tw th]| | | |] eqn:Ht; cbn [obind] in H; try discriminate H.
  destruct (tile_size_bounds _ _ _ _ _ Ht) as (a & b & Ha & Hb & -> & ->).
  destruct (negb (tiling =? LOCAL_DRM_FORMAT_MOD_NONE) && (intel_gen fd <=? 3)).
  - destruct (double_until fuel 512 (width * (bpp format / 8)))
      as [st| | | |] eqn:Hst; cbn [obind] in H; try discriminate H.
    destruct (double_until fuel (1024 * 1024) (s32 (u32 (st * height))))
      as [sz| | | |] eqn:Hsz; cbn [obind] in H; try discriminate H.
    injection H as <- <-.
    apply double_until_ge in Hst, Hsz.
    rewrite u32_small in Hst by lia.
    assert (Hst0 : 0 <= st) by lia.
    assert (Hprod : 0 <= st * height < 2 ^ 31) by nia.
    rewrite (u32_small (st * height)), s32_small, u32_small in Hsz by lia.
    split; assumption.
  - injection H as <- <-.
    assert (Hpa : 0 < 2 ^ a <= 2 ^ 9).
    { split; [apply Z.pow_pos_nonneg; lia | apply Z.pow_le_mono_r; lia]. }
    assert (Hpb : 0 < 2 ^ b <= 2 ^ 6).
    { split; [apply Z.pow_pos_nonneg; lia | apply Z.pow_le_mono_r; lia]. }
    rewrite !ALIGN_pow2 in * by lia.
    destruct (round_up_spec (width * (bpp format / 8)) (2 ^ a) ltac:(lia))
      as [Hra _].
    destruct (round_up_spec height (2 ^ b) ltac:(lia)) as [Hrb _].
    change (2 ^ 9) with 512 in Hpa. change (2 ^ 6) with 64 in Hpb.
    rewrite (u32_small (round_up (width * (bpp format / 8)) (2 ^ a))) in *
      by lia.
    set (st := round_up (width * (bpp format / 8)) (2 ^ a)) in *.
    destruct (Z.eq_dec st 0) as [Hz | Hnz].
    { rewrite Hz, !Z.mul_0_l. change (u32 0) with 0. lia. }
    assert (Hh64 : height + 64 < 2 ^ 31) by nia.
    rewrite (u32_small (round_up height (2 ^ b))) by lia.
    assert (Hprod : 0 <= st * round_up height (2 ^ b) < 2 ^ 31) by nia.
    rewrite u32_small by lia.
    split; [lia | nia].
Qed.

Lemma packed_buffer_holds_rows_witness :
  igt_calc_fb_size 23 (mk_device true 3 false) 1366 768 DRM_FORMAT_RGB565
    LOCAL_I915_FORMAT_MOD_X_TILED = Ok (4194304, 4096)
  /\ 1366 * (16 / 8) <= 4096 /\ 4096 * 768 <= 4194304.
Proof.
  assert (Hc : igt_calc_fb_size 23 (mk_device true 3 false) 1366 768
                 DRM_FORMAT_RGB565 LOCAL_I915_FORMAT_MOD_X_TILED
               = Ok (4194304, 4096)) by (vm_compute; reflexivity).
  split; [exact Hc|].
  exact (packed_buffer_holds_rows 23 (mk_device true 3 false) 1366 768
           DRM_FORMAT_RGB565 LOCAL_I915_FORMAT_MOD_X_TILED
           (mk_format DRM_FORMAT_RGB565 CAIRO_FORMAT_RGB16_565 "RGB565"
              16 16 0 [0; 0; 0; 0])
           4194304 4096 eq_refl ltac:(cbn; lia) ltac:(lia) ltac:(lia)
           ltac:(vm_compute; congruence) Hc ltac:(vm_compute; congruence)).
Defined.

(** ** The layout of an NV12 buffer *)

Lemma ALIGN_tile (v a : Z) :
  0 <= a <= 9 -> 0 <= v < 2 ^ 31 ->
  v <= ALIGN v (2 ^ a) < v + 512.
Proof.
  intros Ha Hv.
  assert (Hpa : 0 < 2 ^ a <= 2 ^ 9).
  { split; [apply Z.pow_pos_nonneg; lia | apply Z.pow_le_mono_r; lia]. }
  change (2 ^ 9) with 512 in Hpa.
  rewrite ALIGN_pow2 by lia.
  destruct (round_up_spec v (2 ^ a) ltac:(lia)) as [Hr _].
  rewrite u32_small by lia. lia.
Qed.

Lemma ALIGN_tile_eq (v a : Z) :
  0 <= a <= 9 -> 0 <= v < 2 ^ 31 -> ALIGN v (2 ^ a) = round_up v (2 ^ a).
Proof.
  intros Ha Hv.
  assert (Hpa : 0 < 2 ^ a <= 2 ^ 9).
  { split; [apply Z.pow_pos_nonneg; lia | apply Z.pow_le_mono_r; lia]. }
  change (2 ^ 9) with 512 in Hpa.
  rewrite ALIGN_pow2 by lia.
  destruct (round_up_spec v (2 ^ a) ltac:(lia)) as [Hr _].
  apply u32_small. lia.
Qed.

(** The planar calculator on NV12, for a tiling whose tile sizes are
    known for the bits per pixel of the two planes: what it returns, in
    integers. *)
Lemma nv12_layout_exact (fd : device) (width height tiling : Z)
    (o0 o1 o2 o3 : Z) (tw0 th0 tw1 th1 : Z) :
  0 <= width < 2 ^ 15 -> 0 <= height < 2 ^ 15 ->
  igt_get_fb_tile_size fd tiling 8 = Ok (tw0, th0) ->
  igt_get_fb_tile_size fd tiling 16 = Ok (tw1, th1) ->
  let st := Z.max (round_up width tw0) (round_up ((width + 1) / 2 * 2) tw1) in
  let H0 := round_up height th0 in
  let H1 := round_up ((height + 1) / 2) th1 in
  calc_fb_size_planar fd width height NV12_desc tiling
    (Some [o0; o1; o2; o3])
  = Ok (st * H0 + st * H1, st, Some [0; st * H0; 0; 0])
  /\ height <= H0 /\ (height + 1) / 2 <= H1
  /\ width + width mod 2 <= st < 2 ^ 16
  /\ st * H0 + st * H1 < 2 ^ 32.
Proof.
  intros Hw Hh Ht0 Ht1. cbv zeta.
  unfold calc_fb_size_planar.
  change (Z.to_nat (planes NV12_desc)) with 2%nat.
  change (Z.max 0 (planes NV12_desc)) with 2.
  cbn [planar_stride_loop planar_size_loop].
  change (plane_bpp_at NV12_desc 0) with 8.
  change (plane_bpp_at NV12_desc (0 + 1)) with 16.
  rewrite Ht0, Ht1. cbn [obind].
  destruct (tile_size_bounds _ _ _ _ _ Ht0) as (a0 & b0 & Ha0 & Hb0 & -> & ->).
  destruct (tile_size_bounds _ _ _ _ _ Ht1) as (a1 & b1 & Ha1 & Hb1 & -> & ->).
  pose proof (Z.div_mod (width + 1) 2 ltac:(lia)) as Hwd.
  pose proof (Z.mod_pos_bound (width + 1) 2 ltac:(lia)) as Hwb.
  pose proof (Z.div_mod width 2 ltac:(lia)) as Hwd'.
  pose proof (Z.mod_pos_bound width 2 ltac:(lia)) as Hwb'.
  pose proof (Z.div_mod (height + 1) 2 ltac:(lia)) as Hhd.
  pose proof (Z.mod_pos_bound (height + 1) 2 ltac:(lia)) as Hhb.
  assert (Hps0 : planar_stride NV12_desc (u32 width) 0 = width).
  { unfold planar_stride, planar_width.
    change (plane_bpp_at NV12_desc 0) with 8.
    change ((drm_id NV12_desc =? DRM_FORMAT_NV12) && (0 =? 1)) with false.
    cbv iota. change (u32 (Z.quot 8 8)) with 1.
    rewrite Z.mul_1_r, (u32_small width) by lia. apply u32_small. lia. }
  assert (Hps1 : planar_stride NV12_desc (u32 width) (0 + 1)
                 = (width + 1) / 2 * 2).
  { unfold planar_stride, planar_width.
    change (plane_bpp_at NV12_desc (0 + 1)) with 16.
    change ((drm_id NV12_desc =? DRM_FORMAT_NV12) && (0 + 1 =? 1)) with true.
    cbv iota. change (u32 (Z.quot 16 8)) with 2.
    rewrite (u32_small width) by lia. rewrite (u32_small (width + 1)) by lia.
    apply u32_small. lia. }
  assert (Hph0 : planar_height NV12_desc (u32 height) 0 = height).
  { unfold planar_height.
    change ((drm_id NV12_desc =? DRM_FORMAT_NV12) && (0 =? 1)) with false.
    cbv iota. apply u32_small. lia. }
  assert (Hph1 : planar_height NV12_desc (u32 height) (0 + 1)
                 = (height + 1) / 2).
  { unfold planar_height.
    change ((drm_id NV12_desc =? DRM_FORMAT_NV12) && (0 + 1 =? 1)) with true.
    cbv iota.
    rewrite (u32_small height) by lia. rewrite (u32_small (height + 1)) by lia.
    reflexivity. }
  rewrite Hps0, Hps1, Hph0, Hph1.
  rewrite (ALIGN_tile_eq width a0), (ALIGN_tile_eq ((width + 1) / 2 * 2) a1),
    (ALIGN_tile_eq height b0), (ALIGN_tile_eq ((height + 1) / 2) b1) by lia.
  assert (Hpa0 : 0 < 2 ^ a0 <= 512).
  { split; [apply Z.pow_pos_nonneg; lia|].
    change 512 with (2 ^ 9). apply Z.pow_le_mono_r; lia. }
  assert (Hpa1 : 0 < 2 ^ a1 <= 512).
  { split; [apply Z.pow_pos_nonneg; lia|].
    change 512 with (2 ^ 9). apply Z.pow_le_mono_r; lia. }
  assert (Hpb0 : 0 < 2 ^ b0 <= 64).
  { split; [apply Z.pow_pos_nonneg; lia|].
    change 64 with (2 ^ 6). apply Z.pow_le_mono_r; lia. }
  assert (Hpb1 : 0 < 2 ^ b1 <= 64).
  { split; [apply Z.pow_pos_nonneg; lia|].
    change 64 with (2 ^ 6). apply Z.pow_le_mono_r; lia. }
  destruct (round_up_spec width (2 ^ a0) ltac:(lia)) as [Hs0 _].
  destruct (round_up_spec ((width + 1) / 2 * 2) (2 ^ a1) ltac:(lia))
    as [Hs1 _].
  destruct (round_up_spec height (2 ^ b0) ltac:(lia)) as [Hr0 _].
  destruct (round_up_spec ((height + 1) / 2) (2 ^ b1) ltac:(lia)) as [Hr1 _].
  set (s0 := round_up width (2 ^ a0)) in *.
  set (s1 := round_up ((width + 1) / 2 * 2) (2 ^ a1)) in *.
  set (H0 := round_up height (2 ^ b0)) in *.
  set (H1 := round_up ((height + 1) / 2) (2 ^ b1)) in *.
  set (st := Z.max s0 s1).
  assert (Hmax : (if (if 0 <? s0 then s0 else 0) <? s1
                  then s1 else if 0 <? s0 then s0 else 0) = st).
  { unfold st. destruct (Z.ltb_spec 0 s0);
      destruct (Z.ltb_spec s0 s1); destruct (Z.ltb_spec 0 s1); lia. }
  rewrite Hmax.
  assert (Hst : width + width mod 2 <= st < 2 ^ 15 + 513) by (unfold st; lia).
  clearbody st H0 H1.
  assert (Hp0 : 0 <= st * H0 < 2 ^ 31) by nia.
  assert (Hp1 : 0 <= st * H1 < 2 ^ 31) by nia.
  rewrite Z.add_0_l.
  rewrite !(u32_small (st * H0)) by lia.
  rewrite (u32_small (st * H1)) by lia.
  rewrite (u32_small (st * H0 + st * H1)) by lia.
  cbn [option_map obind].
  split; [reflexivity|].
  split; [lia|]. split; [lia|]. split; [lia | lia].
Qed.

(** The same, keeping the bounds only. *)
Lemma nv12_layout (fd : device) (width height tiling : Z)
    (o0 o1 o2 o3 : Z) (tw0 th0 tw1 th1 : Z) :
  0 <= width < 2 ^ 15 -> 0 <= height < 2 ^ 15 ->
  igt_get_fb_tile_size fd tiling 8 = Ok (tw0, th0) ->
  igt_get_fb_tile_size fd tiling 16 = Ok (tw1, th1) ->
  exists st H0 H1 : Z,
    calc_fb_size_planar fd width height NV12_desc tiling
      (Some [o0; o1; o2; o3])
    = Ok (st * H0 + st * H1, st, Some [0; st * H0; 0; 0])
    /\ height <= H0 /\ (height + 1) / 2 <= H1
    /\ width + width mod 2 <= st < 2 ^ 16
    /\ st * H0 + st * H1 < 2 ^ 32.
Proof.
  intros Hw Hh Ht0 Ht1.
  pose proof (nv12_layout_exact fd width height tiling o0 o1 o2 o3
                tw0 th0 tw1 th1 Hw Hh Ht0 Ht1) as H.
  cbv zeta in H. eexists _, _, _. exact H.
Qed.

(** The calculator returns on NV12 only where both tile sizes are known. *)
Lemma nv12_layout_tiles (fd : device) (width height tiling : Z)
    (offsets : option (list Z)) (r : Z * Z * option (list Z)) :
  calc_fb_size_planar fd width height NV12_desc tiling offsets = Ok r ->
  exists tw0 th0 tw1 th1 : Z,
    igt_get_fb_tile_size fd tiling 8 = Ok (tw0, th0)
    /\ igt_get_fb_tile_size fd tiling 16 = Ok (tw1, th1).
Proof.
  unfold calc_fb_size_planar.
  change (Z.to_nat (planes NV12_desc)) with 2%nat.
  cbn [planar_stride_loop].
  change (plane_bpp_at NV12_desc 0) with 8.
  change (plane_bpp_at NV12_desc (0 + 1)) with 16.
  intros H.
  destruct (igt_get_fb_tile_size fd tiling 8) as [[tw0 th0]| | | |];
    cbn [obind] in H; try discriminate H.
  destruct (igt_get_fb_tile_size fd tiling 16) as [[tw1 th1]| | | |];
    cbn [obind] in H; try discriminate H.
  exists tw0, th0, tw1, th1. split; reflexivity.
Qed.

(** X11.  The two planes of an NV12 buffer, as [calc_fb_size_planar] lays
    them out for a width and a height below 2^15, for every tiling it
    returns for: the luma plane starts at offset 0, the chroma plane at
    [stride * H0] for a number [H0] of rows that is at least the height,
    the size leaves [H1] rows of that stride for the chroma plane, at least
    half the height rounded up, the two unused offsets are zero, and a row
    of luma samples and a row of chroma pairs both fit in the stride. *)
Theorem nv12_planes_fit (fd : device) (width height tiling : Z)
    (offsets : list Z) (size stride : Z) (res : option (list Z)) :
  length offsets = 4%nat ->
  0 <= width < 2 ^ 15 -> 0 <= height < 2 ^ 15 ->
  calc_fb_size_planar fd width height NV12_desc tiling (Some offsets)
    = Ok (size, stride, res) ->
  exists H0 H1 : Z,
    res = Some [0; stride * H0; 0; 0]
    /\ size = stride * H0 + stride * H1
    /\ height <= H0 /\ (height + 1) / 2 <= H1
    /\ width + width mod 2 <= stride < 2 ^ 16
    /\ size < 2 ^ 32.
Proof.
  intros Hlen Hw Hh H.
  destruct offsets as [|o0 [|o1 [|o2 [|o3 [|]]]]]; try discriminate Hlen.
  destruct (nv12_layout_tiles _ _ _ _ _ _ H)
    as (tw0 & th0 & tw1 & th1 & Ht0 & Ht1).
  destruct (nv12_layout fd width height tiling o0 o1 o2 o3 _ _ _ _
              Hw Hh Ht0 Ht1)
    as (st & H0 & H1 & Hc & Hb).
  rewrite Hc in H. injection H as <- <- <-.
  exists H0, H1. split; [reflexivity|]. split; [reflexivity | exact Hb].
Qed.

Lemma nv12_planes_fit_witness :
  exists res : option (list Z),
    calc_fb_size_planar (mk_device true 9 false) 1920 1080 NV12_desc
      LOCAL_I915_FORMAT_MOD_Y_TILED (Some [0; 0; 0; 0])
    = Ok (3133440, 1920, res)
    /\ res = Some [0; 1920 * 1088; 0; 0].
Proof.
  destruct (nv12_planes_fit (mk_device true 9 false) 1920 1080
              LOCAL_I915_FORMAT_MOD_Y_TILED [0; 0; 0; 0] 3133440 1920
              (Some [0; 2088960; 0; 0]) eq_refl
              ltac:(vm_compute; split; congruence)
              ltac:(vm_compute; split; congruence) eq_refl)
    as (H0 & H1 & Hres & _).
  exists (Some [0; 2088960; 0; 0]). split; reflexivity.
Defined.

(** ** Encoding NV12 *)

Lemma encoded_chroma_pair (rgb : list Z) (rs h i j k : Z) :
  2 * i + 1 < h ->
  encoded_chroma rgb rs h i j k
  = f32.to_u8
      (chroma_of_pair (fst (fst (if k =? 0 then u_coeffs else v_coeffs)))
         (snd (fst (if k =? 0 then u_coeffs else v_coeffs)))
         (snd (if k =? 0 then u_coeffs else v_coeffs))
         (nth (Z.to_nat (2 * i * rs + (j * 8 + 2))) rgb 0)
         (nth (Z.to_nat (2 * i * rs + (j * 8 + 2 + rs))) rgb 0)
         (nth (Z.to_nat (2 * i * rs + (j * 8 + 1))) rgb 0)
         (nth (Z.to_nat (2 * i * rs + (j * 8 + 1 + rs))) rgb 0)
         (nth (Z.to_nat (2 * i * rs + j * 8)) rgb 0)
         (nth (Z.to_nat (2 * i * rs + (j * 8 + rs))) rgb 0)).
Proof.
  intros H. unfold encoded_chroma.
  destruct (Z.ltb_spec (2 * i + 1) h) as [_ | ?]; [|lia].
  destruct (if k =? 0 then u_coeffs else v_coeffs) as [[cr cg] cb].
  reflexivity.
Qed.

Lemma encoded_chroma_pair_u (rgb : list Z) (rs h i j : Z) :
  2 * i + 1 < h ->
  encoded_chroma rgb rs h i j 0
  = f32.to_u8
      (chroma_of_pair (f32.opp (f32.milli 101)) (f32.opp (f32.milli 339))
         (f32.milli 439)
         (nth (Z.to_nat (2 * i * rs + (j * 8 + 2))) rgb 0)
         (nth (Z.to_nat (2 * i * rs + (j * 8 + 2 + rs))) rgb 0)
         (nth (Z.to_nat (2 * i * rs + (j * 8 + 1))) rgb 0)
         (nth (Z.to_nat (2 * i * rs + (j * 8 + 1 + rs))) rgb 0)
         (nth (Z.to_nat (2 * i * rs + j * 8)) rgb 0)
         (nth (Z.to_nat (2 * i * rs + (j * 8 + rs))) rgb 0)).
Proof. intros H. exact (encoded_chroma_pair rgb rs h i j 0 H). Qed.

Lemma encoded_chroma_pair_v (rgb : list Z) (rs h i j : Z) :
  2 * i + 1 < h ->
  encoded_chroma rgb rs h i j 1
  = f32.to_u8
      (chroma_of_pair (f32.milli 439) (f32.opp (f32.milli 339))
         (f32.opp (f32.milli 40))
         (nth (Z.to_nat (2 * i * rs + (j * 8 + 2))) rgb 0)
         (nth (Z.to_nat (2 * i * rs + (j * 8 + 2 + rs))) rgb 0)
         (nth (Z.to_nat (2 * i * rs + (j * 8 + 1))) rgb 0)
         (nth (Z.to_nat (2 * i * rs + (j * 8 + 1 + rs))) rgb 0)
         (nth (Z.to_nat (2 * i * rs + j * 8)) rgb 0)
         (nth (Z.to_nat (2 * i * rs + (j * 8 + rs))) rgb 0)).
Proof. intros H. exact (encoded_chroma_pair rgb rs h i j 1 H). Qed.

Lemma encoded_chroma_single (rgb : list Z) (rs h i j k : Z) :
  h <= 2 * i + 1 ->
  encoded_chroma rgb rs h i j k
  = f32.to_u8
      (chroma_of_single (fst (fst (if k =? 0 then u_coeffs else v_coeffs)))
         (snd (fst (if k =? 0 then u_coeffs else v_coeffs)))
         (snd (if k =? 0 then u_coeffs else v_coeffs))
         (nth (Z.to_nat (2 * i * rs + (j * 8 + 2))) rgb 0)
         (nth (Z.to_nat (2 * i * rs + (j * 8 + 1))) rgb 0)
         (nth (Z.to_nat (2 * i * rs + j * 8)) rgb 0)).
Proof.
  intros H. unfold encoded_chroma.
  destruct (Z.ltb_spec (2 * i + 1) h) as [? | _]; [lia|].
  destruct (if k =? 0 then u_coeffs else v_coeffs) as [[cr cg] cb].
  reflexivity.
Qed.

Lemma encoded_chroma_single_u (rgb : list Z) (rs h i j : Z) :
  h <= 2 * i + 1 ->
  encoded_chroma rgb rs h i j 0
  = f32.to_u8
      (chroma_of_single (f32.opp (f32.milli 101)) (f32.opp (f32.milli 339))
         (f32.milli 439)
         (nth (Z.to_nat (2 * i * rs + (j * 8 + 2))) rgb 0)
         (nth (Z.to_nat (2 * i * rs + (j * 8 + 1))) rgb 0)
         (nth (Z.to_nat (2 * i * rs + j * 8)) rgb 0)).
Proof. intros H. exact (encoded_chroma_single rgb rs h i j 0 H). Qed.

Lemma encoded_chroma_single_v (rgb : list Z) (rs h i j : Z) :
  h <= 2 * i + 1 ->
  encoded_chroma rgb rs h i j 1
  = f32.to_u8
      (chroma_of_single (f32.milli 439) (f32.opp (f32.milli 339))
         (f32.opp (f32.milli 40))
         (nth (Z.to_nat (2 * i * rs + (j * 8 + 2))) rgb 0)
         (nth (Z.to_nat (2 * i * rs + (j * 8 + 1))) rgb 0)
         (nth (Z.to_nat (2 * i * rs + j * 8)) rgb 0)).
Proof. intros H. exact (encoded_chroma_single rgb rs h i j 1 H). Qed.

(** Products of a row count and a stride. *)
Ltac rows :=
  first [ apply Z.mul_nonneg_nonneg; lia
        | apply Z.mul_le_mono_nonneg_r; lia ].

(** Rows of a buffer of stride [ps] do not share a byte. *)
Lemma row_unique (ps r i c j : Z) :
  0 <= c < ps -> 0 <= j < ps -> r * ps + c = i * ps + j -> r = i.
Proof.
  intros Hc Hj He.
  destruct (Z.lt_trichotomy r i) as [Hlt | [Heq | Hgt]]; [|exact Heq|].
  - assert ((r + 1) * ps <= i * ps)
      by (apply Z.mul_le_mono_nonneg_r; lia).
    lia.
  - assert ((i + 1) * ps <= r * ps)
      by (apply Z.mul_le_mono_nonneg_r; lia).
    lia.
Qed.

Section Encode.
Variables (rgb map0 : list Z) (w h rs ps offy offuv : Z).
Hypothesis Hw : 0 <= w.
Hypothesis Hh : 0 <= h.
Hypothesis Hrs : 4 * w <= rs < 2 ^ 30.
Hypothesis Hps : w + w mod 2 <= ps < 2 ^ 30.
Hypothesis Hoffy : 0 <= offy.
Hypothesis Hplanes : offy + h * ps <= offuv.
Hypothesis Hchroma : offuv + (h + 1) / 2 * ps <= Z.of_nat (length map0).
Hypothesis Hrgb : h * rs <= Z.of_nat (length rgb).

(** [map] has the size of the planar buffer, holds [v] at [a] for every
    [(a, v)] of [D], and is the buffer of before everywhere else. *)
Definition written (D : Z -> Z -> Prop) (map : list Z) : Prop :=
  length map = length map0
  /\ (forall a v : Z,
         D a v ->
         0 <= a < Z.of_nat (length map0) /\ map !! Z.to_nat a = Some v)
  /\ (forall a : Z,
         0 <= a -> (forall v : Z, ~ D a v) ->
         map !! Z.to_nat a = map0 !! Z.to_nat a).

Lemma written_equiv (D D' : Z -> Z -> Prop) (map : list Z) :
  (forall a v : Z, D a v <-> D' a v) -> written D map -> written D' map.
Proof.
  intros He (Hl & Hv & Hf). split; [exact Hl|]. split.
  - intros a v HD. apply Hv, He, HD.
  - intros a Ha Hn. apply Hf; [exact Ha|].
    intros v HD. apply (Hn v), He, HD.
Qed.

Lemma written_store (D : Z -> Z -> Prop) (map : list Z) (a v : Z) :
  written D map ->
  0 <= a < Z.of_nat (length map0) ->
  (forall v' : Z, ~ D a v') ->
  store map a v = Ok (<[Z.to_nat a := v]> map)
  /\ written (fun a' v' => D a' v' \/ (a' = a /\ v' = v))
       (<[Z.to_nat a := v]> map).
Proof.
  intros (Hl & Hv & Hf) Ha Hfresh.
  split; [apply store_Ok; rewrite Hl; exact Ha|].
  split; [rewrite length_insert; exact Hl|]. split.
  - intros a' v' [HD | [-> ->]].
    + destruct (Hv a' v' HD) as [Ha' Hlk]. split; [exact Ha'|].
      rewrite lookup_insert_Z by (rewrite ?Hl; lia).
      destruct (Z.eq_dec a a') as [<- | _]; [|exact Hlk].
      exfalso. exact (Hfresh v' HD).
    + split; [exact Ha|].
      rewrite lookup_insert_Z by (rewrite ?Hl; lia).
      destruct (Z.eq_dec a a) as [_ | Hne]; [reflexivity | contradiction].
  - intros a' Ha' Hn.
    rewrite lookup_insert_Z by (rewrite ?Hl; lia).
    destruct (Z.eq_dec a a') as [<- | _].
    + exfalso. apply (Hn v). right. split; reflexivity.
    + apply Hf; [exact Ha'|]. intros v' HD. apply (Hn v'). left. exact HD.
Qed.

(** The luma samples written when the first loop is at row [i], column
    [j]. *)
Definition luma_done (i j : Z) (a v : Z) : Prop :=
  exists r c : Z,
    0 <= r < h /\ 0 <= c < w /\ (r < i \/ (r = i /\ c < j))
    /\ a = offy + r * ps + c /\ v = encoded_luma rgb rs r c.

(** All luma samples, and the chroma samples written when the second or
    the third loop is at block row [i], block column [j]. *)
Definition chroma_done (i j : Z) (a v : Z) : Prop :=
  luma_done h 0 a v
  \/ exists bi bj k : Z,
       0 <= bi /\ 0 <= bj < (w + 1) / 2 /\ 0 <= k < 2
       /\ (bi < i \/ (bi = i /\ bj < j))
       /\ a = offuv + bi * ps + (bj * 2 + k)
       /\ v = encoded_chroma rgb rs h bi bj k.

Lemma luma_body_ok (i j : Z) (map : list Z) :
  0 <= i < h -> 0 <= j < w ->
  written (luma_done i j) map ->
  exists map' : list Z,
    luma_body rgb (i * rs) (offy + i * ps) j map = Ok map'
    /\ written (luma_done i (j + 1)) map'.
Proof.
  intros Hi Hj Hwr. unfold luma_body.
  pose proof (Z.mod_pos_bound w 2 ltac:(lia)) as Hwm.
  pose proof (Z.div_mod (h + 1) 2 ltac:(lia)) as Hhd.
  pose proof (Z.mod_pos_bound (h + 1) 2 ltac:(lia)) as Hhm.
  assert (Hrow : (i + 1) * rs <= h * rs) by rows.
  assert (Hir : 0 <= i * rs) by rows.
  assert (Hprow : (i + 1) * ps <= h * ps) by rows.
  assert (Hip : 0 <= i * ps) by rows.
  assert (Hhalf : 0 <= (h + 1) / 2 * ps) by rows.
  rewrite !load_Ok by lia. cbn [obind].
  destruct (written_store _ map (offy + i * ps + j)
              (encoded_luma rgb rs i j) Hwr) as [Hst Hwr'].
  - lia.
  - intros v' (r & c & Hr & Hc & Hbefore & Ha & _).
    assert (r = i) by (apply (row_unique ps r i c j); lia).
    subst r. lia.
  - unfold encoded_luma in Hst. rewrite Hst. eexists. split; [reflexivity|].
    eapply written_equiv; [|exact Hwr'].
    intros a v. unfold luma_done. split.
    + intros [(r & c & Hr & Hc & Hb & Ha & Hv) | (-> & ->)].
      * exists r, c. repeat split; try assumption; lia.
      * exists i, j. repeat split; try reflexivity; lia.
    + intros (r & c & Hr & Hc & Hb & Ha & Hv).
      destruct (Z.eq_dec r i) as [-> | Hri].
      * destruct (Z.eq_dec c j) as [-> | Hcj].
        -- right. split; assumption.
        -- left. exists i, c. repeat split; try assumption; lia.
      * left. exists r, c. repeat split; try assumption; lia.
Qed.

(** The state of the first loop before row [i]. *)
Definition luma_rows_done (i : Z) (st : list Z * Z * Z) : Prop :=
  let '(map, rgb24, y) := st in
  rgb24 = i * rs /\ y = offy + i * ps /\ written (luma_done i 0) map.

Lemma luma_rows_body_ok (i : Z) (st : list Z * Z * Z) :
  0 <= i < h -> luma_rows_done i st ->
  exists st' : list Z * Z * Z,
    luma_rows_body rgb w rs ps i st = Ok st' /\ luma_rows_done (i + 1) st'.
Proof.
  intros Hi. destruct st as [[map rgb24] y]. intros (-> & -> & Hwr).
  unfold luma_rows_body.
  destruct (for_loop_inv (fun j m => written (luma_done i j) m)
              (luma_body rgb (i * rs) (offy + i * ps)) (Z.to_nat w) 0 map)
    as (map' & -> & Hwr').
  - exact Hwr.
  - intros j m Hj Hm. apply luma_body_ok; [lia | lia | exact Hm].
  - cbn [obind]. eexists. split; [reflexivity|].
    unfold luma_rows_done. split; [lia|]. split; [lia|].
    eapply written_equiv; [|exact Hwr'].
    intros a v. unfold luma_done.
    split; intros (r & c & Hr & Hc & Hb & Ha & Hv); exists r, c;
      repeat split; try assumption; lia.
Qed.

Lemma chroma_addr_fresh (i j k a : Z) :
  0 <= i -> 0 <= j < (w + 1) / 2 -> 0 <= k < 2 ->
  a = offuv + i * ps + (j * 2 + k) ->
  forall v' : Z, ~ chroma_done i j a v'.
Proof.
  intros Hi Hj Hk -> v'.
  pose proof (Z.div_mod (w + 1) 2 ltac:(lia)) as Hwd.
  pose proof (Z.mod_pos_bound (w + 1) 2 ltac:(lia)) as Hwb.
  pose proof (Z.div_mod w 2 ltac:(lia)) as Hwd'.
  pose proof (Z.mod_pos_bound w 2 ltac:(lia)) as Hwb'.
  assert (Hip : 0 <= i * ps) by rows.
  intros [(r & c & Hr & Hc & _ & Ha & _)
         | (bi & bj & k' & Hbi & Hbj & Hk' & Hb & Ha & _)].
  - assert (Hrow : (r + 1) * ps <= h * ps)
      by (apply Z.mul_le_mono_nonneg_r; lia).
    lia.
  - assert (bi = i)
      by (apply (row_unique ps bi i (bj * 2 + k') (j * 2 + k)); lia).
    subst bi. lia.
Qed.

Lemma chroma_addr_bound (i j k : Z) :
  0 <= i < (h + 1) / 2 -> 0 <= j < (w + 1) / 2 -> 0 <= k < 2 ->
  0 <= offuv + i * ps + (j * 2 + k) < Z.of_nat (length map0).
Proof.
  intros Hi Hj Hk.
  pose proof (Z.div_mod (w + 1) 2 ltac:(lia)) as Hwd.
  pose proof (Z.mod_pos_bound (w + 1) 2 ltac:(lia)) as Hwb.
  pose proof (Z.div_mod w 2 ltac:(lia)) as Hwd'.
  pose proof (Z.mod_pos_bound w 2 ltac:(lia)) as Hwb'.
  assert (Hip : 0 <= i * ps) by rows.
  assert (Hrows : (i + 1) * ps <= (h + 1) / 2 * ps) by rows.
  assert (Hhp : 0 <= h * ps) by rows.
  lia.
Qed.

Lemma chroma_done_step (i j : Z) (a v : Z) (v0 v1 : Z) :
  0 <= i -> 0 <= j < (w + 1) / 2 ->
  v0 = encoded_chroma rgb rs h i j 0 ->
  v1 = encoded_chroma rgb rs h i j 1 ->
  ((chroma_done i j a v \/ (a = offuv + i * ps + j * 2 /\ v = v0))
   \/ (a = offuv + i * ps + (j * 2 + 1) /\ v = v1))
  <-> chroma_done i (j + 1) a v.
Proof.
  intros Hi Hj -> ->. unfold chroma_done. split.
  - intros [[[Hl | (bi & bj & k & Hbi & Hbj & Hk & Hb & Ha & Hv)]
            | (-> & ->)] | (-> & ->)].
    + left. exact Hl.
    + right. exists bi, bj, k. repeat split; try assumption; lia.
    + right. exists i, j, 0. repeat split; try reflexivity; lia.
    + right. exists i, j, 1. repeat split; try reflexivity; lia.
  - intros [Hl | (bi & bj & k & Hbi & Hbj & Hk & Hb & Ha & Hv)].
    + left. left. left. exact Hl.
    + destruct (Z.eq_dec bi i) as [-> | Hne];
        [destruct (Z.eq_dec bj j) as [-> | Hnj]|].
      * assert (Hk01 : k = 0 \/ k = 1) by lia.
        destruct Hk01 as [-> | ->].
        -- left. right. split; [lia | exact Hv].
        -- right. split; [lia | exact Hv].
      * left. left. right. exists i, bj, k.
        repeat split; try assumption; lia.
      * left. left. right. exists bi, bj, k.
        repeat split; try assumption; lia.
Qed.

Lemma chroma_pair_body_ok (i j : Z) (map : list Z) :
  0 <= i -> 2 * i + 2 <= h -> 0 <= j < (w + 1) / 2 ->
  written (chroma_done i j) map ->
  exists map' : list Z,
    chroma_pair_body rgb (2 * i * rs) (offuv + i * ps) rs j map = Ok map'
    /\ written (chroma_done i (j + 1)) map'.
Proof.
  intros Hi Hrow Hj Hwr. unfold chroma_pair_body.
  pose proof (Z.div_mod (w + 1) 2 ltac:(lia)) as Hwd.
  pose proof (Z.mod_pos_bound (w + 1) 2 ltac:(lia)) as Hwb.
  pose proof (Z.div_mod (h + 1) 2 ltac:(lia)) as Hhd.
  pose proof (Z.mod_pos_bound (h + 1) 2 ltac:(lia)) as Hhb.
  assert (Hrows : (2 * i + 2) * rs <= h * rs) by rows.
  assert (Hir : 0 <= i * rs) by rows.
  rewrite !u32_small by lia.
  rewrite !load_Ok by lia. cbn [obind].
  unfold u_coeffs, v_coeffs. cbv iota beta zeta.
  rewrite <- (encoded_chroma_pair_u rgb rs h i j) by lia.
  rewrite <- (encoded_chroma_pair_v rgb rs h i j) by lia.
  assert (Hi' : 0 <= i < (h + 1) / 2) by lia.
  destruct (written_store _ map (offuv + i * ps + j * 2)
              (encoded_chroma rgb rs h i j 0) Hwr) as [Hst Hwr1].
  { pose proof (chroma_addr_bound i j 0 Hi' Hj ltac:(lia)). lia. }
  { apply (chroma_addr_fresh i j 0); lia. }
  rewrite Hst. cbn [obind]. clear Hst.
  destruct (written_store _ _ (offuv + i * ps + (j * 2 + 1))
              (encoded_chroma rgb rs h i j 1) Hwr1) as [Hst Hwr2].
  { apply chroma_addr_bound; lia. }
  { intros v' [HD | [Ha _]]; [|lia].
    revert HD. apply (chroma_addr_fresh i j 1); lia. }
  rewrite Hst. eexists. split; [reflexivity|].
  eapply written_equiv; [|exact Hwr2].
  intros a v. apply chroma_done_step; solve [lia | reflexivity].
Qed.

Lemma chroma_single_body_ok (i j : Z) (map : list Z) :
  0 <= i -> 2 * i + 1 = h -> 0 <= j < (w + 1) / 2 ->
  written (chroma_done i j) map ->
  exists map' : list Z,
    chroma_single_body rgb (2 * i * rs) (offuv + i * ps) j map = Ok map'
    /\ written (chroma_done i (j + 1)) map'.
Proof.
  intros Hi Hrow Hj Hwr. unfold chroma_single_body.
  pose proof (Z.div_mod (w + 1) 2 ltac:(lia)) as Hwd.
  pose proof (Z.mod_pos_bound (w + 1) 2 ltac:(lia)) as Hwb.
  pose proof (Z.div_mod (h + 1) 2 ltac:(lia)) as Hhd.
  pose proof (Z.mod_pos_bound (h + 1) 2 ltac:(lia)) as Hhb.
  assert (Hrows : (2 * i + 1) * rs <= h * rs) by rows.
  assert (Hir : 0 <= i * rs) by rows.
  rewrite !load_Ok by lia. cbn [obind].
  unfold u_coeffs, v_coeffs. cbv iota beta zeta.
  rewrite <- (encoded_chroma_single_u rgb rs h i j) by lia.
  rewrite <- (encoded_chroma_single_v rgb rs h i j) by lia.
  assert (Hi' : 0 <= i < (h + 1) / 2) by lia.
  destruct (written_store _ map (offuv + i * ps + j * 2)
              (encoded_chroma rgb rs h i j 0) Hwr) as [Hst Hwr1].
  { pose proof (chroma_addr_bound i j 0 Hi' Hj ltac:(lia)). lia. }
  { apply (chroma_addr_fresh i j 0); lia. }
  rewrite Hst. cbn [obind]. clear Hst.
  destruct (written_store _ _ (offuv + i * ps + (j * 2 + 1))
              (encoded_chroma rgb rs h i j 1) Hwr1) as [Hst Hwr2].
  { apply chroma_addr_bound; lia. }
  { intros v' [HD | [Ha _]]; [|lia].
    revert HD. apply (chroma_addr_fresh i j 1); lia. }
  rewrite Hst. eexists. split; [reflexivity|].
  eapply written_equiv; [|exact Hwr2].
  intros a v. apply chroma_done_step; solve [lia | reflexivity].
Qed.

Lemma chroma_done_next_row (i : Z) (a v : Z) :
  chroma_done i ((w + 1) / 2) a v <-> chroma_done (i + 1) 0 a v.
Proof.
  unfold chroma_done.
  split; (intros [Hl | (bi & bj & k & Hbi & Hbj & Hk & Hb & Ha & Hv)];
          [left; exact Hl|]);
    right; exists bi, bj, k; repeat split; try assumption; lia.
Qed.

(** The state of the second loop before block row [i]. *)
Definition chroma_rows_done (i : Z) (st : list Z * Z * Z) : Prop :=
  let '(map, rgb24, uv) := st in
  rgb24 = 2 * i * rs /\ uv = offuv + i * ps
  /\ written (chroma_done i 0) map.

Lemma chroma_rows_body_ok (i : Z) (st : list Z * Z * Z) :
  0 <= i -> 2 * i + 2 <= h -> chroma_rows_done i st ->
  exists st' : list Z * Z * Z,
    chroma_rows_body rgb ((w + 1) / 2) rs ps i st = Ok st'
    /\ chroma_rows_done (i + 1) st'.
Proof.
  intros Hi Hrow. destruct st as [[map rgb24] uv]. intros (-> & -> & Hwr).
  unfold chroma_rows_body.
  assert (Hcw : 0 <= (w + 1) / 2) by (apply Z.div_pos; lia).
  destruct (for_loop_inv (fun j m => written (chroma_done i j) m)
              (chroma_pair_body rgb (2 * i * rs) (offuv + i * ps) rs)
              (Z.to_nat ((w + 1) / 2)) 0 map) as (map' & -> & Hwr').
  - exact Hwr.
  - intros j m Hj Hm. apply chroma_pair_body_ok; [lia | lia | lia | exact Hm].
  - cbn [obind]. eexists. split; [reflexivity|].
    unfold chroma_rows_done. rewrite u32_small by lia.
    split; [lia|]. split; [lia|].
    eapply written_equiv; [|exact Hwr'].
    intros a v. rewrite Z.add_0_l, Z2Nat.id by lia.
    apply chroma_done_next_row.
Qed.

Lemma written_all_encoded (map : list Z) :
  written (chroma_done ((h + 1) / 2) 0) map ->
  encoded rgb map0 w h rs ps offy offuv map.
Proof.
  intros (Hl & Hv & Hf). split; [exact Hl|]. split; [|split].
  - intros r c Hr Hc. apply Hv. left. exists r, c.
    repeat split; try reflexivity; lia.
  - intros i j k Hi Hj Hk. apply Hv. right. exists i, j, k.
    repeat split; try reflexivity; lia.
  - intros a Ha Hnl Hnc. apply Hf; [exact Ha|].
    intros v [(r & c & Hr & Hc & _ & Heq & _)
             | (bi & bj & k & Hbi & Hbj & Hk & Hb & Heq & _)].
    + apply Hnl. exists r, c. repeat split; solve [assumption | lia].
    + apply Hnc. exists bi, bj, k. repeat split; solve [assumption | lia].
Qed.

(** The encoder on buffers of the geometry of this section: it returns,
    the planar buffer keeps its size, every luma and chroma sample holds
    its encoded byte, and no other byte of the buffer changes. *)
Lemma nv12_encode_any (fb : igt_fb) (blit : fb_convert_blit_upload) :
  fb_drm_format fb = DRM_FORMAT_NV12 ->
  fb_height fb = h ->
  nth 0 (fb_plane_height fb) 0 = h ->
  nth 1 (fb_plane_height fb) 0 = (h + 1) / 2 ->
  nth 0 (fb_plane_width fb) 0 = w ->
  nth 1 (fb_plane_width fb) 0 = (w + 1) / 2 ->
  rgb24_map blit = rgb -> rgb24_stride blit = rs ->
  lin_stride (linear blit) = ps -> lin_map (linear blit) = map0 ->
  nth 0 (lin_offsets (linear blit)) 0 = offy ->
  nth 1 (lin_offsets (linear blit)) 0 = offuv ->
  exists map' : list Z,
    convert_rgb24_to_nv12 fb blit = Ok map'
    /\ encoded rgb map0 w h rs ps offy offuv map'.
Proof.
  intros Hfmt Hfh Hph0 Hph1 Hpw0 Hpw1 Hmap Hbrs Hbps Hlmap Hoy Houv.
  cut (exists map' : list Z,
          convert_rgb24_to_nv12 fb blit = Ok map'
          /\ written (chroma_done ((h + 1) / 2) 0) map').
  { intros (map' & He & Hwr). exists map'. split; [exact He|].
    apply written_all_encoded, Hwr. }
  unfold convert_rgb24_to_nv12.
  rewrite Hfmt, Hfh, Hph0, Hph1, Hpw0, Hpw1, Hmap, Hbrs, Hbps, Hlmap, Hoy,
    Houv.
  change (DRM_FORMAT_NV12 =? DRM_FORMAT_NV12) with true.
  cbn [igt_assert obind].
  pose proof (Z.div_mod h 2 ltac:(lia)) as Hdm.
  pose proof (Z.mod_pos_bound h 2 ltac:(lia)) as Hmb.
  pose proof (Z.div_mod (h + 1) 2 ltac:(lia)) as Hhd.
  pose proof (Z.mod_pos_bound (h + 1) 2 ltac:(lia)) as Hhb.
  assert (Hq : 0 <= h / 2) by (apply Z.div_pos; lia).
  assert (Hcw : 0 <= (w + 1) / 2) by (apply Z.div_pos; lia).
  destruct (for_loop_inv luma_rows_done (luma_rows_body rgb w rs ps)
              (Z.to_nat h) 0 (map0, 0, offy)) as ([[m1 r1] y1] & -> & Hl).
  - unfold luma_rows_done. split; [lia|]. split; [lia|].
    split; [reflexivity|]. split.
    + intros a v (r & c & Hr & Hc & Hb & _). lia.
    + intros a Ha _. reflexivity.
  - intros i st Hi Hst. apply luma_rows_body_ok; [lia | exact Hst].
  - cbn [obind]. rewrite Z.add_0_l, Z2Nat.id in Hl by lia.
    destruct Hl as (_ & _ & Hwl).
    rewrite Z.quot_div_nonneg by lia.
    destruct (for_loop_inv chroma_rows_done
                (chroma_rows_body rgb ((w + 1) / 2) rs ps)
                (Z.to_nat (h / 2)) 0 (m1, 0, offuv))
      as ([[m2 r2] uv2] & -> & Hc).
    + unfold chroma_rows_done. split; [lia|]. split; [lia|].
      eapply written_equiv; [|exact Hwl].
      intros a v. unfold chroma_done. split; [intros Hd; left; exact Hd|].
      intros [Hd | (bi & bj & k & Hbi & Hbj & Hk & Hb & _)]; [exact Hd | lia].
    + intros i st Hi Hst.
      apply chroma_rows_body_ok; [lia | lia | exact Hst].
    + cbn [obind]. rewrite Z.add_0_l, Z2Nat.id in Hc by lia.
      rewrite Z2Nat.id by lia.
      destruct Hc as (-> & -> & Hwc).
      destruct (Z.ltb_spec (h / 2) ((h + 1) / 2)) as [Hodd | Heven].
      * destruct (for_loop_inv
                    (fun j m => written (chroma_done (h / 2) j) m)
                    (chroma_single_body rgb (2 * (h / 2) * rs)
                       (offuv + h / 2 * ps))
                    (Z.to_nat ((w + 1) / 2)) 0 m2) as (m3 & -> & Hws).
        -- exact Hwc.
        -- intros j m Hj Hm.
           apply chroma_single_body_ok; [lia | lia | lia | exact Hm].
        -- eexists. split; [reflexivity|].
           eapply written_equiv; [|exact Hws].
           intros a v. rewrite Z.add_0_l, Z2Nat.id by lia.
           replace ((h + 1) / 2) with (h / 2 + 1) by lia.
           apply chroma_done_next_row.
      * eexists. split; [reflexivity|].
        replace ((h + 1) / 2) with (h / 2) by lia. exact Hwc.
Qed.
End Encode.

(** X12.  The encoder on a [w] by [h] picture of stride [rs] and an NV12
    buffer of stride [ps] whose luma plane ends before the chroma plane
    starts: it returns (no access leaves either buffer), the planar buffer
    keeps its size, every luma sample and every chroma sample, also those
    of the last row of an odd height, holds its encoded byte, and every
    other byte of the planar buffer, the padding of the rows among them,
    is what it was. *)
Theorem nv12_encode_writes (rgb map0 : list Z) (w h rs ps offy offuv : Z)
    (fb : igt_fb) (blit : fb_convert_blit_upload) :
  0 <= w -> 0 <= h -> 4 * w <= rs < 2 ^ 30 ->
  w + w mod 2 <= ps < 2 ^ 30 ->
  0 <= offy -> offy + h * ps <= offuv ->
  offuv + (h + 1) / 2 * ps <= Z.of_nat (length map0) ->
  h * rs <= Z.of_nat (length rgb) ->
  fb_drm_format fb = DRM_FORMAT_NV12 ->
  fb_height fb = h ->
  fb_plane_height fb = [h; (h + 1) / 2; 0; 0] ->
  fb_plane_width fb = [w; (w + 1) / 2; 0; 0] ->
  rgb24_map blit = rgb -> rgb24_stride blit = rs ->
  lin_stride (linear blit) = ps -> lin_map (linear blit) = map0 ->
  nth 0 (lin_offsets (linear blit)) 0 = offy ->
  nth 1 (lin_offsets (linear blit)) 0 = offuv ->
  exists map' : list Z,
    convert_rgb24_to_nv12 fb blit = Ok map'
    /\ encoded rgb map0 w h rs ps offy offuv map'.
Proof.
  intros Hw Hh Hrs Hps Hoffy Hplanes Hchroma Hrgb Hfmt Hfh Hph Hpw.
  apply nv12_encode_any; try assumption.
  - rewrite Hph. reflexivity.
  - rewrite Hph. reflexivity.
  - rewrite Hpw. reflexivity.
  - rewrite Hpw. reflexivity.
Qed.

Lemma nv12_encode_writes_witness :
  exists map' : list Z,
    convert_rgb24_to_nv12 fb_2x2 (blit_2x2 (replicate 32 200)) = Ok map'
    /\ encoded (replicate 32 200) (replicate 192 16) 2 2 16 64 0 128 map'.
Proof.
  apply (nv12_encode_writes (replicate 32 200) (replicate 192 16)
           2 2 16 64 0 128 fb_2x2 (blit_2x2 (replicate 32 200)));
    solve [ reflexivity | lia | vm_compute; split; congruence
          | vm_compute; congruence ].
Defined.

(** ** Decoding a buffer and encoding it back *)

Lemma nth_byte (buf : list Z) (n : nat) :
  Forall (fun v => 0 <= v <= 255) buf -> 0 <= nth n buf 0 <= 255.
Proof.
  intros Hall. rewrite nth_lookup.
  destruct (buf !! n) as [v|] eqn:Hl; cbn [default]; [|lia].
  exact (proj1 (Forall_lookup _ _) Hall n v Hl).
Qed.








(** ** The packed view of a created NV12 framebuffer *)

(** What [igt_create_fb] records for NV12. *)
Lemma created_nv12_fb (fuel : nat) (k : kernel) (fd : device)
    (w h tiling : Z) (fb : igt_fb) :
  0 <= w < 2 ^ 15 -> 0 <= h < 2 ^ 15 ->
  igt_create_fb fuel k fd w h DRM_FORMAT_NV12 tiling = Ok fb ->
  fb_width fb = w /\ fb_height fb = h
  /\ fb_drm_format fb = DRM_FORMAT_NV12 /\ fb_tiling fb = tiling
  /\ fb_plane_width fb = [w; (w + 1) / 2; 0; 0]
  /\ fb_plane_height fb = [h; (h + 1) / 2; 0; 0]
  /\ is_intel fd = true
  /\ returns (igt_fb_mod_to_tiling tiling)
  /\ exists st H0 H1 : Z,
       fb_stride fb = st /\ fb_size fb = st * H0 + st * H1
       /\ fb_offsets fb = [0; st * H0; 0; 0]
       /\ h <= H0 /\ (h + 1) / 2 <= H1
       /\ w + w mod 2 <= st < 2 ^ 16
       /\ st * H0 + st * H1 < 2 ^ 32.
Proof.
  intros Hw Hh H.
  unfold igt_create_fb, igt_create_fb_with_bo_size in H.
  rewrite lookup_NV12 in H. unfold create_bo_for_fb in H.
  change (planes NV12_desc >? 1) with true in H.
  rewrite orb_true_r in H. cbv iota in H.
  destruct (calc_fb_size_planar fd w h NV12_desc tiling (Some [0; 0; 0; 0]))
    as [[[cs cst] o]| | | |] eqn:Hc; cbn [obind] in H; try discriminate H.
  destruct (nv12_layout_tiles _ _ _ _ _ _ Hc)
    as (tw0 & th0 & tw1 & th1 & Ht0 & Ht1).
  destruct (nv12_layout fd w h tiling 0 0 0 0 _ _ _ _ Hw Hh Ht0 Ht1)
    as (st & H0 & H1 & Hc' & Hb).
  rewrite Hc' in Hc. injection Hc as <- <- <-.
  change (0 =? 0) with true in H. cbv iota in H.
  unfold is_i915_device in H.
  destruct (is_intel fd); cbn [obind igt_require] in H; [|discriminate H].
  destruct (igt_fb_mod_to_tiling tiling) as [t| | | |] eqn:Hmod;
    cbn [obind] in H; try discriminate H.
  destruct (igt_assert (gem_first_word k _ =? 0)); cbn [obind] in H;
    try discriminate H.
  change (drm_id NV12_desc =? DRM_FORMAT_NV12) with true in H.
  cbv iota in H.
  destruct (obind (memset _ _ _ _) _); cbn [obind default] in H;
    try discriminate H.
  destruct (igt_assert (u32 _ >? 0)); cbn [obind] in H; try discriminate H.
  destruct (kms_addfb _ _ _ _ _ _ _ _); cbn [obind] in H; try discriminate H.
  change (Z.to_nat (planes NV12_desc)) with 2%nat in H.
  cbn [plane_fields_loop] in H. injection H as <-.
  cbn [fb_width fb_height fb_drm_format fb_tiling fb_plane_width
       fb_plane_height fb_stride fb_size fb_offsets].
  change (Z.to_nat (0 + 1)) with 1%nat. change (Z.to_nat 0) with 0%nat.
  rewrite planar_width_NV12_chroma, planar_height_NV12_chroma by lia.
  assert (Hpw0 : planar_width NV12_desc (u32 w) 0 = w).
  { unfold planar_width.
    change ((drm_id NV12_desc =? DRM_FORMAT_NV12) && (0 =? 1)) with false.
    cbv iota. apply u32_small. lia. }
  assert (Hph0 : planar_height NV12_desc (u32 h) 0 = h).
  { unfold planar_height.
    change ((drm_id NV12_desc =? DRM_FORMAT_NV12) && (0 =? 1)) with false.
    cbv iota. apply u32_small. lia. }
  rewrite Hpw0, Hph0.
  split; [reflexivity|]. split; [reflexivity|]. split; [reflexivity|].
  split; [reflexivity|]. split; [reflexivity|]. split; [reflexivity|].
  split; [reflexivity|]. split; [exists t; reflexivity|].
  exists st, H0, H1. split; [reflexivity|]. split; [reflexivity|].
  split; [reflexivity | exact Hb].
Qed.

Lemma view_decode (w h : Z) (fb : igt_fb) (blit : fb_convert_blit_upload) :
  0 <= w -> 0 <= h -> fb_width fb = w -> fb_height fb = h ->
  view_holds w h blit ->
  exists out : list Z,
    convert_nv12_to_rgb24 fb blit = Ok out
    /\ length out = length (rgb24_map blit)
    /\ forall row col ch : Z,
         0 <= row < h -> 0 <= col < w -> 0 <= ch < 3 ->
         out !! Z.to_nat (row * rgb24_stride blit + col * 4 + ch)
         = Some (decoded_sample (lin_map (linear blit))
                   (lin_stride (linear blit))
                   (nth 0 (lin_offsets (linear blit)) 0)
                   (nth 1 (lin_offsets (linear blit)) 0) row col ch).
Proof.
  intros Hw Hh Hfw Hfh (Hrs & Hout & Hps & Hoffy & Hplanes & Hchroma & Hsz).
  pose proof (Z.mod_pos_bound w 2 ltac:(lia)) as Hwm.
  assert (Hhp : 0 <= h * lin_stride (linear blit)) by nia.
  assert (Hhalf : 0 <= (h + 1) / 2 * lin_stride (linear blit))
    by (apply Z.mul_nonneg_nonneg; [apply Z.div_pos; lia | lia]).
  destruct (nv12_decode_any (lin_map (linear blit)) (rgb24_map blit) w h
              (rgb24_stride blit) (lin_stride (linear blit))
              (nth 0 (lin_offsets (linear blit)) 0)
              (nth 1 (lin_offsets (linear blit)) 0)
              Hw Hh Hrs Hps Hoffy ltac:(lia) ltac:(lia) Hchroma Hout
              fb blit Hfw Hfh eq_refl eq_refl eq_refl)
    as (out & Hdec & Hlen & _ & Hsamples); try reflexivity.
  { rewrite Hsz. apply take_ge. lia. }
  { rewrite Hsz. lia. }
  exists out. split; [exact Hdec|]. split; [exact Hlen|].
  intros row col ch Hr Hc Hch. apply Hsamples. unfold valid_sample. lia.
Qed.

Lemma view_encode (w h : Z) (fb : igt_fb) (blit : fb_convert_blit_upload) :
  0 <= w -> 0 <= h ->
  fb_drm_format fb = DRM_FORMAT_NV12 -> fb_height fb = h ->
  fb_plane_width fb = [w; (w + 1) / 2; 0; 0] ->
  fb_plane_height fb = [h; (h + 1) / 2; 0; 0] ->
  view_holds w h blit ->
  exists map' : list Z,
    convert_rgb24_to_nv12 fb blit = Ok map'
    /\ encoded (rgb24_map blit) (lin_map (linear blit)) w h
         (rgb24_stride blit) (lin_stride (linear blit))
         (nth 0 (lin_offsets (linear blit)) 0)
         (nth 1 (lin_offsets (linear blit)) 0) map'.
Proof.
  intros Hw Hh Hfmt Hfh Hpw Hph
    (Hrs & Hout & Hps & Hoffy & Hplanes & Hchroma & Hsz).
  apply nv12_encode_any; try solve [assumption | reflexivity].
  - rewrite Hph. reflexivity.
  - rewrite Hph. reflexivity.
  - rewrite Hpw. reflexivity.
  - rewrite Hpw. reflexivity.
Qed.

Lemma planes_hold (w h rs size st H0 H1 handle : Z) (map lmap : list Z)
    (dumb : bool) :
  0 <= w -> 0 <= h ->
  4 * w <= rs < 2 ^ 30 -> h * rs <= Z.of_nat (length map) ->
  h <= H0 -> (h + 1) / 2 <= H1 -> w + w mod 2 <= st < 2 ^ 16 ->
  length lmap = Z.to_nat (st * H0 + st * H1) ->
  view_holds w h
    (mk_blit map rs size
       (mk_linear handle (st * H0 + st * H1) st lmap dumb
          [0; st * H0; 0; 0])).
Proof.
  intros Hw Hh Hrs Hmap HH0 HH1 Hst Hl.
  pose proof (Z.mod_pos_bound w 2 ltac:(lia)) as Hwm.
  assert (Hq : 0 <= (h + 1) / 2) by (apply Z.div_pos; lia).
  unfold view_holds.
  cbn [linear lin_stride lin_offsets lin_map lin_size rgb24_stride
       rgb24_map nth].
  assert (Hp0 : h * st <= st * H0) by nia.
  assert (Hp1 : (h + 1) / 2 * st <= st * H1) by nia.
  assert (Hn0 : 0 <= h * st) by nia.
  assert (Hn1 : 0 <= (h + 1) / 2 * st) by nia.
  rewrite Hl, Z2Nat.id by lia.
  repeat split; lia.
Qed.

(** The two [memset] calls of [create_bo_for_fb] stay inside a mapping
    of the calculated size. *)
Lemma memset_planes (map : list Z) (h st L0 L1 : Z) :
  0 <= h < 2 ^ 15 -> 0 <= st < 2 ^ 16 ->
  h <= L0 -> (h + 1) / 2 <= L1 ->
  length map = Z.to_nat (st * L0 + st * L1) ->
  (do ptr <- memset map 0 16 (nth 1 [0; st * L0; 0; 0] 0);
   do _ <-
     memset ptr (nth 1 [0; st * L0; 0; 0] 0) 128
       (u32 (Z.quot (s32 (h + 1)) 2 * st));
   Ok tt)
  = Ok tt.
Proof.
  intros Hh Hst HL0 HL1 Hlen. cbn [nth].
  assert (Hq : 0 <= (h + 1) / 2 < 2 ^ 15).
  { split; [apply Z.div_pos; lia|].
    apply Z.div_lt_upper_bound; lia. }
  assert (Hp0 : 0 <= st * L0) by (apply Z.mul_nonneg_nonneg; lia).
  assert (Hp1 : (h + 1) / 2 * st <= st * L1)
    by (rewrite (Z.mul_comm st L1); apply Z.mul_le_mono_nonneg_r; lia).
  assert (Hp2 : 0 <= (h + 1) / 2 * st < 2 ^ 31).
  { split; [apply Z.mul_nonneg_nonneg; lia|].
    apply Z.le_lt_trans with ((2 ^ 15 - 1) * 2 ^ 16); [|reflexivity].
    apply Z.mul_le_mono_nonneg; lia. }
  rewrite s32_small by lia. rewrite Z.quot_div_nonneg by lia.
  rewrite (u32_small ((h + 1) / 2 * st)) by lia.
  apply memset_twice; [lia | lia |].
  rewrite Hlen, Z2Nat.id by lia. lia.
Qed.

(** The packed view of a framebuffer [igt_create_fb] returned for NV12. *)
Lemma nv12_view_created (fuel : nat) (k : kernel) (fd : device)
    (w h tiling pagesize : Z) (uninit : list Z) (fb : igt_fb) :
  1 <= w < 2 ^ 14 -> 1 <= h < 2 ^ 14 ->
  igt_create_fb fuel k fd w h DRM_FORMAT_NV12 tiling = Ok fb ->
  length uninit = 4%nat ->
  (exists p : Z, 0 <= p <= 30 /\ pagesize = 2 ^ p) ->
  kernel_serves k ->
  exists blit : fb_convert_blit_upload,
    create_cairo_surface__convert fuel k fd pagesize uninit fb = Ok blit
    /\ view_holds w h blit
    /\ forall row col ch : Z,
         0 <= row < h -> 0 <= col < w -> 0 <= ch < 3 ->
         rgb24_map blit !! Z.to_nat (row * rgb24_stride blit + col * 4 + ch)
         = Some (decoded_sample (lin_map (linear blit))
                   (lin_stride (linear blit))
                   (nth 0 (lin_offsets (linear blit)) 0)
                   (nth 1 (lin_offsets (linear blit)) 0) row col ch).
Proof.
  intros Hw Hh Hfb Hun (p & Hp & ->) (Hcreate & Hzero & Hmmap).
  destruct (created_nv12_fb fuel k fd w h tiling fb ltac:(lia) ltac:(lia) Hfb)
    as (Hfw & Hfh & Hfmt & Htil & Hpw & Hph & Hi & (t & Hmod)
        & st & H0 & H1 & Hst & Hsz & Hoffs & HH0 & HH1 & Hstb & Hszb).
  destruct uninit as [|a [|b [|c [|d [|]]]]]; try discriminate Hun.
  unfold create_cairo_surface__convert.
  rewrite Hfw, Hfh, Hfmt, Htil.
  change 16 with (2 ^ 4). rewrite ALIGN_pow2 by lia.
  assert (Hpow : 0 < 2 ^ p <= 2 ^ 30).
  { split; [apply Z.pow_pos_nonneg; lia | apply Z.pow_le_mono_r; lia]. }
  destruct (round_up_spec (w * 4) (2 ^ 4) ltac:(lia)) as [Hrs _].
  change (2 ^ 4) with 16 in Hrs |- *.
  rewrite (u32_small (round_up (w * 4) 16)) by lia.
  set (rs := round_up (w * 4) 16) in *.
  assert (Hprod : 1 <= rs * h < 2 ^ 31).
  { split; [nia|].
    apply Z.le_lt_trans with ((2 ^ 16 + 16) * 2 ^ 14); [|reflexivity].
    apply Z.mul_le_mono_nonneg; lia. }
  rewrite (u32_small (rs * h)) by lia.
  rewrite ALIGN64_pow2 by lia.
  destruct (round_up_spec (rs * h) (2 ^ p) ltac:(lia)) as [Hru _].
  rewrite (u32_small (round_up (rs * h) (2 ^ p))) by lia.
  set (size := round_up (rs * h) (2 ^ p)) in *.
  destruct (Z.eqb_spec size 0) as [? | _]; [lia|].
  cbn [negb igt_assert obind].
  change (DRM_FORMAT_NV12 =? DRM_FORMAT_NV12) with true.
  assert (Hmap : h * rs <= Z.of_nat (length (replicate (Z.to_nat size) 0)))
    by (rewrite length_replicate; lia).
  assert (Hlin : exists lin : fb_blit_linear,
             (if (tiling =? LOCAL_I915_FORMAT_MOD_Y_TILED)
                 || (tiling =? LOCAL_I915_FORMAT_MOD_Yf_TILED)
              then setup_linear_mapping fuel k fd [a; b; c; d] fb
              else
                Ok {| lin_handle := 0;
                      lin_size := fb_size fb;
                      lin_stride := fb_stride fb;
                      lin_map := gem_mmap k (fb_gem_handle fb) (fb_size fb);
                      lin_is_dumb := false;
                      lin_offsets := fb_offsets fb |}) = Ok lin
             /\ view_holds w h
                  (mk_blit (replicate (Z.to_nat size) 0) rs size lin)).
  { destruct ((tiling =? LOCAL_I915_FORMAT_MOD_Y_TILED)
              || (tiling =? LOCAL_I915_FORMAT_MOD_Yf_TILED)).
    - unfold setup_linear_mapping. rewrite Hfw, Hfh, Hfmt, Htil, Hmod.
      cbn [obind]. rewrite lookup_NV12. unfold create_bo_for_fb.
      change (planes NV12_desc >? 1) with true.
      rewrite orb_true_r. cbv iota.
      destruct (nv12_layout fd w h LOCAL_DRM_FORMAT_MOD_NONE a b c d
                  64 1 64 1 ltac:(lia) ltac:(lia) eq_refl eq_refl)
        as (lst & L0 & L1 & -> & HL0 & HL1 & Hlst & Hlsz).
      cbn [obind]. change (0 =? 0) with true. cbv iota.
      unfold is_i915_device. rewrite Hi.
      change (igt_fb_mod_to_tiling LOCAL_DRM_FORMAT_MOD_NONE)
        with (@Ok Z I915_TILING_NONE).
      cbn [obind]. rewrite Hzero.
      change (igt_assert (0 =? 0)) with (@Ok unit tt). cbn [obind].
      change (drm_id NV12_desc =? DRM_FORMAT_NV12) with true. cbv iota.
      pose proof (Z.mod_pos_bound w 2 ltac:(lia)) as Hwm.
      rewrite (memset_planes _ h lst L0 L1 ltac:(lia) ltac:(lia) HL0 HL1
                 (Hmmap _ _)).
      cbn [obind].
      pose proof (Hcreate (lst * L0 + lst * L1)) as Hbo.
      destruct (Z.gtb_spec (u32 (gem_create k (lst * L0 + lst * L1))) 0)
        as [_ | ?]; [|lia].
      cbn [igt_assert obind default].
      eexists. split; [reflexivity|].
      apply planes_hold; try lia. apply Hmmap.
    - eexists. split; [reflexivity|].
      rewrite Hst, Hsz, Hoffs. apply planes_hold; try lia. apply Hmmap. }
  destruct Hlin as (lin & -> & Hview). cbn [obind igt_assert].
  destruct (view_decode w h fb
              (mk_blit (replicate (Z.to_nat size) 0) rs size lin)
              ltac:(lia) ltac:(lia) Hfw Hfh Hview)
    as (out & -> & Hlen & Hsamples).
  cbn [obind]. eexists. split; [reflexivity|].
  cbn [rgb24_map rgb24_stride linear] in *. split; [|exact Hsamples].
  unfold view_holds in Hview |- *.
  cbn [rgb24_map rgb24_stride linear] in *. rewrite Hlen. exact Hview.
Qed.

Lemma test_kernel_serves : kernel_serves test_kernel.
Proof.
  split; [|split].
  - intros size. reflexivity.
  - intros bo. reflexivity.
  - intros bo size. apply length_replicate.
Qed.

(** X14.  The packed view of any NV12 framebuffer [igt_create_fb] returns,
    for a width and a height from 1 to 16383, odd or even, and each of the
    four tilings, where the kernel answers every request:
    [create_cairo_surface__convert] returns, so that no read of the decoder
    leaves the mapped planar buffer (the framebuffer itself, or the linear
    copy of a Y or Yf tiled one) and no write leaves the packed map; both
    buffers hold the picture; and the packed map has the decoded byte of
    every channel of every pixel. *)
Theorem created_nv12_view_decoded (fuel : nat) (k : kernel) (fd : device)
    (w h tiling pagesize : Z) (uninit : list Z) (fb : igt_fb) :
  1 <= w < 2 ^ 14 -> 1 <= h < 2 ^ 14 ->
  igt_create_fb fuel k fd w h DRM_FORMAT_NV12 tiling = Ok fb ->
  length uninit = 4%nat ->
  (exists p : Z, 0 <= p <= 30 /\ pagesize = 2 ^ p) ->
  kernel_serves k ->
  exists blit : fb_convert_blit_upload,
    create_cairo_surface__convert fuel k fd pagesize uninit fb = Ok blit
    /\ view_holds w h blit
    /\ forall row col ch : Z,
         0 <= row < h -> 0 <= col < w -> 0 <= ch < 3 ->
         rgb24_map blit !! Z.to_nat (row * rgb24_stride blit + col * 4 + ch)
         = Some (decoded_sample (lin_map (linear blit))
                   (lin_stride (linear blit))
                   (nth 0 (lin_offsets (linear blit)) 0)
                   (nth 1 (lin_offsets (linear blit)) 0) row col ch).
Proof.
  intros Hw Hh Hfb Hun Hpage Hk.
  exact (nv12_view_created fuel k fd w h tiling pagesize uninit fb
           Hw Hh Hfb Hun Hpage Hk).
Qed.

Lemma created_nv12_view_decoded_witness :
  exists (fb : igt_fb) (blit : fb_convert_blit_upload),
    igt_create_fb 0 test_kernel (mk_device true 9 false) 10 7
      DRM_FORMAT_NV12 LOCAL_I915_FORMAT_MOD_X_TILED = Ok fb
    /\ create_cairo_surface__convert 0 test_kernel (mk_device true 9 false)
         4096 [7; 7; 7; 7] fb = Ok blit
    /\ rgb24_map blit !! Z.to_nat (6 * rgb24_stride blit + 9 * 4 + 2)
       = Some (decoded_sample (lin_map (linear blit))
                 (lin_stride (linear blit))
                 (nth 0 (lin_offsets (linear blit)) 0)
                 (nth 1 (lin_offsets (linear blit)) 0) 6 9 2).
Proof.
  assert (Hfb : exists fb : igt_fb,
             igt_create_fb 0 test_kernel (mk_device true 9 false) 10 7
               DRM_FORMAT_NV12 LOCAL_I915_FORMAT_MOD_X_TILED = Ok fb).
  { eexists. vm_compute. reflexivity. }
  destruct Hfb as (fb & Hfb).
  assert (Hpage : exists p : Z, 0 <= p <= 30 /\ 4096 = 2 ^ p)
    by (exists 12; split; [lia | reflexivity]).
  destruct (created_nv12_view_decoded 0 test_kernel (mk_device true 9 false)
              10 7 LOCAL_I915_FORMAT_MOD_X_TILED 4096 [7; 7; 7; 7] fb
              ltac:(vm_compute; split; congruence)
              ltac:(vm_compute; split; congruence)
              Hfb eq_refl Hpage test_kernel_serves)
    as (blit & Hblit & _ & Hpix).
  exists fb, blit. split; [exact Hfb|]. split; [exact Hblit|].
  apply (Hpix 6 9 2); lia.
Defined.

(** X15.  Writing the packed view of such a framebuffer back, whatever was
    painted into the packed map: [destroy_cairo_surface__convert] returns,
    so that no read of the encoder leaves the packed map and no write the
    planar buffer; the planar buffer holds the encoded byte of every luma
    and chroma sample of the picture, and is unchanged everywhere else. *)
Theorem created_nv12_view_written_back (fuel : nat) (k : kernel)
    (fd : device) (w h tiling pagesize : Z) (uninit : list Z) (fb : igt_fb)
    (blit : fb_convert_blit_upload) (painted : list Z) :
  1 <= w < 2 ^ 14 -> 1 <= h < 2 ^ 14 ->
  igt_create_fb fuel k fd w h DRM_FORMAT_NV12 tiling = Ok fb ->
  length uninit = 4%nat ->
  (exists p : Z, 0 <= p <= 30 /\ pagesize = 2 ^ p) ->
  kernel_serves k ->
  create_cairo_surface__convert fuel k fd pagesize uninit fb = Ok blit ->
  length painted = length (rgb24_map blit) ->
  exists map' : list Z,
    destroy_cairo_surface__convert fb
      (mk_blit painted (rgb24_stride blit) (rgb24_size blit) (linear blit))
    = Ok map'
    /\ encoded painted (lin_map (linear blit)) w h (rgb24_stride blit)
         (lin_stride (linear blit))
         (nth 0 (lin_offsets (linear blit)) 0)
         (nth 1 (lin_offsets (linear blit)) 0) map'.
Proof.
  intros Hw Hh Hfb Hun Hpage Hk Hblit Hpainted.
  destruct (nv12_view_created fuel k fd w h tiling pagesize uninit fb
              Hw Hh Hfb Hun Hpage Hk) as (blit' & Hblit' & Hview & _).
  rewrite Hblit in Hblit'. injection Hblit' as <-.
  destruct (created_nv12_fb fuel k fd w h tiling fb ltac:(lia) ltac:(lia) Hfb)
    as (_ & Hfh & Hfmt & _ & Hpw & Hph & _).
  unfold destroy_cairo_surface__convert. rewrite Hfmt.
  change (DRM_FORMAT_NV12 =? DRM_FORMAT_NV12) with true.
  cbn [igt_assert obind].
  destruct (view_encode w h fb
              (mk_blit painted (rgb24_stride blit) (rgb24_size blit)
                 (linear blit))
              ltac:(lia) ltac:(lia) Hfmt Hfh Hpw Hph)
    as (map' & -> & Henc).
  { unfold view_holds in Hview |- *.
    cbn [rgb24_map rgb24_stride linear]. rewrite Hpainted. exact Hview. }
  exists map'. split; [reflexivity | exact Henc].
Qed.

Lemma created_nv12_view_written_back_witness :
  exists (fb : igt_fb) (blit : fb_convert_blit_upload) (map' : list Z),
    igt_create_fb 0 test_kernel (mk_device true 9 false) 5 3
      DRM_FORMAT_NV12 LOCAL_I915_FORMAT_MOD_Yf_TILED = Ok fb
    /\ create_cairo_surface__convert 0 test_kernel (mk_device true 9 false)
         4096 [7; 7; 7; 7] fb = Ok blit
    /\ destroy_cairo_surface__convert fb blit = Ok map'
    /\ length map' = length (lin_map (linear blit)).
Proof.
  assert (Hfb : exists fb : igt_fb,
             igt_create_fb 0 test_kernel (mk_device true 9 false) 5 3
               DRM_FORMAT_NV12 LOCAL_I915_FORMAT_MOD_Yf_TILED = Ok fb).
  { eexists. vm_compute. reflexivity. }
  destruct Hfb as (fb & Hfb).
  assert (Hpage : exists p : Z, 0 <= p <= 30 /\ 4096 = 2 ^ p)
    by (exists 12; split; [lia | reflexivity]).
  destruct (nv12_view_created 0 test_kernel (mk_device true 9 false)
              5 3 LOCAL_I915_FORMAT_MOD_Yf_TILED 4096 [7; 7; 7; 7] fb
              ltac:(vm_compute; split; congruence)
              ltac:(vm_compute; split; congruence)
              Hfb eq_refl Hpage test_kernel_serves)
    as (blit & Hblit & _).
  destruct (created_nv12_view_written_back 0 test_kernel
              (mk_device true 9 false) 5 3 LOCAL_I915_FORMAT_MOD_Yf_TILED
              4096 [7; 7; 7; 7] fb blit (rgb24_map blit)
              ltac:(vm_compute; split; congruence)
              ltac:(vm_compute; split; congruence)
              Hfb eq_refl Hpage test_kernel_serves Hblit eq_refl)
    as (map' & Hd & Hlen & _).
  exists fb, blit, map'. split; [exact Hfb|]. split; [exact Hblit|].
  split; [|exact Hlen].
  destruct blit as [m s z l]. exact Hd.
Defined.

(** ** The records of a created framebuffer *)

(** X16.  What [igt_create_fb_with_bo_size] records for a width and a height
    an [int] holds from 0 on: the request itself, one plane of the full
    size and the bits per pixel of the format for the four packed formats,
    and for NV12 two planes, of 8 bits per sample at full size and of 16
    bits per pair at half the width and half the height, rounded up; the
    entries of the planes a format does not have stay zero. *)
Theorem created_fb_planes (fuel : nat) (k : kernel) (fd : device)
    (width height format tiling bo_size bo_stride : Z) (fb : igt_fb)
    (f : format_desc_struct) :
  0 <= width < 2 ^ 31 -> 0 <= height < 2 ^ 31 ->
  igt_create_fb_with_bo_size fuel k fd width height format tiling
    bo_size bo_stride = Ok fb ->
  lookup_drm_format format = Some f ->
  fb_width fb = width /\ fb_height fb = height
  /\ fb_drm_format fb = format /\ fb_tiling fb = tiling
  /\ (if format =? DRM_FORMAT_NV12 then
        fb_num_planes fb = 2
        /\ fb_plane_bpp fb = [8; 16; 0; 0]
        /\ fb_plane_width fb = [width; (width + 1) / 2; 0; 0]
        /\ fb_plane_height fb = [height; (height + 1) / 2; 0; 0]
      else
        fb_num_planes fb = 1
        /\ fb_plane_bpp fb = [bpp f; 0; 0; 0]
        /\ fb_plane_width fb = [width; 0; 0; 0]
        /\ fb_plane_height fb = [height; 0; 0; 0]).
Proof.
  intros Hw Hh H Hl. unfold igt_create_fb_with_bo_size in H.
  rewrite Hl in H.
  destruct (create_bo_for_fb _ _ _ _ _ _ _ _ _ _ _ _ _)
    as [[[[[bo sz] st] res] dumb] | | | |]; try discriminate H.
  cbn [obind] in H.
  destruct (igt_assert _); cbn [obind] in H; try discriminate H.
  destruct (kms_addfb _ _ _ _ _ _ _ _); cbn [obind] in H; try discriminate H.
  destruct (plane_fields_loop _ _ _ _ _ _) as [[pb ph] pw] eqn:Hloop.
  injection H as <-.
  cbn [fb_width fb_height fb_drm_format fb_tiling fb_num_planes fb_plane_bpp
       fb_plane_width fb_plane_height].
  split; [reflexivity|]. split; [reflexivity|]. split; [reflexivity|].
  split; [reflexivity|].
  assert (Hpw0 : planar_width NV12_desc (u32 width) 0 = width).
  { unfold planar_width.
    change ((drm_id NV12_desc =? DRM_FORMAT_NV12) && (0 =? 1)) with false.
    cbv iota. apply u32_small. lia. }
  assert (Hph0 : planar_height NV12_desc (u32 height) 0 = height).
  { unfold planar_height.
    change ((drm_id NV12_desc =? DRM_FORMAT_NV12) && (0 =? 1)) with false.
    cbv iota. apply u32_small. lia. }
  pose proof (planar_width_NV12_chroma width Hw) as Hpw1.
  pose proof (planar_height_NV12_chroma height Hh) as Hph1.
  apply lookup_drm_format_cases in Hl as [Hin Hid]. cbn in Hin.
  destruct Hin as [<- | [<- | [<- | [<- | [<- | []]]]]]; cbn in Hid;
    subst format; cbn [planes bpp] in Hloop |- *.
  5: { change (Z.to_nat 2) with 2%nat in Hloop.
       cbn [plane_fields_loop] in Hloop.
       change (mk_format DRM_FORMAT_NV12 CAIRO_FORMAT_RGB24 "NV12" 32
                 (-1) 2 [8; 16; 0; 0]) with NV12_desc in Hloop.
       change (0 + 1) with 1 in Hloop.
       rewrite Hpw0, Hph0, Hpw1, Hph1 in Hloop.
       injection Hloop as <- <- <-. repeat split; reflexivity. }
  all: change (Z.to_nat 0) with 0%nat in Hloop;
    cbn [plane_fields_loop] in Hloop;
    rewrite (u32_small width), (u32_small height) in Hloop by lia;
    injection Hloop as <- <- <-; repeat split; reflexivity.
Qed.

Lemma created_fb_planes_witness :
  exists fb : igt_fb,
    igt_create_fb_with_bo_size 0 test_kernel (mk_device true 9 false)
      1366 768 DRM_FORMAT_RGB565 LOCAL_I915_FORMAT_MOD_X_TILED 0 0 = Ok fb
    /\ fb_num_planes fb = 1
    /\ fb_plane_bpp fb = [16; 0; 0; 0]
    /\ fb_plane_width fb = [1366; 0; 0; 0]
    /\ fb_plane_height fb = [768; 0; 0; 0].
Proof.
  assert (Hr : exists fb : igt_fb,
             igt_create_fb_with_bo_size 0 test_kernel (mk_device true 9 false)
               1366 768 DRM_FORMAT_RGB565 LOCAL_I915_FORMAT_MOD_X_TILED
               0 0 = Ok fb).
  { eexists. vm_compute. reflexivity. }
  destruct Hr as (fb & Hfb). exists fb. split; [exact Hfb|].
  destruct (created_fb_planes 0 test_kernel (mk_device true 9 false)
              1366 768 DRM_FORMAT_RGB565 LOCAL_I915_FORMAT_MOD_X_TILED 0 0
              fb _ ltac:(vm_compute; split; congruence)
              ltac:(vm_compute; split; congruence) Hfb eq_refl)
    as (_ & _ & _ & _ & Hp).
  exact Hp.
Defined.

(** ** The linear copy of a single-plane framebuffer *)

(** X17.  For a framebuffer of a single-plane format,
    [setup_linear_mapping] asks for a linear buffer with no size and no
    stride, so that on every device the copy is a dumb buffer of the
    stride and size [kmstest_dumb_create] answers, never one from
    [gem_create]; and nothing is stored in [linear->offsets], which is
    left holding what it held before the call. *)
Theorem linear_copy_single_plane (fuel : nat) (k : kernel) (fd : device)
    (uninit : list Z) (fb : igt_fb) (f : format_desc_struct)
    (lin : fb_blit_linear) :
  lookup_drm_format (fb_drm_format fb) = Some f ->
  planes f <= 1 ->
  setup_linear_mapping fuel k fd uninit fb = Ok lin ->
  lin_is_dumb lin = true
  /\ lin_offsets lin = uninit
  /\ 0 < lin_handle lin
  /\ lin_map lin = gem_mmap k (lin_handle lin) (lin_size lin)
  /\ exists bo : Z,
       kmstest_dumb_create k (fb_width fb) (fb_height fb) (bpp f)
       = (bo, lin_stride lin, lin_size lin)
       /\ lin_handle lin = u32 bo.
Proof.
  intros Hl Hp H. unfold setup_linear_mapping in H.
  destruct (igt_fb_mod_to_tiling (fb_tiling fb)); cbn [obind] in H;
    try discriminate H.
  rewrite Hl in H. unfold create_bo_for_fb in H.
  change (LOCAL_DRM_FORMAT_MOD_NONE =? 0) with true in H.
  change (0 =? 0) with true in H.
  destruct (Z.gtb_spec (planes f) 1) as [? | _]; [lia|].
  cbn [negb orb] in H.
  destruct (kmstest_dumb_create k (fb_width fb) (fb_height fb) (bpp f))
    as [[bo st] sz].
  cbn [obind] in H.
  destruct (Z.gtb_spec (u32 bo) 0) as [Hbo | _];
    cbn [igt_assert obind] in H; [|discriminate H].
  injection H as <-.
  cbn [lin_is_dumb lin_offsets lin_handle lin_map lin_size lin_stride
       default].
  split; [reflexivity|]. split; [reflexivity|]. split; [lia|].
  split; [reflexivity|]. exists bo. split; reflexivity.
Qed.

Lemma linear_copy_single_plane_witness :
  exists (fb : igt_fb) (lin : fb_blit_linear),
    igt_create_fb 0 test_kernel (mk_device true 9 false) 64 64
      DRM_FORMAT_XRGB8888 LOCAL_I915_FORMAT_MOD_Y_TILED = Ok fb
    /\ setup_linear_mapping 0 test_kernel (mk_device true 9 false)
         [7; 7; 7; 7] fb = Ok lin
    /\ lin_is_dumb lin = true
    /\ lin_offsets lin = [7; 7; 7; 7].
Proof.
  assert (Hr : exists (fb : igt_fb) (lin : fb_blit_linear),
             igt_create_fb 0 test_kernel (mk_device true 9 false) 64 64
               DRM_FORMAT_XRGB8888 LOCAL_I915_FORMAT_MOD_Y_TILED = Ok fb
             /\ setup_linear_mapping 0 test_kernel (mk_device true 9 false)
                  [7; 7; 7; 7] fb = Ok lin
             /\ fb_drm_format fb = DRM_FORMAT_XRGB8888).
  { eexists. eexists. split; [vm_compute; reflexivity|].
    split; [vm_compute; reflexivity | reflexivity]. }
  destruct Hr as (fb & lin & Hfb & Hlin & Hfmt).
  exists fb, lin. split; [exact Hfb|]. split; [exact Hlin|].
  destruct (linear_copy_single_plane 0 test_kernel (mk_device true 9 false)
              [7; 7; 7; 7] fb
              (mk_format DRM_FORMAT_XRGB8888 CAIRO_FORMAT_RGB24 "XRGB8888"
                 32 24 0 [0; 0; 0; 0]) lin
              ltac:(rewrite Hfmt; reflexivity) ltac:(cbn; lia) Hlin)
    as (Hd & Ho & _).
  split; [exact Hd | exact Ho].
Defined.

(** ** The planar layout in integers *)

Lemma ceil_half_spec (d : Z) : is_ceil_half d (ceil_half d).
Proof.
  unfold is_ceil_half, ceil_half.
  pose proof (Z.div_mod d 2 ltac:(lia)).
  pose proof (Z.mod_pos_bound d 2 ltac:(lia)).
  lia.
Qed.






(** ** The bytes the converters store *)

Lemma encoded_luma_value (rgb : list Z) (rs r c : Z) :
  encoded_luma rgb rs r c = f32.to_u8 (luma_value rgb rs r c).
Proof. reflexivity. Qed.

Lemma encoded_chroma_value (rgb : list Z) (rs h i j k : Z) :
  encoded_chroma rgb rs h i j k = f32.to_u8 (chroma_value rgb rs h i j k).
Proof.
  unfold encoded_chroma, chroma_value.
  destruct (if k =? 0 then u_coeffs else v_coeffs) as [[cr cg] cb].
  destruct (2 * i + 1 <? h); reflexivity.
Qed.

Lemma chroma_value_pair (rgb : list Z) (rs h i j k : Z) :
  2 * i + 1 < h ->
  chroma_value rgb rs h i j k
  = chroma_of_pair (fst (fst (if k =? 0 then u_coeffs else v_coeffs)))
      (snd (fst (if k =? 0 then u_coeffs else v_coeffs)))
      (snd (if k =? 0 then u_coeffs else v_coeffs))
      (nth (Z.to_nat (2 * i * rs + (j * 8 + 2))) rgb 0)
      (nth (Z.to_nat (2 * i * rs + (j * 8 + 2 + rs))) rgb 0)
      (nth (Z.to_nat (2 * i * rs + (j * 8 + 1))) rgb 0)
      (nth (Z.to_nat (2 * i * rs + (j * 8 + 1 + rs))) rgb 0)
      (nth (Z.to_nat (2 * i * rs + j * 8)) rgb 0)
      (nth (Z.to_nat (2 * i * rs + (j * 8 + rs))) rgb 0).
Proof.
  intros H. unfold chroma_value.
  destruct (Z.ltb_spec (2 * i + 1) h) as [_ | ?]; [|lia].
  destruct (if k =? 0 then u_coeffs else v_coeffs) as [[cr cg] cb].
  reflexivity.
Qed.

Lemma chroma_value_single (rgb : list Z) (rs h i j k : Z) :
  h <= 2 * i + 1 ->
  chroma_value rgb rs h i j k
  = chroma_of_single (fst (fst (if k =? 0 then u_coeffs else v_coeffs)))
      (snd (fst (if k =? 0 then u_coeffs else v_coeffs)))
      (snd (if k =? 0 then u_coeffs else v_coeffs))
      (nth (Z.to_nat (2 * i * rs + (j * 8 + 2))) rgb 0)
      (nth (Z.to_nat (2 * i * rs + (j * 8 + 1))) rgb 0)
      (nth (Z.to_nat (2 * i * rs + j * 8)) rgb 0).
Proof.
  intros H. unfold chroma_value.
  destruct (Z.ltb_spec (2 * i + 1) h) as [? | _]; [lia|].
  destruct (if k =? 0 then u_coeffs else v_coeffs) as [[cr cg] cb].
  reflexivity.
Qed.

Lemma chroma_value_pair_u (rgb : list Z) (rs h i j : Z) :
  2 * i + 1 < h ->
  chroma_value rgb rs h i j 0
  = chroma_of_pair (f32.opp (f32.milli 101)) (f32.opp (f32.milli 339))
      (f32.milli 439)
      (nth (Z.to_nat (2 * i * rs + (j * 8 + 2))) rgb 0)
      (nth (Z.to_nat (2 * i * rs + (j * 8 + 2 + rs))) rgb 0)
      (nth (Z.to_nat (2 * i * rs + (j * 8 + 1))) rgb 0)
      (nth (Z.to_nat (2 * i * rs + (j * 8 + 1 + rs))) rgb 0)
      (nth (Z.to_nat (2 * i * rs + j * 8)) rgb 0)
      (nth (Z.to_nat (2 * i * rs + (j * 8 + rs))) rgb 0).
Proof. intros H. exact (chroma_value_pair rgb rs h i j 0 H). Qed.

Lemma chroma_value_pair_v (rgb : list Z) (rs h i j : Z) :
  2 * i + 1 < h ->
  chroma_value rgb rs h i j 1
  = chroma_of_pair (f32.milli 439) (f32.opp (f32.milli 339))
      (f32.opp (f32.milli 40))
      (nth (Z.to_nat (2 * i * rs + (j * 8 + 2))) rgb 0)
      (nth (Z.to_nat (2 * i * rs + (j * 8 + 2 + rs))) rgb 0)
      (nth (Z.to_nat (2 * i * rs + (j * 8 + 1))) rgb 0)
      (nth (Z.to_nat (2 * i * rs + (j * 8 + 1 + rs))) rgb 0)
      (nth (Z.to_nat (2 * i * rs + j * 8)) rgb 0)
      (nth (Z.to_nat (2 * i * rs + (j * 8 + rs))) rgb 0).
Proof. intros H. exact (chroma_value_pair rgb rs h i j 1 H). Qed.

Lemma chroma_value_single_u (rgb : list Z) (rs h i j : Z) :
  h <= 2 * i + 1 ->
  chroma_value rgb rs h i j 0
  = chroma_of_single (f32.opp (f32.milli 101)) (f32.opp (f32.milli 339))
      (f32.milli 439)
      (nth (Z.to_nat (2 * i * rs + (j * 8 + 2))) rgb 0)
      (nth (Z.to_nat (2 * i * rs + (j * 8 + 1))) rgb 0)
      (nth (Z.to_nat (2 * i * rs + j * 8)) rgb 0).
Proof. intros H. exact (chroma_value_single rgb rs h i j 0 H). Qed.

Lemma chroma_value_single_v (rgb : list Z) (rs h i j : Z) :
  h <= 2 * i + 1 ->
  chroma_value rgb rs h i j 1
  = chroma_of_single (f32.milli 439) (f32.opp (f32.milli 339))
      (f32.opp (f32.milli 40))
      (nth (Z.to_nat (2 * i * rs + (j * 8 + 2))) rgb 0)
      (nth (Z.to_nat (2 * i * rs + (j * 8 + 1))) rgb 0)
      (nth (Z.to_nat (2 * i * rs + j * 8)) rgb 0).
Proof. intros H. exact (chroma_value_single rgb rs h i j 1 H). Qed.

(** The conversion to [uint8_t] of an encoder intermediate of bytes is the
    clamp: the intermediate lies in the range of the bytes. *)
Lemma luma_byte (r g b : Z) :
  0 <= r <= 255 -> 0 <= g <= 255 -> 0 <= b <= 255 ->
  f32.to_u8 (luma_of_rgb r g b) = clamp_trunc (luma_of_rgb r g b).
Proof.
  intros Hr Hg Hb.
  pose proof (luma_of_rgb_near r g b Hr Hg Hb) as Hn.
  apply near_in_range in Hn; [|lia ..].
  apply to_u8_clamp_trunc; apply Hn.
Qed.

Lemma chroma_pair_u_byte (r0 r1 g0 g1 b0 b1 : Z) :
  0 <= r0 <= 255 -> 0 <= r1 <= 255 -> 0 <= g0 <= 255 -> 0 <= g1 <= 255 ->
  0 <= b0 <= 255 -> 0 <= b1 <= 255 ->
  f32.to_u8
    (chroma_of_pair (f32.opp (f32.milli 101)) (f32.opp (f32.milli 339))
       (f32.milli 439) r0 r1 g0 g1 b0 b1)
  = clamp_trunc
      (chroma_of_pair (f32.opp (f32.milli 101)) (f32.opp (f32.milli 339))
         (f32.milli 439) r0 r1 g0 g1 b0 b1).
Proof.
  intros Hr0 Hr1 Hg0 Hg1 Hb0 Hb1.
  pose proof (chroma_of_pair_u_near r0 r1 g0 g1 b0 b1
                Hr0 Hr1 Hg0 Hg1 Hb0 Hb1) as Hp.
  unfold u_coeffs in Hp.
  apply near_in_range in Hp; [|lia ..].
  apply to_u8_clamp_trunc; apply Hp.
Qed.

Lemma chroma_pair_v_byte (r0 r1 g0 g1 b0 b1 : Z) :
  0 <= r0 <= 255 -> 0 <= r1 <= 255 -> 0 <= g0 <= 255 -> 0 <= g1 <= 255 ->
  0 <= b0 <= 255 -> 0 <= b1 <= 255 ->
  f32.to_u8
    (chroma_of_pair (f32.milli 439) (f32.opp (f32.milli 339))
       (f32.opp (f32.milli 40)) r0 r1 g0 g1 b0 b1)
  = clamp_trunc
      (chroma_of_pair (f32.milli 439) (f32.opp (f32.milli 339))
         (f32.opp (f32.milli 40)) r0 r1 g0 g1 b0 b1).
Proof.
  intros Hr0 Hr1 Hg0 Hg1 Hb0 Hb1.
  pose proof (chroma_of_pair_v_near r0 r1 g0 g1 b0 b1
                Hr0 Hr1 Hg0 Hg1 Hb0 Hb1) as Hp.
  unfold v_coeffs in Hp.
  apply near_in_range in Hp; [|lia ..].
  apply to_u8_clamp_trunc; apply Hp.
Qed.

Lemma chroma_single_u_byte (r g b : Z) :
  0 <= r <= 255 -> 0 <= g <= 255 -> 0 <= b <= 255 ->
  f32.to_u8
    (chroma_of_single (f32.opp (f32.milli 101)) (f32.opp (f32.milli 339))
       (f32.milli 439) r g b)
  = clamp_trunc
      (chroma_of_single (f32.opp (f32.milli 101)) (f32.opp (f32.milli 339))
         (f32.milli 439) r g b).
Proof.
  intros Hr Hg Hb.
  pose proof (chroma_of_single_u_near r g b Hr Hg Hb) as Hs.
  unfold u_coeffs in Hs.
  apply near_in_range in Hs; [|lia ..].
  apply to_u8_clamp_trunc; apply Hs.
Qed.

Lemma chroma_single_v_byte (r g b : Z) :
  0 <= r <= 255 -> 0 <= g <= 255 -> 0 <= b <= 255 ->
  f32.to_u8
    (chroma_of_single (f32.milli 439) (f32.opp (f32.milli 339))
       (f32.opp (f32.milli 40)) r g b)
  = clamp_trunc
      (chroma_of_single (f32.milli 439) (f32.opp (f32.milli 339))
         (f32.opp (f32.milli 40)) r g b).
Proof.
  intros Hr Hg Hb.
  pose proof (chroma_of_single_v_near r g b Hr Hg Hb) as Hs.
  unfold v_coeffs in Hs.
  apply near_in_range in Hs; [|lia ..].
  apply to_u8_clamp_trunc; apply Hs.
Qed.

Lemma luma_value_byte (rgb : list Z) (rs r c : Z) :
  Forall (fun v => 0 <= v <= 255) rgb ->
  f32.to_u8 (luma_value rgb rs r c) = clamp_trunc (luma_value rgb rs r c).
Proof.
  intros Hb. unfold luma_value. apply luma_byte; apply nth_byte; exact Hb.
Qed.

Lemma chroma_value_byte (rgb : list Z) (rs h i j k : Z) :
  Forall (fun v => 0 <= v <= 255) rgb -> 0 <= k < 2 ->
  f32.to_u8 (chroma_value rgb rs h i j k)
  = clamp_trunc (chroma_value rgb rs h i j k).
Proof.
  intros Hb Hk.
  assert (Hk01 : k = 0 \/ k = 1) by lia.
  destruct (Z_lt_le_dec (2 * i + 1) h) as [Hpair | Hlast];
    destruct Hk01 as [-> | ->].
  - rewrite (chroma_value_pair_u rgb rs h i j Hpair).
    apply chroma_pair_u_byte; apply nth_byte; exact Hb.
  - rewrite (chroma_value_pair_v rgb rs h i j Hpair).
    apply chroma_pair_v_byte; apply nth_byte; exact Hb.
  - rewrite (chroma_value_single_u rgb rs h i j Hlast).
    apply chroma_single_u_byte; apply nth_byte; exact Hb.
  - rewrite (chroma_value_single_v rgb rs h i j Hlast).
    apply chroma_single_v_byte; apply nth_byte; exact Hb.
Qed.

(** C4.  Both converters on the buffers of a [w] by [h] NV12 picture, all
    of them arrays of bytes: each returns, and every sample it stores is
    its single-precision intermediate clamped to [[0, 255]] and truncated.
    The decoder stores that for each of the three channels of each pixel
    ([clamprgb] is the clamp).  The encoder converts its luma and chroma
    intermediates to [uint8_t] with no clamp; for bytes they lie in
    [[0, 255]], so the luma sample of every pixel and the Cb and Cr
    samples of every block, those of the last row of an odd height too,
    are the clamped and truncated intermediates as well, and no byte is
    an out-of-range value wrapped around. *)
Theorem converters_clamp_and_truncate (buf out0 rgb : list Z)
    (w h rs ps offy offuv size : Z) (fb : igt_fb) (lin : fb_blit_linear) :
  0 <= w -> 0 <= h -> 4 * w <= rs < 2 ^ 30 ->
  w + w mod 2 <= ps < 2 ^ 30 ->
  0 <= offy -> offy + h * ps <= offuv ->
  offuv + (h + 1) / 2 * ps <= Z.of_nat (length buf) ->
  h * rs <= Z.of_nat (length out0) ->
  h * rs <= Z.of_nat (length rgb) ->
  Forall (fun v => 0 <= v <= 255) buf ->
  Forall (fun v => 0 <= v <= 255) rgb ->
  fb_drm_format fb = DRM_FORMAT_NV12 ->
  fb_width fb = w -> fb_height fb = h ->
  fb_plane_height fb = [h; (h + 1) / 2; 0; 0] ->
  fb_plane_width fb = [w; (w + 1) / 2; 0; 0] ->
  lin_stride lin = ps -> lin_map lin = buf ->
  lin_size lin = Z.of_nat (length buf) ->
  nth 0 (lin_offsets lin) 0 = offy ->
  nth 1 (lin_offsets lin) 0 = offuv ->
  (exists out : list Z,
      convert_nv12_to_rgb24 fb (mk_blit out0 rs size lin) = Ok out
      /\ forall row col ch : Z,
           0 <= row < h -> 0 <= col < w -> 0 <= ch < 3 ->
           out !! Z.to_nat (row * rs + col * 4 + ch)
           = Some (clamp_trunc (decoded_value buf ps offy offuv row col ch)))
  /\ (exists map' : list Z,
         convert_rgb24_to_nv12 fb (mk_blit rgb rs size lin) = Ok map'
         /\ (forall r c : Z,
                0 <= r < h -> 0 <= c < w ->
                map' !! Z.to_nat (offy + r * ps + c)
                = Some (clamp_trunc (luma_value rgb rs r c)))
         /\ (forall i j k : Z,
                0 <= i < (h + 1) / 2 -> 0 <= j < (w + 1) / 2 ->
                0 <= k < 2 ->
                map' !! Z.to_nat (offuv + i * ps + (j * 2 + k))
                = Some (clamp_trunc (chroma_value rgb rs h i j k)))).
Proof.
  intros Hw Hh Hrs Hps Hoffy Hplanes Hchroma Hout Hrgb Hbuf Hbytes Hfmt Hfw
    Hfh Hph Hpw Hlps Hlmap Hlsize Hoy Houv.
  pose proof (Z.mod_pos_bound w 2 ltac:(lia)) as Hwm.
  assert (Hhp : 0 <= h * ps) by (apply Z.mul_nonneg_nonneg; lia).
  assert (Hhalf : 0 <= (h + 1) / 2 * ps)
    by (apply Z.mul_nonneg_nonneg; [apply Z.div_pos; lia | lia]).
  split.
  - destruct (nv12_decode_any buf out0 w h rs ps offy offuv Hw Hh Hrs Hps
                Hoffy ltac:(lia) ltac:(lia) Hchroma Hout fb
                (mk_blit out0 rs size lin) Hfw Hfh eq_refl eq_refl Hlps)
      as (out & Hdec & _ & _ & Hsamples); try assumption.
    { cbn [linear]. rewrite Hlmap, Hlsize. apply take_ge. lia. }
    { cbn [linear]. rewrite Hlmap, Hlsize. lia. }
    exists out. split; [exact Hdec|].
    intros row col ch Hr Hc Hch.
    rewrite (Hsamples row col ch) by (unfold valid_sample; lia).
    f_equal. rewrite decoded_sample_channel. unfold decoded_value.
    apply clamprgb_clamp_trunc, channel_value_fcan;
      apply nth_byte; exact Hbuf.
  - destruct (nv12_encode_any rgb buf w h rs ps offy offuv Hw Hh Hrs Hps
                Hoffy Hplanes Hchroma Hrgb fb (mk_blit rgb rs size lin))
      as (map' & Henc & _ & Hel & Hec & _);
      try solve [assumption | reflexivity
                | rewrite Hph; reflexivity | rewrite Hpw; reflexivity].
    exists map'. split; [exact Henc|]. split.
    + intros r c Hr Hc. rewrite (Hel r c Hr Hc). f_equal.
      rewrite encoded_luma_value. apply luma_value_byte. exact Hbytes.
    + intros i j k Hi Hj Hk. rewrite (Hec i j k Hi Hj Hk). f_equal.
      rewrite encoded_chroma_value. apply chroma_value_byte; assumption.
Qed.

Lemma converters_clamp_and_truncate_witness :
  (exists out : list Z,
      convert_nv12_to_rgb24 fb_2x2
        (mk_blit (replicate 32 0) 16 32
           (mk_linear 0 192 64 (replicate 192 16) false [0; 128; 0; 0]))
      = Ok out
      /\ out !! Z.to_nat (1 * 16 + 1 * 4 + 2)
         = Some (clamp_trunc (decoded_value (replicate 192 16) 64 0 128
                                1 1 2)))
  /\ (exists map' : list Z,
         convert_rgb24_to_nv12 fb_2x2
           (mk_blit (replicate 32 255) 16 32
              (mk_linear 0 192 64 (replicate 192 16) false [0; 128; 0; 0]))
         = Ok map'
         /\ map' !! Z.to_nat (0 + 1 * 64 + 1)
            = Some (clamp_trunc (luma_value (replicate 32 255) 16 1 1))).
Proof.
  assert (Hbuf : Forall (fun v => 0 <= v <= 255) (replicate 192 16)).
  { apply Forall_forall. intros v Hv. apply elem_of_replicate in Hv. lia. }
  assert (Hrgb : Forall (fun v => 0 <= v <= 255) (replicate 32 255)).
  { apply Forall_forall. intros v Hv. apply elem_of_replicate in Hv. lia. }
  destruct (converters_clamp_and_truncate (replicate 192 16) (replicate 32 0)
              (replicate 32 255) 2 2 16 64 0 128 32 fb_2x2
              (mk_linear 0 192 64 (replicate 192 16) false [0; 128; 0; 0])
              ltac:(lia) ltac:(lia) ltac:(lia)
              ltac:(vm_compute; split; congruence) ltac:(lia) ltac:(lia)
              ltac:(vm_compute; congruence) ltac:(vm_compute; congruence)
              ltac:(vm_compute; congruence)
              Hbuf Hrgb eq_refl eq_refl eq_refl eq_refl eq_refl eq_refl
              eq_refl eq_refl eq_refl eq_refl)
    as ((out & Hd & Hpix) & (map' & He & Hl & _)).
  split.
  - exists out. split; [exact Hd|]. apply (Hpix 1 1 2); lia.
  - exists map'. split; [exact He|]. apply (Hl 1 1); lia.
Defined.
